(** * ALSA <-> Oboe PCM I/O plugin: a shallow embedding of [pcm_oboe.cpp]

    The plugin is a table of callbacks over one [OboePcm] object that owns
    at most one [oboe::AudioStream].  The Oboe stream and its builder are an
    external library: they are taken here as an interface (a type class),
    so every statement below holds for every backend, and a small simulated
    backend instantiates the interface for concrete runs.

    Conventions of the embedding:
    - integers are [Z]; a conversion that C++ performs implicitly is
      written out with [wrap_unsigned] / [wrap_signed] (LP64 data model:
      [long] and [snd_pcm_uframes_t] are 64 bits wide, [int] is 32);
    - [ext->private_data] is an optional address into a heap of [OboePcm]
      objects, so that detaching the pointer and deleting the object are
      two different things;
    - every call into the backend appends an [Event] carrying the values
      the backend answered, every line written to [std::cerr] appends a
      [Diag];
    - a callback is a computation in a state-and-fault monad; dereferencing
      a null pointer, indexing past an array or dividing by zero is a
      [Fault], and so is running out of loop fuel;
    - [std::scoped_lock] is not modelled: callbacks run one at a time. *)

From Stdlib Require Import ZArith List Lia Bool.
From stdpp Require Import base decidable option list gmap.
Import ListNotations.
Local Open Scope Z_scope.

(** ** Machine integers *)

Definition wrap_unsigned (bits x : Z) : Z := x mod 2 ^ bits.

Definition wrap_signed (bits x : Z) : Z :=
  (x + 2 ^ (bits - 1)) mod 2 ^ bits - 2 ^ (bits - 1).

Definition to_int32 : Z -> Z := wrap_signed 32.
Definition to_int64 : Z -> Z := wrap_signed 64.
Definition to_long : Z -> Z := wrap_signed 64.
Definition to_ulong : Z -> Z := wrap_unsigned 64.

Definition INT64_MIN : Z := - 2 ^ 63.
Definition INT64_MAX : Z := 2 ^ 63 - 1.

(** ** Constants of the C library and of ALSA *)

Definition EIO : Z := 5.
Definition EAGAIN : Z := 11.
Definition EINVAL : Z := 22.
Definition EBADFD : Z := 77.

Definition SND_PCM_FORMAT_S16_LE : Z := 2.
Definition SND_PCM_FORMAT_S32_LE : Z := 10.
Definition SND_PCM_FORMAT_FLOAT_LE : Z := 14.
Definition SND_PCM_FORMAT_S24_3LE : Z := 32.

(** The error vocabulary of the specification, as the status codes the
    callbacks return for it. *)
Definition NotReady : Z := - EBADFD.
Definition BackendError : Z := -1.
Definition WouldBlock : Z := - EAGAIN.
Definition IOError : Z := - EIO.

(** ** The Oboe vocabulary *)

Inductive Result :=
| OK | ErrorBase | ErrorDisconnected | ErrorIllegalArgument | ErrorInternal
| ErrorInvalidState | ErrorInvalidHandle | ErrorUnimplemented
| ErrorUnavailable | ErrorNoFreeHandles | ErrorNoMemory | ErrorNull
| ErrorTimeout | ErrorWouldBlock | ErrorInvalidFormat | ErrorOutOfRange
| ErrorNoService | ErrorInvalidRate | ErrorClosed.

Inductive StreamState :=
| Uninitialized | Unknown | Open | Starting | Started | Pausing | Paused
| Flushing | Flushed | Stopping | Stopped | Closing | Closed | Disconnected.

Inductive AudioFormat := Invalid | Unspecified | I16 | Float | I24 | I32.
Inductive Usage := UsageMedia | UsageGame.
Inductive Direction := Output | Input.
Inductive PerformanceMode := PerfNone | PowerSaving | LowLatency.
Inductive SharingMode := Exclusive | Shared.
Inductive SampleRateConversionQuality :=
| SrcNone | SrcFastest | SrcLow | SrcMedium | SrcHigh | SrcBest.
Inductive AudioApi := ApiUnspecified | OpenSLES | AAudio.

#[global] Instance Result_eq_dec : EqDecision Result.
Proof. solve_decision. Defined.
#[global] Instance StreamState_eq_dec : EqDecision StreamState.
Proof. solve_decision. Defined.
#[global] Instance AudioFormat_eq_dec : EqDecision AudioFormat.
Proof. solve_decision. Defined.

(** [oboe::ResultWithValue<int32_t>]: a value and an error side by side. *)
Record ResultWithValue := { rv_value : Z; rv_error : Result }.

Record AudioStreamBuilder := {
  b_usage : Usage;
  b_direction : Direction;
  b_performanceMode : PerformanceMode;
  b_sharingMode : SharingMode;
  b_format : AudioFormat;
  b_formatConversionAllowed : bool;
  b_channelCount : Z;
  b_channelConversionAllowed : bool;
  b_sampleRate : Z;
  b_sampleRateConversionQuality : SampleRateConversionQuality;
  b_bufferCapacityInFrames : Z;
  b_audioApi : AudioApi
}.

(** The part of [oboe::AudioStream] (and of [AudioStreamBuilder::openStream])
    the plugin calls.  Getters observe the stream; requests, waits and
    writes return the stream they leave behind.  [waitForStateChange]
    answers with the value it stored through its [nextState] pointer, if it
    stored one.  [elapse us] is what the stream does on its own while the
    caller sleeps for [us] microseconds. *)
Class AudioStream (T : Type) := {
  openStream : AudioStreamBuilder -> Result * option T;
  getState : T -> StreamState;
  getFramesWritten : T -> Z;
  getFramesRead : T -> Z;
  getBufferCapacityInFrames : T -> Z;
  requestStart : T -> Result * T;
  requestPause : T -> Result * T;
  requestStop : T -> Result * T;
  requestFlush : T -> Result * T;
  waitForStateChange : StreamState -> Z -> T -> Result * option StreamState * T;
  write : Z -> Z -> Z -> T -> ResultWithValue * T;
  elapse : Z -> T -> T;
  getFramesWritten_int64 :
    forall s, INT64_MIN <= getFramesWritten s <= INT64_MAX
}.

(** ** The host's structures *)

Record snd_pcm_channel_area_t := { addr : Z; first : Z; step : Z }.

Record timespec := { tv_sec : Z; tv_nsec : Z }.

(** The fields of [snd_pcm_ioplug_t] the callbacks read or write. *)
Record snd_pcm_ioplug_t := {
  private_data : option nat;
  format : Z;
  channels : Z;
  rate : Z;
  buffer_size : Z;
  nonblock : Z
}.

Definition set_private_data (p : option nat) (e : snd_pcm_ioplug_t) :=
  {| private_data := p; format := format e; channels := channels e;
     rate := rate e; buffer_size := buffer_size e; nonblock := nonblock e |}.

(** ** Backend calls and diagnostics, as they are observed *)

Inductive Event :=
| EvOpenStream (b : AudioStreamBuilder) (r : Result)
| EvRelease
| EvGetState (st : StreamState)
| EvGetFramesWritten (n : Z)
| EvGetFramesRead (n : Z)
| EvGetBufferCapacityInFrames (n : Z)
| EvRequestStart (r : Result)
| EvRequestPause (r : Result)
| EvRequestStop (r : Result)
| EvRequestFlush (r : Result)
| EvWaitForStateChange (input : StreamState) (timeout : Z)
                       (r : Result) (next : option StreamState)
| EvWrite (address numFrames timeout : Z) (r : ResultWithValue).

Inductive Diag :=
| FailedToStart (r : Result)
| FailedToPause (r : Result)
| FailedToWaitForPause (r : Result)
| FailedToFlush (r : Result)
| FailedToWaitForFlush (r : Result)
| FailedToGetFramesWritten (n : Z)
| FailedToGetFramesRead (n : Z)
| FailedToStartFromTransfer (r : Result)
| NonInterleaved
| FailedToWrite (r : Result)
| CannotWriteInBlockingMode
| FailedToOpen (r : Result)
| BufferSmallerThanRequested (granted requested : Z)
| FailedToStop (r : Result)
| FailedToWaitForStop (r : Result).

Inductive Fault := NullDereference | OutOfBounds | DivisionByZero | OutOfFuel.

Section Plugin.
Context {T : Type} `{AudioStream T}.

(** [NDEBUG] of the build: the interleaving check of [Transfer] is
    compiled only without it. *)
Variable NDEBUG : bool.

(** [class OboePcm]: the one data member besides the mutex. *)
Record OboePcm := { stream : option T }.

Record World := {
  ext : snd_pcm_ioplug_t;
  heap : gmap nat OboePcm;
  events : list Event;
  cerr : list Diag;
  clock : nat -> Z;          (* CLOCK_MONOTONIC, nanoseconds, per reading *)
  clock_reads : nat
}.

Inductive Outcome (A : Type) :=
| Ret (a : A) (w : World)
| Stuck (f : Fault).
Arguments Ret {A} a w.
Arguments Stuck {A} f.

Definition M (A : Type) := World -> Outcome A.

Definition ret {A} (a : A) : M A := fun w => Ret a w.

Definition bind {A B} (m : M A) (k : A -> M B) : M B :=
  fun w => match m w with
           | Ret a w' => k a w'
           | Stuck f => Stuck f
           end.

Definition fail {A} (f : Fault) : M A := fun _ => Stuck f.

Notation "'let*' x ':=' m 'in' k" := (bind m (fun x => k))
  (at level 10, x name, m at level 200, k at level 200, only parsing).

(** *** Primitive effects *)

Definition with_ext (e : snd_pcm_ioplug_t) (w : World) : World :=
  {| ext := e; heap := heap w; events := events w; cerr := cerr w;
     clock := clock w; clock_reads := clock_reads w |}.

Definition with_heap (h : gmap nat OboePcm) (w : World) : World :=
  {| ext := ext w; heap := h; events := events w; cerr := cerr w;
     clock := clock w; clock_reads := clock_reads w |}.

Definition add_event (e : Event) (w : World) : World :=
  {| ext := ext w; heap := heap w; events := events w ++ [e];
     cerr := cerr w; clock := clock w; clock_reads := clock_reads w |}.

Definition add_diag (d : Diag) (w : World) : World :=
  {| ext := ext w; heap := heap w; events := events w;
     cerr := cerr w ++ [d]; clock := clock w;
     clock_reads := clock_reads w |}.

Definition clock_read (w : World) : World :=
  {| ext := ext w; heap := heap w; events := events w; cerr := cerr w;
     clock := clock w; clock_reads := S (clock_reads w) |}.

Definition store_stream (p : nat) (s : option T) (w : World) : World :=
  with_heap (<[p := {| stream := s |}]> (heap w)) w.

Definition get_ext : M snd_pcm_ioplug_t := fun w => Ret (ext w) w.
Definition put_ext (e : snd_pcm_ioplug_t) : M unit :=
  fun w => Ret tt (with_ext e w).
Definition put_heap (h : gmap nat OboePcm) : M unit :=
  fun w => Ret tt (with_heap h w).
Definition emit (e : Event) : M unit := fun w => Ret tt (add_event e w).
Definition log (d : Diag) : M unit := fun w => Ret tt (add_diag d w).

(** The reading of [CLOCK_MONOTONIC] the world is about to give. *)
Definition time_now (w : World) : timespec :=
  let ns := clock w (clock_reads w) in
  {| tv_sec := ns / 1000000000; tv_nsec := ns mod 1000000000 |}.

(** [clock_gettime(CLOCK_MONOTONIC, &t)]. *)
Definition clock_gettime : M timespec :=
  fun w => Ret (time_now w) (clock_read w).

(** [*self] for [self : OboePcm*]. *)
Definition deref (self : option nat) : M OboePcm := fun w =>
  match self with
  | None => Stuck NullDereference
  | Some p => match heap w !! p with
              | Some o => Ret o w
              | None => Stuck NullDereference
              end
  end.

Definition set_stream (self : option nat) (s : option T) : M unit :=
  fun w =>
    match self with
    | None => Stuck NullDereference
    | Some p => match heap w !! p with
                | Some _ => Ret tt (store_stream p s w)
                | None => Stuck NullDereference
                end
    end.

(** [*self->stream]. *)
Definition the_stream (self : option nat) : M T :=
  let* o := deref self in
  match stream o with
  | Some s => ret s
  | None => fail NullDereference
  end.

(** A getter of the stream: observe, record. *)
Definition query {A} (self : option nat) (f : T -> A) (ev : A -> Event)
  : M A :=
  let* s := the_stream self in
  let* _ := emit (ev (f s)) in
  ret (f s).

(** A request to the stream: the stream moves on, the answer is recorded. *)
Definition request {A} (self : option nat) (f : T -> A * T)
    (ev : A -> Event) : M A :=
  let* s := the_stream self in
  let '(a, s') := f s in
  let* _ := set_stream self (Some s') in
  let* _ := emit (ev a) in
  ret a.

(** [usleep(us)]: only the stream's own progress is visible. *)
Definition usleep (self : option nat) (us : Z) : M unit :=
  let* s := the_stream self in
  set_stream self (Some (elapse us s)).

(** [self->stream.reset()]: dropping the last owner closes the stream. *)
Definition stream_reset (self : option nat) : M unit :=
  let* o := deref self in
  match stream o with
  | Some _ => let* _ := set_stream self None in emit EvRelease
  | None => ret tt
  end.

(** *** [class OboePcm] *)

(** The timeout of every wait and of a blocking write, in nanoseconds. *)
Definition TimeoutNanoseconds : Z := 36000000000.

Definition Start : M Z :=
  let* e := get_ext in
  let self := private_data e in
  let* o := deref self in
  if stream o is None then ret (- EBADFD) else
  let* result := request self requestStart EvRequestStart in
  if decide (result <> OK) then
    let* _ := log (FailedToStart result) in ret (-1)
  else ret 0.

Definition Pointer : M Z :=
  let* e := get_ext in
  let self := private_data e in
  let* o := deref self in
  if stream o is None then ret (- EBADFD) else
  let* framesWritten := query self getFramesWritten EvGetFramesWritten in
  if decide (framesWritten < 0) then
    let* _ := log (FailedToGetFramesWritten framesWritten) in ret (-1)
  else
    (* int64_t % unsigned long: computed in unsigned long, returned as long *)
    if decide (buffer_size e = 0) then fail DivisionByZero
    else ret (to_long (to_ulong framesWritten mod buffer_size e)).

(** [~OboePcm]: under the lock, [stream.reset()]. *)
Definition OboePcm_destructor (self : option nat) : M unit :=
  stream_reset self.

(** [delete self]: nothing for the null pointer, otherwise the destructor
    and the release of the storage. *)
Definition delete_OboePcm (self : option nat) : M unit :=
  match self with
  | None => ret tt
  | Some p =>
      let* _ := OboePcm_destructor self in
      fun w => put_heap (delete p (heap w)) w
  end.

Definition Close : M Z :=
  let* e := get_ext in
  let* _ := (if private_data e is Some _ then
     let* _ := put_ext (set_private_data None e) in
     let* e' := get_ext in
     let self := private_data e' in
     delete_OboePcm self
   else ret tt) in
  ret 0.

(** [while (state != target) { result = waitForStateChange(input, &state,
    TimeoutNanoseconds); if (result != OK) { log; return -1; } }].  The
    answer [false] stands for the [return -1] inside the loop.  The first
    loop of [Stop] and the loop of [Drain] pass the current state as
    [input], the second loop of [Stop] always passes [Flushing]. *)
Fixpoint wait_loop (fuel : nat) (self : option nat) (target : StreamState)
    (input : StreamState -> StreamState) (diag : Result -> Diag)
    (state : StreamState) : M bool :=
  if decide (state = target) then ret true else
  match fuel with
  | O => fail OutOfFuel
  | S fuel' =>
      let* answer :=
        request self (waitForStateChange (input state) TimeoutNanoseconds)
          (fun a => EvWaitForStateChange (input state) TimeoutNanoseconds
                      (fst a) (snd a)) in
      let result := fst answer in
      let state' := default state (snd answer) in
      if decide (result <> OK) then
        let* _ := log (diag result) in ret false
      else wait_loop fuel' self target input diag state'
  end.

Definition Stop (fuel : nat) : M Z :=
  let* e := get_ext in
  let self := private_data e in
  let* o := deref self in
  if stream o is None then ret (- EBADFD) else
  let* state := query self getState EvGetState in
  if decide (state = Stopped \/ state = Flushed) then ret 0 else
  let* result := request self requestPause EvRequestPause in
  if decide (result <> OK) then
    let* _ := log (FailedToPause result) in ret (-1)
  else
  let* state := query self getState EvGetState in
  let* paused := wait_loop fuel self Paused id FailedToWaitForPause state in
  if negb paused then ret (-1) else
  let* result := request self requestFlush EvRequestFlush in
  if decide (result <> OK) then
    let* _ := log (FailedToFlush result) in ret (-1)
  else
  let* state := query self getState EvGetState in
  let* flushed := wait_loop fuel self Flushed (fun _ => Flushing)
                    FailedToWaitForFlush state in
  if negb flushed then ret (-1) else ret 0.

(** The debug-build loop over the channel areas: [Some false] when an area
    is not part of one interleaved buffer, [None] when the host passed
    fewer areas than channels. *)
Fixpoint areas_interleaved (areas : list snd_pcm_channel_area_t)
    (firstArea : snd_pcm_channel_area_t) (cs : list nat) : option bool :=
  match cs with
  | [] => Some true
  | c :: cs' =>
      match areas !! c with
      | None => None
      | Some area =>
          if decide (addr area <> addr firstArea \/
                     step area <> step firstArea \/
                     first area >= step firstArea)
          then Some false
          else areas_interleaved areas firstArea cs'
      end
  end.

Definition Transfer (areas : list snd_pcm_channel_area_t)
    (offset size : Z) : M Z :=
  let* e := get_ext in
  let self := private_data e in
  let* o := deref self in
  if stream o is None then ret (- EBADFD) else
  if decide (size = 0) then ret 0 else
  let* state := query self getState EvGetState in
  let* started :=
    (if decide (state <> Started) then
       let* result := request self requestStart EvRequestStart in
       if decide (result <> OK) then
         let* _ := log (FailedToStartFromTransfer result) in ret false
       else ret true
     else ret true) in
  if negb started then ret (-1) else
  match areas !! 0%nat with
  | None => fail OutOfBounds
  | Some firstArea =>
      let address := addr firstArea in
      match (if NDEBUG then Some true
             else areas_interleaved areas firstArea
                    (seq 0 (Z.to_nat (channels e)))) with
      | None => fail OutOfBounds
      | Some false => let* _ := log NonInterleaved in ret (-1)
      | Some true =>
          let timeout :=
            if decide (nonblock e <> 0) then 0 else TimeoutNanoseconds in
          let numFrames := to_int32 size in
          let* result :=
            request self (write address numFrames timeout)
              (EvWrite address numFrames timeout) in
          if decide (rv_error result <> OK) then
            let* _ := log (FailedToWrite (rv_error result)) in ret (-1)
          else if decide (rv_value result = 0) then
            let* _ := (if decide (nonblock e <> 0) then ret tt
                       else log CannotWriteInBlockingMode) in
            ret (- EAGAIN)
          else ret (rv_value result)
      end
  end.

(** The lambda passed to [setFormat]. *)
Definition format_of (fmt : Z) : AudioFormat :=
  if decide (fmt = SND_PCM_FORMAT_S16_LE) then I16
  else if decide (fmt = SND_PCM_FORMAT_FLOAT_LE) then Float
  else if decide (fmt = SND_PCM_FORMAT_S24_3LE) then I24
  else if decide (fmt = SND_PCM_FORMAT_S32_LE) then I32
  else Invalid.

Definition builder_of (e : snd_pcm_ioplug_t) : AudioStreamBuilder :=
  {| b_usage := UsageGame;
     b_direction := Output;
     b_performanceMode := LowLatency;
     b_sharingMode := Shared;
     b_format := format_of (format e);
     b_formatConversionAllowed := true;
     b_channelCount := to_int32 (channels e);
     b_channelConversionAllowed := true;
     b_sampleRate := to_int32 (rate e);
     b_sampleRateConversionQuality := SrcMedium;
     b_bufferCapacityInFrames := to_int32 (buffer_size e);
     b_audioApi := OpenSLES |}.

Definition Prepare : M Z :=
  let* e := get_ext in
  let self := private_data e in
  let* o := deref self in
  if stream o is Some _ then ret 0 else
  let builder := builder_of e in
  let opened := openStream builder in
  let result := fst opened in
  let* _ := set_stream self (snd opened) in
  let* _ := emit (EvOpenStream builder result) in
  if decide (result <> OK) then
    let* _ := log (FailedToOpen result) in ret (-1)
  else
  let* capacity :=
    query self getBufferCapacityInFrames EvGetBufferCapacityInFrames in
  (* int32_t < unsigned long: the left side is converted to unsigned long *)
  if decide (to_ulong capacity < buffer_size e) then
    let* shown :=
      query self getBufferCapacityInFrames EvGetBufferCapacityInFrames in
    let* _ := log (BufferSmallerThanRequested shown (buffer_size e)) in
    let* _ := stream_reset self in
    ret (- EIO)
  else ret 0.

(** What one pass through the body of a loop leaves to do. *)
Inductive LoopStep := Continue | Break | Return (code : Z).

(** [now.tv_sec > start.tv_sec ||
    (now.tv_sec == start.tv_sec && now.tv_nsec > start.tv_nsec)]. *)
Definition timespec_after (now start : timespec) : bool :=
  bool_decide (tv_sec now > tv_sec start)
  || (bool_decide (tv_sec now = tv_sec start)
      && bool_decide (tv_nsec now > tv_nsec start)).

(** The body of the polling loop of [Drain]; [start] is the recorded time
    with its seconds already moved one ahead. *)
Definition Drain_poll_body (self : option nat) (start : timespec)
  : M LoopStep :=
  let* framesRead := query self getFramesRead EvGetFramesRead in
  if decide (framesRead < 0) then
    let* _ := log (FailedToGetFramesRead framesRead) in ret (Return (-1))
  else
  let* framesWritten := query self getFramesWritten EvGetFramesWritten in
  if decide (framesWritten < 0) then
    let* _ := log (FailedToGetFramesWritten framesWritten) in
    ret (Return (-1))
  else
  if decide (framesRead = framesWritten) then ret Break else
  let* _ := usleep self 1000 in
  let* now := clock_gettime in
  if timespec_after now start && bool_decide (framesRead = 0)
  then ret Break
  else ret Continue.

Fixpoint Drain_poll (fuel : nat) (self : option nat) (start : timespec)
  : M LoopStep :=
  match fuel with
  | O => fail OutOfFuel
  | S fuel' =>
      let* step := Drain_poll_body self start in
      match step with
      | Continue => Drain_poll fuel' self start
      | Break => ret Break
      | Return code => ret (Return code)
      end
  end.

(** The part of [Drain] after the polling loop: request stop, wait until
    stopped. *)
Definition Drain_stop (fuel : nat) (self : option nat) : M Z :=
  let* result := request self requestStop EvRequestStop in
  if decide (result <> OK) then
    let* _ := log (FailedToStop result) in ret (-1)
  else
  let* state := query self getState EvGetState in
  let* stopped :=
    wait_loop fuel self Stopped id FailedToWaitForStop state in
  if negb stopped then ret (-1) else ret 0.

Definition Drain (fuel : nat) : M Z :=
  let* e := get_ext in
  let self := private_data e in
  let* o := deref self in
  if stream o is None then ret (- EBADFD) else
  let* start := clock_gettime in
  let start := {| tv_sec := tv_sec start + 1; tv_nsec := tv_nsec start |} in
  let* exit := Drain_poll fuel self start in
  match exit with
  | Return code => ret code
  | _ => Drain_stop fuel self
  end.

Definition Pause (enable : Z) : M Z :=
  let* e := get_ext in
  let self := private_data e in
  let* o := deref self in
  if stream o is None then ret (- EBADFD) else
  let* result := request self requestPause EvRequestPause in
  if decide (result <> OK) then
    let* _ := log (FailedToPause result) in ret (-1)
  else ret 0.

End Plugin.

Arguments Ret {T A} a w.
Arguments Stuck {T A} f.
Arguments World T : clear implicits.
Arguments OboePcm T : clear implicits.

(** The backend calls that ask the stream to do something, as opposed to
    state and counter queries and to waits. *)
Definition is_request (e : Event) : bool :=
  match e with
  | EvOpenStream _ _ | EvRelease | EvRequestStart _ | EvRequestPause _
  | EvRequestStop _ | EvRequestFlush _ | EvWrite _ _ _ _ => true
  | _ => false
  end.

Definition requests (evs : list Event) : list Event :=
  List.filter is_request evs.

(** The two counter queries of the polling loop of [Drain], and the waits
    for a state change. *)
Definition is_counter_query (e : Event) : bool :=
  match e with
  | EvGetFramesRead _ | EvGetFramesWritten _ => true
  | _ => false
  end.

Definition is_wait (e : Event) : bool :=
  match e with
  | EvWaitForStateChange _ _ _ _ => true
  | _ => false
  end.

(** ** What a run leaves behind, and the runs the specification describes *)

Section Runs.
Context {T : Type} `{AudioStream T}.

(** The world after backend calls that answered with the events [evs],
    wrote the diagnostics [ds] and left the stream of the bridge at
    address [p] as [s]. *)
Definition effect (p : nat) (s : T) (evs : list Event) (ds : list Diag)
    (w : World T) : World T :=
  {| ext := ext w; heap := <[p := {| stream := Some s |}]> (heap w);
     events := events w ++ evs; cerr := cerr w ++ ds;
     clock := clock w; clock_reads := clock_reads w |}.

(** The bridge at [p] is the one the plugin structure points to, and it
    holds the stream [s] (or none). *)
Definition attached (w : World T) (p : nat) (s : option T) : Prop :=
  private_data (ext w) = Some p /\ heap w !! p = Some {| stream := s |}.

(** "Waits until the backend reports [target]": starting from the
    reported state [st], wait again while the reported state is not the
    target.  A wait the backend fails ends the run with that result
    ([Some r]); reaching the target ends it with [None]. *)
Inductive wait_run (target : StreamState)
    (input : StreamState -> StreamState)
  : StreamState -> T -> list Event -> option Result -> T -> Prop :=
| wait_reached s :
    wait_run target input target s [] None s
| wait_failed st s r next s' :
    st <> target ->
    waitForStateChange (input st) TimeoutNanoseconds s = (r, next, s') ->
    r <> OK ->
    wait_run target input st s
      [EvWaitForStateChange (input st) TimeoutNanoseconds r next]
      (Some r) s'
| wait_again st s next s' evs out s'' :
    st <> target ->
    waitForStateChange (input st) TimeoutNanoseconds s = (OK, next, s') ->
    wait_run target input (default st next) s' evs out s'' ->
    wait_run target input st s
      (EvWaitForStateChange (input st) TimeoutNanoseconds OK next :: evs)
      out s''.

(** The diagnostics and the answer of a wait loop, from how its run ended. *)
Definition wait_diags (diag : Result -> Diag) (out : option Result)
  : list Diag :=
  match out with Some r => [diag r] | None => [] end.

Definition wait_answer (out : option Result) : bool :=
  match out with Some _ => false | None => true end.

(** The sequence the specification gives for [Stop] on a stream [s0]
    that is neither stopped nor flushed: request pause, wait until
    paused, request flush, wait until flushed; the first rejection or
    failed wait ends the call with [BackendError].  A run is the status
    returned, the backend calls made, the diagnostics and the stream
    left behind. *)
Inductive stop_run (s0 : T) : Z -> list Event -> list Diag -> T -> Prop :=
| stop_pause_rejected r s1 :
    requestPause s0 = (r, s1) -> r <> OK ->
    stop_run s0 BackendError
      [EvGetState (getState s0); EvRequestPause r]
      [FailedToPause r] s1
| stop_pause_wait_failed s1 evs r s2 :
    requestPause s0 = (OK, s1) ->
    wait_run Paused id (getState s1) s1 evs (Some r) s2 ->
    stop_run s0 BackendError
      ([EvGetState (getState s0); EvRequestPause OK;
        EvGetState (getState s1)] ++ evs)
      [FailedToWaitForPause r] s2
| stop_flush_rejected s1 evs s2 r s3 :
    requestPause s0 = (OK, s1) ->
    wait_run Paused id (getState s1) s1 evs None s2 ->
    requestFlush s2 = (r, s3) -> r <> OK ->
    stop_run s0 BackendError
      ([EvGetState (getState s0); EvRequestPause OK;
        EvGetState (getState s1)] ++ evs ++ [EvRequestFlush r])
      [FailedToFlush r] s3
| stop_flush_wait_failed s1 evs s2 s3 evs' r s4 :
    requestPause s0 = (OK, s1) ->
    wait_run Paused id (getState s1) s1 evs None s2 ->
    requestFlush s2 = (OK, s3) ->
    wait_run Flushed (fun _ => Flushing) (getState s3) s3 evs' (Some r) s4 ->
    stop_run s0 BackendError
      ([EvGetState (getState s0); EvRequestPause OK;
        EvGetState (getState s1)] ++ evs ++
       [EvRequestFlush OK; EvGetState (getState s3)] ++ evs')
      [FailedToWaitForFlush r] s4
| stop_flushed s1 evs s2 s3 evs' s4 :
    requestPause s0 = (OK, s1) ->
    wait_run Paused id (getState s1) s1 evs None s2 ->
    requestFlush s2 = (OK, s3) ->
    wait_run Flushed (fun _ => Flushing) (getState s3) s3 evs' None s4 ->
    stop_run s0 0
      ([EvGetState (getState s0); EvRequestPause OK;
        EvGetState (getState s1)] ++ evs ++
       [EvRequestFlush OK; EvGetState (getState s3)] ++ evs')
      [] s4.

(** Nanoseconds of a [timespec]. *)
Definition timespec_ns (t : timespec) : Z :=
  tv_sec t * 1000000000 + tv_nsec t.

Definition normalized (t : timespec) : Prop :=
  0 <= tv_nsec t < 1000000000.

(** The recorded start of [Drain] with [tv_sec += 1]. *)
Definition one_second_later (t : timespec) : timespec :=
  {| tv_sec := tv_sec t + 1; tv_nsec := tv_nsec t |}.

(** The four host formats the plugin maps to a backend format. *)
Definition supported_format (fmt : Z) : Prop :=
  fmt = SND_PCM_FORMAT_S16_LE \/ fmt = SND_PCM_FORMAT_FLOAT_LE \/
  fmt = SND_PCM_FORMAT_S24_3LE \/ fmt = SND_PCM_FORMAT_S32_LE.

End Runs.

(** ** A simulated backend

    A small deterministic stream, used for concrete runs.  A request moves
    the stream into the transitional state, [waitForStateChange] completes
    a pending transition (and times out on a state that will not change),
    [requestFlush] is refused unless the stream is paused or flushed, a
    write accepts what fits between the frames written and the frames read
    plus the capacity, and while the caller sleeps a started stream reads
    [dev_drain] frames per millisecond. *)

Record Device := {
  dev_capacity : Z;   (* the capacity every opened stream reports *)
  dev_drain : Z       (* frames read per millisecond of sleep *)
}.

Record Sim := {
  sim_state : StreamState;
  sim_written : Z;
  sim_read : Z;
  sim_capacity : Z;
  sim_drain : Z
}.

Definition sim_set_state (st : StreamState) (s : Sim) : Sim :=
  {| sim_state := st; sim_written := sim_written s; sim_read := sim_read s;
     sim_capacity := sim_capacity s; sim_drain := sim_drain s |}.

Definition sim_open (dev : Device) (b : AudioStreamBuilder)
  : Result * option Sim :=
  if decide (b_format b = Invalid) then (ErrorInvalidFormat, None)
  else (OK, Some {| sim_state := Open; sim_written := 0; sim_read := 0;
                    sim_capacity := dev_capacity dev;
                    sim_drain := dev_drain dev |}).

Definition sim_request (pending : StreamState) (s : Sim) : Result * Sim :=
  match sim_state s with
  | Closed | Closing | Disconnected | Uninitialized => (ErrorClosed, s)
  | _ => (OK, sim_set_state pending s)
  end.

Definition sim_requestFlush (s : Sim) : Result * Sim :=
  match sim_state s with
  | Paused => (OK, sim_set_state Flushing s)
  | Flushing | Flushed => (OK, s)
  | _ => (ErrorInvalidState, s)
  end.

Definition sim_settled (st : StreamState) : option StreamState :=
  match st with
  | Starting => Some Started
  | Pausing => Some Paused
  | Flushing => Some Flushed
  | Stopping => Some Stopped
  | _ => None
  end.

Definition sim_wait (input : StreamState) (timeout : Z) (s : Sim)
  : Result * option StreamState * Sim :=
  if decide (sim_state s <> input) then (OK, Some (sim_state s), s)
  else match sim_settled (sim_state s) with
       | Some st => (OK, Some st, sim_set_state st s)
       | None => (ErrorTimeout, None, s)
       end.

Definition sim_write (address numFrames timeout : Z) (s : Sim)
  : ResultWithValue * Sim :=
  if decide (numFrames < 0) then
    ({| rv_value := 0; rv_error := ErrorIllegalArgument |}, s)
  else
    let room := Z.max 0 (sim_capacity s - (sim_written s - sim_read s)) in
    let accepted := Z.min numFrames room in
    ({| rv_value := accepted; rv_error := OK |},
     {| sim_state := sim_state s; sim_written := sim_written s + accepted;
        sim_read := sim_read s; sim_capacity := sim_capacity s;
        sim_drain := sim_drain s |}).

Definition sim_elapse (us : Z) (s : Sim) : Sim :=
  match sim_state s with
  | Started =>
      {| sim_state := Started; sim_written := sim_written s;
         sim_read := Z.min (sim_written s)
                       (sim_read s + sim_drain s * us / 1000);
         sim_capacity := sim_capacity s; sim_drain := sim_drain s |}
  | _ => s
  end.

#[global, refine] Instance SimStream (dev : Device) : AudioStream Sim := {
  openStream := sim_open dev;
  getState := sim_state;
  getFramesWritten := fun s => to_int64 (sim_written s);
  getFramesRead := fun s => to_int64 (sim_read s);
  getBufferCapacityInFrames := fun s => to_int32 (sim_capacity s);
  requestStart := sim_request Starting;
  requestPause := sim_request Pausing;
  requestStop := sim_request Stopping;
  requestFlush := sim_requestFlush;
  waitForStateChange := sim_wait;
  write := sim_write;
  elapse := sim_elapse
}.
Proof.
  intros s. unfold to_int64, wrap_signed, INT64_MIN, INT64_MAX.
  change (64 - 1) with 63.
  pose proof (Z.mod_pos_bound (sim_written s + 2 ^ 63) (2 ^ 64)). lia.
Defined.

(** A world with one bridge at address 1. *)
Definition sim_world (e : snd_pcm_ioplug_t) (s : option Sim)
    (ck : nat -> Z) : World Sim :=
  {| ext := e; heap := {[ 1%nat := {| stream := s |} ]}; events := [];
     cerr := []; clock := ck; clock_reads := 0 |}.

(** A negotiated configuration: float, stereo, 48 kHz, 4096 frames. *)
Definition sim_ext (nb : Z) : snd_pcm_ioplug_t :=
  {| private_data := Some 1%nat; format := SND_PCM_FORMAT_FLOAT_LE;
     channels := 2; rate := 48000; buffer_size := 4096; nonblock := nb |}.

Definition sim_stream (st : StreamState) (written read : Z) : Sim :=
  {| sim_state := st; sim_written := written; sim_read := read;
     sim_capacity := 8192; sim_drain := 48 |}.

(** One clock reading per millisecond. *)
Definition ms_clock (n : nat) : Z := 1000000 * Z.of_nat n.

Definition sim_device : Device := {| dev_capacity := 8192; dev_drain := 48 |}.

(** A device whose streams never report a frame read. *)
Definition stuck_device : Device := {| dev_capacity := 8192; dev_drain := 0 |}.

(** A device whose streams have room for 100 frames. *)
Definition cramped_device : Device := {| dev_capacity := 100; dev_drain := 48 |}.

(** A configuration asking for [SND_PCM_FORMAT_U8] (1), which is not in the
    mapping of [Prepare]. *)
Definition u8_ext : snd_pcm_ioplug_t :=
  {| private_data := Some 1%nat; format := 1; channels := 2; rate := 48000;
     buffer_size := 4096; nonblock := 0 |}.

(** Two areas that are separate buffers, not one interleaved buffer. *)
Definition planar_areas : list snd_pcm_channel_area_t :=
  [ {| addr := 4096; first := 0; step := 32 |};
    {| addr := 8192; first := 0; step := 32 |} ].

(** A stream that never reads a frame: started, 512 frames written. *)
Definition stuck_stream : Sim :=
  {| sim_state := Started; sim_written := 512; sim_read := 0;
     sim_capacity := 8192; sim_drain := 0 |}.

Definition stereo_areas : list snd_pcm_channel_area_t :=
  [ {| addr := 4096; first := 0; step := 64 |};
    {| addr := 4096; first := 32; step := 64 |} ].

(** ** The rest of the plugin: the stop at the end of [Drain], the
    negotiation with the host, the entry point *)

Section MoreRuns.
Context {T : Type} `{AudioStream T}.

(** The world after [n] more readings of the clock. *)
Definition tick (n : nat) (w : World T) : World T :=
  {| ext := ext w; heap := heap w; events := events w; cerr := cerr w;
     clock := clock w; clock_reads := (n + clock_reads w)%nat |}.

(** The runs of the end of [Drain] on a stream [s0]: a rejected stop
    request, or an accepted one followed by the wait for [Stopped]. *)
Inductive drain_stop_run (s0 : T)
  : Z -> list Event -> list Diag -> T -> Prop :=
| drain_stop_rejected r s1 :
    requestStop s0 = (r, s1) -> r <> OK ->
    drain_stop_run s0 (-1) [EvRequestStop r] [FailedToStop r] s1
| drain_stop_waited s1 evs out s2 :
    requestStop s0 = (OK, s1) ->
    wait_run Stopped id (getState s1) s1 evs out s2 ->
    drain_stop_run s0 (if wait_answer out then 0 else -1)
      ([EvRequestStop OK; EvGetState (getState s1)] ++ evs)
      (wait_diags FailedToWaitForStop out) s2.

(** The state an event reports, if it reports one, and the last state
    reported in a list of events. *)
Definition reported (e : Event) : option StreamState :=
  match e with
  | EvGetState st => Some st
  | EvWaitForStateChange _ _ _ next => next
  | _ => None
  end.

Definition last_reported (evs : list Event) : option StreamState :=
  last (omap reported evs).

(** From [w] to [w'] the plugin structure is untouched, the bridge at [p]
    still holds a stream, no other object changed, and the two logs only
    grew. *)
Definition keeps_bridge (p : nat) (w w' : World T) : Prop :=
  ext w' = ext w /\
  (exists s', heap w' !! p = Some {| stream := Some s' |}) /\
  (forall q, q <> p -> heap w' !! q = heap w !! q) /\
  (exists evs, events w' = events w ++ evs) /\
  (exists ds, cerr w' = cerr w ++ ds).

(** The status [Transfer] makes of the answer of the backend write. *)
Definition write_status (res : ResultWithValue) : Z :=
  if decide (rv_error res <> OK) then BackendError
  else if decide (rv_value res = 0) then WouldBlock
  else rv_value res.

(** The statuses of the control callbacks. *)
Definition control_status (r : Z) : Prop :=
  r = 0 \/ r = BackendError \/ r = NotReady.

End MoreRuns.

(** *** The host side of [Initialize] *)

Definition ENOMEM : Z := 12.

Inductive snd_pcm_stream_t := SND_PCM_STREAM_PLAYBACK | SND_PCM_STREAM_CAPTURE.

Inductive ioplug_hw :=
| SND_PCM_IOPLUG_HW_ACCESS | SND_PCM_IOPLUG_HW_FORMAT
| SND_PCM_IOPLUG_HW_CHANNELS | SND_PCM_IOPLUG_HW_RATE
| SND_PCM_IOPLUG_HW_PERIOD_BYTES | SND_PCM_IOPLUG_HW_BUFFER_BYTES
| SND_PCM_IOPLUG_HW_PERIODS.

#[global] Instance snd_pcm_stream_t_eq_dec : EqDecision snd_pcm_stream_t.
Proof. solve_decision. Defined.

Definition SND_PCM_ACCESS_RW_INTERLEAVED : Z := 3.

(** The calls [Initialize] makes into the ioplug library, with their
    arguments ([name] is the pointer it was given). *)
Inductive HostCall :=
| IoplugCreate (name : Z) (stream : snd_pcm_stream_t) (mode : Z)
| SetParamList (type : ioplug_hw) (num_list : Z) (list : list Z)
| SetParamMinMax (type : ioplug_hw) (min max : Z).

(** The ioplug library, as far as [Initialize] and the entry point use it:
    each function answers with a status and leaves the host changed;
    [ioplug_pcm] is the handle the host stored in [plug.pcm]. *)
Class IoplugHost (Hs : Type) := {
  snd_pcm_ioplug_create : Z -> snd_pcm_stream_t -> Z -> Hs -> Z * Hs;
  snd_pcm_ioplug_set_param_list : ioplug_hw -> Z -> list Z -> Hs -> Z * Hs;
  snd_pcm_ioplug_set_param_minmax : ioplug_hw -> Z -> Z -> Hs -> Z * Hs;
  ioplug_pcm : Hs -> Z
}.

Section Negotiation.
Context {Hs : Type} `{IoplugHost Hs}.

Record HostWorld := { host : Hs; host_calls : list HostCall }.

Definition call_host (c : HostCall) (f : Hs -> Z * Hs) (hw : HostWorld)
  : Z * HostWorld :=
  let r := f (host hw) in
  (fst r, {| host := snd r; host_calls := host_calls hw ++ [c] |}).

(** [err = call; if (err < 0) return err; rest]. *)
Definition or_return (call rest : HostWorld -> Z * HostWorld)
    (hw : HostWorld) : Z * HostWorld :=
  let r := call hw in
  if decide (fst r < 0) then r else rest (snd r).

(** The lambda [setParamList] of [Initialize]. *)
Definition setParamList (type : ioplug_hw) (list : list Z)
  : HostWorld -> Z * HostWorld :=
  call_host (SetParamList type (Z.of_nat (length list)) list)
    (snd_pcm_ioplug_set_param_list type (Z.of_nat (length list)) list).

Definition set_param_minmax (type : ioplug_hw) (min max : Z)
  : HostWorld -> Z * HostWorld :=
  call_host (SetParamMinMax type min max)
    (snd_pcm_ioplug_set_param_minmax type min max).

(** The format list [Initialize] hands to the host. *)
Definition advertised_formats : list Z :=
  [SND_PCM_FORMAT_S16_LE; SND_PCM_FORMAT_FLOAT_LE; SND_PCM_FORMAT_S24_3LE;
   SND_PCM_FORMAT_S32_LE].

Definition Initialize (name : Z) (stream : snd_pcm_stream_t) (mode : Z)
  : HostWorld -> Z * HostWorld :=
  fun hw =>
  if decide (stream <> SND_PCM_STREAM_PLAYBACK) then (- EINVAL, hw) else
  or_return
    (call_host (IoplugCreate name stream mode)
       (snd_pcm_ioplug_create name stream mode))
  (or_return
    (setParamList SND_PCM_IOPLUG_HW_ACCESS [SND_PCM_ACCESS_RW_INTERLEAVED])
  (or_return
    (setParamList SND_PCM_IOPLUG_HW_FORMAT advertised_formats)
  (or_return
    (set_param_minmax SND_PCM_IOPLUG_HW_CHANNELS 1 2)
  (or_return
    (set_param_minmax SND_PCM_IOPLUG_HW_RATE 8000 192000)
  (or_return
    (set_param_minmax SND_PCM_IOPLUG_HW_PERIODS 2 4)
  (or_return
    (set_param_minmax SND_PCM_IOPLUG_HW_BUFFER_BYTES (32 * 1024) (64 * 1024))
  (fun hw' => (0, hw')))))))) hw.

(** The calls of a complete [Initialize], in order. *)
Definition negotiation (name mode : Z) : list HostCall :=
  [IoplugCreate name SND_PCM_STREAM_PLAYBACK mode;
   SetParamList SND_PCM_IOPLUG_HW_ACCESS 1 [SND_PCM_ACCESS_RW_INTERLEAVED];
   SetParamList SND_PCM_IOPLUG_HW_FORMAT 4 advertised_formats;
   SetParamMinMax SND_PCM_IOPLUG_HW_CHANNELS 1 2;
   SetParamMinMax SND_PCM_IOPLUG_HW_RATE 8000 192000;
   SetParamMinMax SND_PCM_IOPLUG_HW_PERIODS 2 4;
   SetParamMinMax SND_PCM_IOPLUG_HW_BUFFER_BYTES 32768 65536].

(** What one call of the table does to the host. *)
Definition host_step (c : HostCall) : Hs -> Z * Hs :=
  match c with
  | IoplugCreate name stream mode => snd_pcm_ioplug_create name stream mode
  | SetParamList type n l => snd_pcm_ioplug_set_param_list type n l
  | SetParamMinMax type lo hi => snd_pcm_ioplug_set_param_minmax type lo hi
  end.

(** A table of calls run in order up to the first negative answer. *)
Fixpoint negotiate (cs : list HostCall) : HostWorld -> Z * HostWorld :=
  match cs with
  | [] => fun hw => (0, hw)
  | c :: cs' => or_return (call_host c (host_step c)) (negotiate cs')
  end.

(** The answers the host gives to the calls [cs], made in order. *)
Fixpoint host_answers (cs : list HostCall) (h : Hs) : list Z :=
  match cs with
  | [] => []
  | c :: cs' =>
      fst (host_step c h) :: host_answers cs' (snd (host_step c h))
  end.

(** The host after it has answered the calls [cs]. *)
Definition host_after (cs : list HostCall) (h : Hs) : Hs :=
  fold_left (fun h c => snd (host_step c h)) cs h.

End Negotiation.

Arguments HostWorld Hs : clear implicits.

Section EntryPoint.
Context {T : Type} `{AudioStream T} {Hs : Type} `{IoplugHost Hs}.

(** The [plug] member of a fresh [OboePcm] at address [p]: [private_data]
    is [this], the fields the callbacks read are still zero. *)
Definition fresh_plug (p : nat) : snd_pcm_ioplug_t :=
  {| private_data := Some p; format := 0; channels := 0; rate := 0;
     buffer_size := 0; nonblock := 0 |}.

(** [new (std::nothrow) OboePcm{}] when it returned the address [p]. *)
Definition new_OboePcm (p : nat) (w : World T) : World T :=
  with_ext (fresh_plug p)
    (with_heap (<[p := {| stream := None |}]> (heap w)) w).

(** [SND_PCM_PLUGIN_DEFINE_FUNC(oboe)].  [plugin] is what the allocation
    returned, [hw] the host and [pcmp] the content of the caller's slot
    [*pcmp]; the answer is the status, the host and the slot afterwards. *)
Definition snd_pcm_oboe_open (plugin : option nat) (name : Z)
    (stream : snd_pcm_stream_t) (mode : Z) (hw : HostWorld Hs)
    (pcmp : option Z)
  : World T -> Outcome (T := T) (Z * HostWorld Hs * option Z) :=
  fun w0 =>
  match plugin with
  | None => Ret (- ENOMEM, hw, pcmp) w0
  | Some p =>
      let w := new_OboePcm p w0 in
      let r := Initialize name stream mode hw in
      let err := fst r in
      if decide (err < 0) then
        match delete_OboePcm (Some p) w with
        | Ret _ w' => Ret (err, snd r, pcmp) w'
        | Stuck f => Stuck f
        end
      else Ret (0, snd r, Some (ioplug_pcm (host (snd r)))) w
  end.

End EntryPoint.

(** A host that accepts the calls of a table up to position [sh_fail]
    (counted from 0) and answers that one with [sh_error]. *)
Record SimHost := { sh_seen : nat; sh_fail : nat; sh_error : Z }.

Definition sim_host_step (h : SimHost) : Z * SimHost :=
  (if decide (sh_seen h = sh_fail h) then sh_error h else 0,
   {| sh_seen := S (sh_seen h); sh_fail := sh_fail h;
      sh_error := sh_error h |}).

#[global] Instance SimIoplug : IoplugHost SimHost := {
  snd_pcm_ioplug_create := fun _ _ _ => sim_host_step;
  snd_pcm_ioplug_set_param_list := fun _ _ _ => sim_host_step;
  snd_pcm_ioplug_set_param_minmax := fun _ _ _ => sim_host_step;
  ioplug_pcm := fun h => 4242
}.

(** A host that rejects the fourth call of a table with -EINVAL. *)
Definition failing_host : HostWorld SimHost :=
  {| host := {| sh_seen := 0; sh_fail := 3; sh_error := -22 |};
     host_calls := [] |}.

(** * Facts

    ** Machine integers *)

Lemma wrap_signed_range (bits x : Z) :
  0 < bits -> - 2 ^ (bits - 1) <= wrap_signed bits x < 2 ^ (bits - 1).
Proof.
  intros Hb. unfold wrap_signed.
  assert (E : 2 ^ bits = 2 * 2 ^ (bits - 1)).
  { replace bits with (Z.succ (bits - 1)) at 1 by lia.
    rewrite Z.pow_succ_r by lia. reflexivity. }
  assert (0 < 2 ^ (bits - 1)) by (apply Z.pow_pos_nonneg; lia).
  pose proof (Z.mod_pos_bound (x + 2 ^ (bits - 1)) (2 ^ bits)).
  lia.
Qed.

Lemma wrap_signed_id (bits x : Z) :
  0 < bits -> - 2 ^ (bits - 1) <= x < 2 ^ (bits - 1) ->
  wrap_signed bits x = x.
Proof.
  intros Hb Hx. unfold wrap_signed.
  assert (E : 2 ^ bits = 2 * 2 ^ (bits - 1)).
  { replace bits with (Z.succ (bits - 1)) at 1 by lia.
    rewrite Z.pow_succ_r by lia. reflexivity. }
  rewrite Z.mod_small by lia. lia.
Qed.

(** ** Running the primitives *)

Section Running.
Context {T : Type} `{AudioStream T}.
Implicit Types (w : World T) (p : nat) (s : T).

Lemma effect_lookup p s evs ds w :
  heap (effect p s evs ds w) !! p = Some {| stream := Some s |}.
Proof. cbn. apply lookup_insert_eq. Qed.

Lemma effect_effect p s1 s2 e1 e2 d1 d2 w :
  effect p s2 e2 d2 (effect p s1 e1 d1 w)
  = effect p s2 (e1 ++ e2) (d1 ++ d2) w.
Proof.
  unfold effect; cbn.
  rewrite insert_insert_eq, <- !app_assoc. reflexivity.
Qed.

Lemma effect_id p s w :
  heap w !! p = Some {| stream := Some s |} -> effect p s [] [] w = w.
Proof.
  intros Hp. destruct w; unfold effect; cbn in *.
  rewrite insert_id by assumption. rewrite !app_nil_r. reflexivity.
Qed.

Lemma add_event_effect p s e w :
  heap w !! p = Some {| stream := Some s |} ->
  add_event e w = effect p s [e] [] w.
Proof.
  intros Hp. destruct w; unfold effect, add_event; cbn in *.
  rewrite insert_id by assumption. rewrite !app_nil_r. reflexivity.
Qed.

Lemma add_diag_effect p s d w :
  heap w !! p = Some {| stream := Some s |} ->
  add_diag d w = effect p s [] [d] w.
Proof.
  intros Hp. destruct w; unfold effect, add_diag; cbn in *.
  rewrite insert_id by assumption. rewrite !app_nil_r. reflexivity.
Qed.

Lemma deref_run p o w :
  heap w !! p = Some o -> deref (Some p) w = Ret o w.
Proof. intros Hp. unfold deref. rewrite Hp. reflexivity. Qed.

Lemma the_stream_run p s w :
  heap w !! p = Some {| stream := Some s |} ->
  the_stream (Some p) w = Ret s w.
Proof.
  intros Hp. unfold the_stream, bind. rewrite (deref_run _ _ _ Hp).
  reflexivity.
Qed.

Lemma query_run {A} p s (f : T -> A) ev w :
  heap w !! p = Some {| stream := Some s |} ->
  query (Some p) f ev w = Ret (f s) (effect p s [ev (f s)] [] w).
Proof.
  intros Hp. unfold query, bind. rewrite (the_stream_run _ _ _ Hp).
  cbn. rewrite (add_event_effect _ _ _ _ Hp). reflexivity.
Qed.

Lemma request_run {A} p s (f : T -> A * T) ev w a s' :
  heap w !! p = Some {| stream := Some s |} ->
  f s = (a, s') ->
  request (Some p) f ev w = Ret a (effect p s' [ev a] [] w).
Proof.
  intros Hp Hf. unfold request, bind. rewrite (the_stream_run _ _ _ Hp).
  rewrite Hf. unfold set_stream. rewrite Hp. cbn.
  unfold effect, add_event, store_stream, with_heap; cbn.
  rewrite app_nil_r. reflexivity.
Qed.

Lemma log_run p s d w :
  heap w !! p = Some {| stream := Some s |} ->
  log d w = Ret tt (effect p s [] [d] w).
Proof.
  intros Hp. unfold log. rewrite (add_diag_effect _ _ _ _ Hp). reflexivity.
Qed.

End Running.

(** ** Waiting for a state *)

Section Waiting.
Context {T : Type} `{AudioStream T}.
Variables (p : nat) (target : StreamState)
          (input : StreamState -> StreamState) (diag : Result -> Diag).

Lemma wait_loop_sound fuel :
  forall st (s : T) (w : World T) ok w',
    heap w !! p = Some {| stream := Some s |} ->
    wait_loop fuel (Some p) target input diag st w = Ret ok w' ->
    exists evs out s',
      wait_run target input st s evs out s' /\
      ok = wait_answer out /\
      w' = effect p s' evs (wait_diags diag out) w.
Proof.
  induction fuel as [|fuel IH]; intros st s w ok w' Hp Hrun;
    cbn [wait_loop] in Hrun; destruct (decide (st = target)) as [->|Hne].
  - inversion Hrun; subst. exists [], None, s. split; [constructor|].
    split; [reflexivity|]. symmetry. apply effect_id, Hp.
  - discriminate.
  - inversion Hrun; subst. exists [], None, s. split; [constructor|].
    split; [reflexivity|]. symmetry. apply effect_id, Hp.
  - unfold bind in Hrun.
    destruct (waitForStateChange (input st) TimeoutNanoseconds s)
      as [[r next] s1] eqn:Hw.
    rewrite (request_run p s _ _ w (r, next) s1 Hp Hw) in Hrun.
    cbn [fst snd] in Hrun.
    destruct (decide (r <> OK)) as [Hr|Hr].
    + rewrite (log_run p s1) in Hrun by apply effect_lookup.
      inversion Hrun; subst.
      exists [EvWaitForStateChange (input st) TimeoutNanoseconds r next],
             (Some r), s1.
      split; [econstructor; eassumption|]. split; [reflexivity|].
      rewrite effect_effect. reflexivity.
    + apply dec_stable in Hr. subst r.
      apply (IH _ s1) in Hrun; [|apply effect_lookup].
      destruct Hrun as (evs & out & s' & Hwr & Hok & Hw').
      exists (EvWaitForStateChange (input st) TimeoutNanoseconds OK next
                :: evs), out, s'.
      split; [econstructor; eassumption|]. split; [assumption|].
      rewrite Hw', effect_effect. reflexivity.
Qed.

Lemma wait_loop_complete st (s : T) evs out s' :
  wait_run target input st s evs out s' ->
  forall fuel (w : World T),
    heap w !! p = Some {| stream := Some s |} ->
    (length evs <= fuel)%nat ->
    wait_loop fuel (Some p) target input diag st w
    = Ret (wait_answer out) (effect p s' evs (wait_diags diag out) w).
Proof.
  induction 1 as [s | st s r next s1 Hne Hw Hr
                 | st s next s1 evs out s2 Hne Hw Hrun IH];
    intros fuel w Hp Hfuel.
  - destruct fuel; cbn [wait_loop]; rewrite decide_True by reflexivity;
      rewrite effect_id by assumption; reflexivity.
  - destruct fuel as [|fuel]; [cbn in Hfuel; lia|].
    cbn [wait_loop]. rewrite decide_False by assumption.
    unfold bind. rewrite (request_run p s _ _ w (r, next) s1 Hp Hw).
    cbn [fst snd]. rewrite decide_True by assumption.
    rewrite (log_run p s1) by apply effect_lookup.
    rewrite effect_effect. reflexivity.
  - destruct fuel as [|fuel]; [cbn in Hfuel; lia|].
    cbn [wait_loop]. rewrite decide_False by assumption.
    unfold bind. rewrite (request_run p s _ _ w (OK, next) s1 Hp Hw).
    cbn [fst snd]. rewrite decide_False by (intros E; apply E; reflexivity).
    rewrite IH; [|apply effect_lookup|cbn in Hfuel; lia].
    rewrite effect_effect. reflexivity.
Qed.

(** A run that reached its target ended on a report of the target: the
    state it started from, or the state the last wait stored. *)
Lemma wait_run_reached st (s : T) evs s' :
  wait_run target input st s evs None s' ->
  (evs = [] /\ st = target /\ s' = s) \/
  exists evs' i, evs = evs' ++
    [EvWaitForStateChange i TimeoutNanoseconds OK (Some target)].
Proof.
  remember None as out eqn:Hout. induction 1 as [s | | st s next s1 evs out s2 Hne Hw Hrun IH].
  - left. auto.
  - discriminate.
  - right. destruct (IH Hout) as [(-> & Hst & ->) | (evs' & i & ->)].
    + exists [], (input st). cbn. destruct next as [n|]; cbn in Hst.
      * subst n. reflexivity.
      * contradiction.
    + exists (EvWaitForStateChange (input st) TimeoutNanoseconds OK next
                :: evs'), i. reflexivity.
Qed.

End Waiting.

(** ** Stop *)

Section StopFacts.
Context {T : Type} `{AudioStream T}.

Lemma Stop_sound fuel (w : World T) p s0 r w' :
  attached w p (Some s0) ->
  getState s0 <> Stopped -> getState s0 <> Flushed ->
  Stop fuel w = Ret r w' ->
  exists evs ds s',
    stop_run s0 r evs ds s' /\ w' = effect p s' evs ds w.
Proof.
  intros [Hpd Hp] HnS HnF Hrun.
  unfold Stop, bind, get_ext in Hrun. rewrite Hpd in Hrun.
  rewrite (deref_run p _ w Hp) in Hrun. cbn [stream] in Hrun.
  rewrite (query_run p s0) in Hrun by assumption.
  rewrite decide_False in Hrun by (intros [E|E]; contradiction).
  destruct (requestPause s0) as [r1 s1] eqn:Hpause.
  rewrite (request_run p s0 _ _ _ r1 s1) in Hrun;
    [|apply effect_lookup|assumption].
  rewrite effect_effect in Hrun.
  destruct (decide (r1 <> OK)) as [Hr1|Hr1].
  { rewrite (log_run p s1) in Hrun by apply effect_lookup.
    rewrite effect_effect in Hrun. inversion Hrun; subst.
    eexists _, _, _. split; [|reflexivity].
    apply stop_pause_rejected; assumption. }
  apply dec_stable in Hr1. subst r1.
  rewrite (query_run p s1) in Hrun by apply effect_lookup.
  rewrite effect_effect in Hrun.
  match type of Hrun with
  | context [wait_loop ?f ?q ?t ?i ?d ?st ?w0] =>
      destruct (wait_loop f q t i d st w0) as [paused w1|] eqn:Hw1;
        [|discriminate]
  end.
  apply (wait_loop_sound p _ _ _ _ _ s1) in Hw1; [|apply effect_lookup].
  destruct Hw1 as (evs & out & s2 & Hwr & -> & ->).
  rewrite effect_effect in Hrun.
  destruct out as [rw|]; cbn [wait_answer wait_diags negb] in Hrun.
  { inversion Hrun; subst. eexists _, _, _. split; [|reflexivity].
    eapply stop_pause_wait_failed; eassumption. }
  destruct (requestFlush s2) as [r2 s3] eqn:Hflush.
  rewrite (request_run p s2 _ _ _ r2 s3) in Hrun;
    [|apply effect_lookup|assumption].
  rewrite effect_effect in Hrun.
  destruct (decide (r2 <> OK)) as [Hr2|Hr2].
  { rewrite (log_run p s3) in Hrun by apply effect_lookup.
    rewrite effect_effect in Hrun. inversion Hrun; subst.
    eexists _, _, _. split.
    - eapply stop_flush_rejected; eassumption.
    - rewrite <- !app_assoc. reflexivity. }
  apply dec_stable in Hr2. subst r2.
  rewrite (query_run p s3) in Hrun by apply effect_lookup.
  rewrite effect_effect in Hrun.
  match type of Hrun with
  | context [wait_loop ?f ?q ?t ?i ?d ?st ?w0] =>
      destruct (wait_loop f q t i d st w0) as [flushed w2|] eqn:Hw2;
        [|discriminate]
  end.
  apply (wait_loop_sound p _ _ _ _ _ s3) in Hw2; [|apply effect_lookup].
  destruct Hw2 as (evs' & out' & s4 & Hwr' & -> & ->).
  rewrite effect_effect in Hrun.
  destruct out' as [rw|]; cbn [wait_answer wait_diags negb] in Hrun;
    inversion Hrun; subst; eexists _, _, _; split.
  - eapply stop_flush_wait_failed; eassumption.
  - rewrite <- !app_assoc. reflexivity.
  - eapply stop_flushed; eassumption.
  - rewrite <- !app_assoc. reflexivity.
Qed.

Lemma Stop_complete (w : World T) p s0 r evs ds s' :
  attached w p (Some s0) ->
  getState s0 <> Stopped -> getState s0 <> Flushed ->
  stop_run s0 r evs ds s' ->
  forall fuel, (length evs <= fuel)%nat ->
    Stop fuel w = Ret r (effect p s' evs ds w).
Proof.
  intros [Hpd Hp] HnS HnF Hrun fuel Hfuel.
  unfold Stop, bind, get_ext. rewrite Hpd.
  rewrite (deref_run p _ w Hp). cbn [stream].
  rewrite (query_run p s0) by assumption.
  rewrite decide_False by (intros [E|E]; contradiction).
  assert (HOK : ~ OK <> OK) by (intros E; apply E; reflexivity).
  destruct Hrun as
    [ r1 s1 Hpause Hr1
    | s1 evs r1 s2 Hpause Hw1
    | s1 evs s2 r2 s3 Hpause Hw1 Hflush Hr2
    | s1 evs s2 s3 evs' r2 s4 Hpause Hw1 Hflush Hw2
    | s1 evs s2 s3 evs' s4 Hpause Hw1 Hflush Hw2 ];
    rewrite (request_run p s0 _ _ _ _ s1) by
      (first [apply effect_lookup | eassumption]);
    rewrite effect_effect.
  - rewrite decide_True by assumption.
    rewrite (log_run p s1) by apply effect_lookup.
    rewrite effect_effect. reflexivity.
  - rewrite decide_False by assumption.
    rewrite (query_run p s1) by apply effect_lookup.
    rewrite effect_effect.
    rewrite (wait_loop_complete p _ _ _ _ _ _ _ _ Hw1);
      [|apply effect_lookup|cbn in Hfuel; lia].
    rewrite effect_effect. reflexivity.
  - rewrite decide_False by assumption.
    rewrite (query_run p s1) by apply effect_lookup.
    rewrite effect_effect.
    rewrite (wait_loop_complete p _ _ _ _ _ _ _ _ Hw1);
      [|apply effect_lookup
       |cbn in Hfuel; rewrite length_app in Hfuel; lia].
    rewrite effect_effect. cbn [wait_answer wait_diags negb].
    rewrite (request_run p s2 _ _ _ _ s3) by
      (first [apply effect_lookup | eassumption]).
    rewrite effect_effect. rewrite decide_True by assumption.
    rewrite (log_run p s3) by apply effect_lookup.
    rewrite effect_effect, <- !app_assoc. reflexivity.
  - rewrite decide_False by assumption.
    rewrite (query_run p s1) by apply effect_lookup.
    rewrite effect_effect.
    rewrite (wait_loop_complete p _ _ _ _ _ _ _ _ Hw1);
      [|apply effect_lookup
       |cbn in Hfuel; rewrite length_app in Hfuel; lia].
    rewrite effect_effect. cbn [wait_answer wait_diags negb].
    rewrite (request_run p s2 _ _ _ _ s3) by
      (first [apply effect_lookup | eassumption]).
    rewrite effect_effect. rewrite decide_False by assumption.
    rewrite (query_run p s3) by apply effect_lookup.
    rewrite effect_effect.
    rewrite (wait_loop_complete p _ _ _ _ _ _ _ _ Hw2);
      [|apply effect_lookup
       |cbn in Hfuel; rewrite !length_app in Hfuel; cbn in Hfuel; lia].
    rewrite effect_effect, <- !app_assoc. reflexivity.
  - rewrite decide_False by assumption.
    rewrite (query_run p s1) by apply effect_lookup.
    rewrite effect_effect.
    rewrite (wait_loop_complete p _ _ _ _ _ _ _ _ Hw1);
      [|apply effect_lookup
       |cbn in Hfuel; rewrite length_app in Hfuel; lia].
    rewrite effect_effect. cbn [wait_answer wait_diags negb].
    rewrite (request_run p s2 _ _ _ _ s3) by
      (first [apply effect_lookup | eassumption]).
    rewrite effect_effect. rewrite decide_False by assumption.
    rewrite (query_run p s3) by apply effect_lookup.
    rewrite effect_effect.
    rewrite (wait_loop_complete p _ _ _ _ _ _ _ _ Hw2);
      [|apply effect_lookup
       |cbn in Hfuel; rewrite !length_app in Hfuel; cbn in Hfuel; lia].
    rewrite effect_effect, <- !app_assoc. reflexivity.
Qed.

Lemma wait_run_requests target input st (s : T) evs out s' :
  wait_run target input st s evs out s' -> requests evs = [].
Proof. induction 1; cbn; auto. Qed.

(** The requests of a run of the stop sequence: one pause, then at most
    one flush, the flush only after an accepted pause and a wait that
    reached [Paused]; status 0 only when both were accepted. *)
Lemma stop_run_requests (s0 : T) r evs ds s' :
  stop_run s0 r evs ds s' ->
  (exists rp, requests evs = [EvRequestPause rp] /\ r = BackendError) \/
  (exists rf, requests evs = [EvRequestPause OK; EvRequestFlush rf] /\
              (r = 0 \/ r = BackendError) /\ (r = 0 -> rf = OK)).
Proof.
  unfold requests.
  destruct 1 as
    [ r1 s1 Hpause Hr1
    | s1 evs r1 s2 Hpause Hw1
    | s1 evs s2 r2 s3 Hpause Hw1 Hflush Hr2
    | s1 evs s2 s3 evs' r2 s4 Hpause Hw1 Hflush Hw2
    | s1 evs s2 s3 evs' s4 Hpause Hw1 Hflush Hw2 ];
    repeat match goal with
           | Hw : wait_run _ _ _ _ _ _ _ |- _ =>
               apply wait_run_requests in Hw; unfold requests in Hw
           end;
    cbn [List.filter is_request app];
    rewrite ?List.filter_app; cbn [List.filter is_request app];
    rewrite ?List.filter_app; cbn [List.filter is_request app];
    repeat match goal with Hw : List.filter _ _ = [] |- _ =>
             rewrite Hw; clear Hw end;
    cbn [app].
  - left. eauto.
  - left. eauto.
  - right. exists r2. split; [reflexivity|]. split; [right; reflexivity|].
    discriminate.
  - right. exists OK. split; [reflexivity|]. split; [right; reflexivity|].
    reflexivity.
  - right. exists OK. split; [reflexivity|]. split; [left; reflexivity|].
    reflexivity.
Qed.

End StopFacts.

Section StopClaims.
Context {T : Type} `{AudioStream T}.

(** C4. On a stream that is neither stopped nor flushed, the runs of
    [Stop] are exactly the runs "request pause, wait until paused,
    request flush, wait until flushed, the first rejection or failed wait
    ending the call with BackendError": every result [Stop] returns comes
    from such a run, every such run is what [Stop] returns once the fuel
    covers its backend calls, and the requests of a completed call are one
    pause followed by at most one flush, never a second attempt. *)
Theorem Stop_pauses_then_flushes (w : World T) p s0 :
  attached w p (Some s0) ->
  getState s0 <> Stopped -> getState s0 <> Flushed ->
  (forall fuel r w', Stop fuel w = Ret r w' ->
     exists evs ds s', stop_run s0 r evs ds s' /\ w' = effect p s' evs ds w)
  /\
  (forall r evs ds s', stop_run s0 r evs ds s' ->
     forall fuel, (length evs <= fuel)%nat ->
       Stop fuel w = Ret r (effect p s' evs ds w))
  /\
  (forall fuel r w', Stop fuel w = Ret r w' ->
     exists evs,
       events w' = events w ++ evs /\
       ((exists rp, requests evs = [EvRequestPause rp] /\ r = BackendError) \/
        (exists rf, requests evs = [EvRequestPause OK; EvRequestFlush rf] /\
                    (r = 0 \/ r = BackendError) /\ (r = 0 -> rf = OK)))).
Proof.
  intros Hatt HnS HnF. split; [|split].
  - intros fuel r w'. apply Stop_sound; assumption.
  - intros r evs ds s'. apply Stop_complete; assumption.
  - intros fuel r w' Hrun.
    destruct (Stop_sound fuel w p s0 r w' Hatt HnS HnF Hrun)
      as (evs & ds & s' & Hsr & ->).
    exists evs. split; [reflexivity|]. eapply stop_run_requests, Hsr.
Qed.

(** C8. On a stream that is already stopped or flushed [Stop] returns 0
    at once: the state query is the only backend call, no diagnostic is
    written, and the bridge, its stream and the plugin structure are what
    they were. *)
Theorem Stop_when_already_stopped (w : World T) p s fuel :
  attached w p (Some s) ->
  getState s = Stopped \/ getState s = Flushed ->
  exists w',
    Stop fuel w = Ret 0 w' /\
    events w' = events w ++ [EvGetState (getState s)] /\
    heap w' = heap w /\ ext w' = ext w /\ cerr w' = cerr w.
Proof.
  intros [Hpd Hp] Hst. exists (add_event (EvGetState (getState s)) w).
  split; [|repeat split; reflexivity].
  unfold Stop, bind, get_ext. rewrite Hpd.
  rewrite (deref_run p _ w Hp). cbn [stream].
  unfold query, bind. rewrite (the_stream_run p s w Hp). cbn [emit ret].
  rewrite decide_True by assumption. reflexivity.
Qed.

End StopClaims.

(** ** Transfer and Pointer *)

Section TransferClaims.
Context {T : Type} `{AudioStream T}.
Variable NDEBUG : bool.

(** C6. A write of zero frames on a bridge that holds a stream returns 0
    and leaves the world as it was: no start request, no write, no other
    backend call. *)
Theorem Transfer_zero_frames (w : World T) p s areas offset :
  attached w p (Some s) ->
  Transfer NDEBUG areas offset 0 w = Ret 0 w.
Proof.
  intros [Hpd Hp]. unfold Transfer, bind, get_ext. rewrite Hpd.
  rewrite (deref_run p _ w Hp). reflexivity.
Qed.

(** C10. The handle check comes first: a write of zero frames on a bridge
    that holds no stream returns NotReady, which is not 0, and changes
    nothing. *)
Theorem Transfer_zero_frames_not_ready (w : World T) p areas offset :
  attached w p None ->
  Transfer NDEBUG areas offset 0 w = Ret NotReady w /\ NotReady <> 0.
Proof.
  intros [Hpd Hp]. split; [|discriminate].
  unfold Transfer, bind, get_ext. rewrite Hpd.
  rewrite (deref_run p _ w Hp). reflexivity.
Qed.

(** C7. Once [Transfer] reaches the backend write (a stream is held, the
    frame count is not zero, the stream is started or the implicit start
    is accepted, the areas pass the interleaving check where it is
    compiled), the answer of the write decides the result: an error gives
    BackendError; no error and zero frames gives WouldBlock, silently in
    non-blocking mode and with a diagnostic in blocking mode; no error and
    a non-zero count gives that count unchanged. *)
Theorem Transfer_write_result (w : World T) p s s1 s2 areas firstArea
    offset size res :
  attached w p (Some s) ->
  size <> 0 ->
  (getState s = Started /\ s1 = s) \/
  (getState s <> Started /\ requestStart s = (OK, s1)) ->
  areas !! 0%nat = Some firstArea ->
  NDEBUG = true \/
  areas_interleaved areas firstArea (seq 0 (Z.to_nat (channels (ext w))))
  = Some true ->
  write (addr firstArea) (to_int32 size)
    (if decide (nonblock (ext w) <> 0) then 0 else TimeoutNanoseconds) s1
  = (res, s2) ->
  exists code w',
    Transfer NDEBUG areas offset size w = Ret code w' /\
    heap w' !! p = Some {| stream := Some s2 |} /\
    (rv_error res <> OK -> code = BackendError) /\
    (rv_error res = OK -> rv_value res = 0 ->
     code = WouldBlock /\ WouldBlock <> BackendError /\
     cerr w' = cerr w ++ (if decide (nonblock (ext w) <> 0) then []
                          else [CannotWriteInBlockingMode])) /\
    (rv_error res = OK -> rv_value res <> 0 ->
     code = rv_value res /\ cerr w' = cerr w).
Proof.
  intros [Hpd Hp] Hsize Hstart Hfirst Hil Hwrite.
  unfold Transfer, bind, get_ext. rewrite Hpd.
  rewrite (deref_run p _ w Hp). cbn [stream].
  rewrite decide_False by assumption.
  rewrite (query_run p s) by assumption.
  assert (Hchk : (if NDEBUG then Some true
                  else areas_interleaved areas firstArea
                         (seq 0 (Z.to_nat (channels (ext w)))))
                 = Some true).
  { destruct Hil as [-> | Hil]; [reflexivity|].
    destruct NDEBUG; [reflexivity|assumption]. }
  destruct Hstart as [[Hst ->] | [Hst Hreq]];
    [ rewrite decide_False by (intros E; apply E; assumption)
    | rewrite decide_True by assumption;
      rewrite (request_run p s _ _ _ OK s1)
        by (first [apply effect_lookup | assumption]);
      rewrite effect_effect;
      rewrite decide_False by (intros E; apply E; reflexivity) ];
    cbn [ret negb]; rewrite Hfirst, Hchk;
    rewrite (request_run p _ _ _ _ res s2)
      by (first [apply effect_lookup | assumption]);
    rewrite effect_effect;
    (destruct (decide (rv_error res <> OK)) as [He|He];
     [ rewrite (log_run p s2) by apply effect_lookup;
       rewrite effect_effect
     | apply dec_stable in He;
       destruct (decide (rv_value res = 0)) as [Hv|Hv];
       [ destruct (decide (nonblock (ext w) <> 0)) as [Hnb|Hnb];
         [ | rewrite (log_run p s2) by apply effect_lookup;
             rewrite effect_effect ]
       | ] ]);
    cbn [ret];
    (eexists _, _; split; [reflexivity|]; split; [apply effect_lookup|]);
    cbn [cerr effect app]; rewrite ?app_nil_r;
    repeat split; intros; try contradiction; try reflexivity;
    try discriminate.
Qed.

End TransferClaims.

Section PointerClaims.
Context {T : Type} `{AudioStream T}.

(** C5. With a positive nominal buffer size, [Pointer] returns NotReady
    when the bridge holds no stream, BackendError when the frames-written
    counter is negative, and otherwise the counter modulo the buffer
    size, a value from 0 up to but not including the buffer size. *)
Theorem Pointer_position (w : World T) p o :
  private_data (ext w) = Some p ->
  heap w !! p = Some o ->
  0 < buffer_size (ext w) ->
  match stream o with
  | None => Pointer w = Ret NotReady w
  | Some s =>
      let framesWritten := getFramesWritten s in
      let position := framesWritten mod buffer_size (ext w) in
      exists w',
        events w' = events w ++ [EvGetFramesWritten framesWritten] /\
        heap w' = heap w /\
        (framesWritten < 0 -> Pointer w = Ret BackendError w') /\
        (0 <= framesWritten ->
         Pointer w = Ret position w' /\ cerr w' = cerr w /\
         0 <= position < buffer_size (ext w))
  end.
Proof.
  intros Hpd Hp Hbs. destruct o as [[s|]]; cbn [stream].
  - cbn zeta.
    pose proof (getFramesWritten_int64 s) as Hrange.
    unfold INT64_MIN, INT64_MAX in Hrange.
    destruct (decide (getFramesWritten s < 0)) as [Hneg|Hpos].
    + exists (add_diag (FailedToGetFramesWritten (getFramesWritten s))
                (add_event (EvGetFramesWritten (getFramesWritten s)) w)).
      split; [reflexivity|]. split; [reflexivity|]. split; [|lia].
      intros _. unfold Pointer, bind, get_ext. rewrite Hpd.
      rewrite (deref_run p _ w Hp). cbn [stream].
      unfold query, bind. rewrite (the_stream_run p s w Hp). cbn [emit ret].
      rewrite decide_True by assumption. reflexivity.
    + exists (add_event (EvGetFramesWritten (getFramesWritten s)) w).
      split; [reflexivity|]. split; [reflexivity|]. split; [lia|].
      intros _.
      pose proof (Z.mod_pos_bound (getFramesWritten s) (buffer_size (ext w))
                    Hbs) as Hmod.
      assert (Hle : getFramesWritten s mod buffer_size (ext w)
                    <= getFramesWritten s)
        by (apply Z.mod_le; lia).
      split; [|split; [reflexivity|assumption]].
      unfold Pointer, bind, get_ext. rewrite Hpd.
      rewrite (deref_run p _ w Hp). cbn [stream].
      unfold query, bind. rewrite (the_stream_run p s w Hp). cbn [emit ret].
      rewrite decide_False by assumption.
      rewrite decide_False by lia.
      unfold to_ulong, wrap_unsigned.
      rewrite (Z.mod_small (getFramesWritten s) (2 ^ 64)) by lia.
      unfold to_long. rewrite wrap_signed_id; [reflexivity|lia|].
      change (64 - 1) with 63. lia.
  - unfold Pointer, bind, get_ext. rewrite Hpd.
    rewrite (deref_run p _ w Hp). reflexivity.
Qed.

End PointerClaims.

(** ** Close *)

Section CloseClaims.
Context {T : Type} `{AudioStream T}.

(** What [delete self] does when [self] is the bridge: the destructor
    releases the stream, then the object is gone. *)
Lemma delete_OboePcm_releases (w : World T) p s :
  heap w !! p = Some {| stream := Some s |} ->
  exists w',
    delete_OboePcm (Some p) w = Ret tt w' /\
    heap w' !! p = None /\
    events w' = events w ++ [EvRelease].
Proof.
  intros Hp. unfold delete_OboePcm, OboePcm_destructor, stream_reset, bind.
  rewrite (deref_run p _ w Hp). cbn [stream].
  unfold set_stream. rewrite Hp. cbn.
  eexists. split; [reflexivity|]. cbn. split; [|reflexivity].
  apply lookup_delete_eq.
Qed.

(** C1, as the code runs.  [Close] clears [private_data] before it reads
    the pointer it deletes, so it deletes the null pointer: the call
    returns 0 with the pointer detached, but the bridge object is still
    allocated, still holds its stream, and no release reached the
    backend.  A second call returns 0 and changes nothing. *)
Theorem Close_detaches_without_release (w : World T) p o :
  private_data (ext w) = Some p ->
  heap w !! p = Some o ->
  exists w',
    Close w = Ret 0 w' /\
    private_data (ext w') = None /\
    heap w' !! p = Some o /\
    events w' = events w /\
    Close w' = Ret 0 w'.
Proof.
  intros Hpd Hp. exists (with_ext (set_private_data None (ext w)) w).
  unfold Close, bind, get_ext. rewrite Hpd. cbn.
  repeat split; try reflexivity. assumption.
Qed.

End CloseClaims.

(** ** Prepare *)

Section PrepareClaims.
Context {T : Type} `{AudioStream T}.

Lemma format_of_unsupported fmt :
  ~ supported_format fmt -> format_of fmt = Invalid.
Proof.
  unfold supported_format, format_of. intros Hn.
  repeat (destruct (decide _) as [E|_]; [exfalso; apply Hn; tauto|]).
  reflexivity.
Qed.

(** The open is attempted whenever the bridge holds no stream: whatever
    [Prepare] returns, the first backend call it made is [openStream] on
    the builder made from the negotiated parameters. *)
Lemma Prepare_opens_first (w : World T) p r w' :
  attached w p None ->
  Prepare w = Ret r w' ->
  exists rest,
    events w' = events w ++
      EvOpenStream (builder_of (ext w))
                   (fst (openStream (builder_of (ext w)))) :: rest.
Proof.
  intros [Hpd Hp] Hrun. unfold Prepare, bind, get_ext in Hrun.
  rewrite Hpd in Hrun. rewrite (deref_run p _ w Hp) in Hrun.
  cbn [stream] in Hrun. unfold set_stream in Hrun. rewrite Hp in Hrun.
  cbn [emit] in Hrun.
  destruct (openStream (builder_of (ext w))) as [res os]. cbn [fst snd] in *.
  destruct (decide (res <> OK)) as [Hr|Hr].
  { cbn in Hrun. inversion Hrun; subst. exists []. reflexivity. }
  unfold query, bind, the_stream, bind, deref in Hrun.
  cbn [heap add_event store_stream with_heap] in Hrun.
  rewrite lookup_insert_eq in Hrun. cbn [stream] in Hrun.
  destruct os as [s|]; [|discriminate].
  cbn [ret emit] in Hrun.
  destruct (decide (to_ulong (getBufferCapacityInFrames s)
                    < buffer_size (ext w))) as [Hc|Hc].
  - cbn [heap add_event store_stream with_heap] in Hrun.
    rewrite lookup_insert_eq in Hrun. cbn [stream ret emit log] in Hrun.
    unfold stream_reset, bind, deref, set_stream in Hrun.
    cbn [heap add_event add_diag store_stream with_heap] in Hrun.
    repeat (rewrite lookup_insert_eq in Hrun; cbn in Hrun).
    inversion Hrun; subst. cbn. rewrite <- ?app_assoc. eexists. reflexivity.
  - inversion Hrun; subst. cbn. rewrite <- ?app_assoc. eexists. reflexivity.
Qed.

(** A rejected open ends [Prepare] with BackendError, whatever the reason
    of the rejection; the bridge holds what [openStream] stored. *)
Lemma Prepare_open_rejected (w : World T) p res os :
  attached w p None ->
  openStream (builder_of (ext w)) = (res, os) ->
  res <> OK ->
  Prepare w = Ret BackendError
    (add_diag (FailedToOpen res)
       (add_event (EvOpenStream (builder_of (ext w)) res)
          (store_stream p os w))).
Proof.
  intros [Hpd Hp] Hopen Hr. unfold Prepare, bind, get_ext.
  rewrite Hpd. rewrite (deref_run p _ w Hp). cbn [stream].
  unfold set_stream. rewrite Hp, Hopen. cbn [fst snd emit].
  rewrite decide_True by assumption. reflexivity.
Qed.

(** C2, as amended.  A host format outside the four supported ones is
    mapped to the backend format [Invalid], and [Prepare] goes on to open
    a stream with it: the open is the first backend call of every
    completed run, and when the backend rejects it the call fails with
    BackendError, the status of any rejected open. *)
Theorem Prepare_unsupported_format (w : World T) p :
  attached w p None ->
  ~ supported_format (format (ext w)) ->
  let builder := builder_of (ext w) in
  b_format builder = Invalid /\
  (forall r w', Prepare w = Ret r w' ->
     exists rest,
       events w' = events w ++
         EvOpenStream builder (fst (openStream builder)) :: rest) /\
  (fst (openStream builder) <> OK ->
   exists w',
     Prepare w = Ret BackendError w' /\
     events w' = events w ++
       [EvOpenStream builder (fst (openStream builder))] /\
     heap w' !! p = Some {| stream := snd (openStream builder) |}).
Proof.
  intros Hatt Hfmt builder. split; [|split].
  - apply format_of_unsupported, Hfmt.
  - intros r w'. apply (Prepare_opens_first w p). assumption.
  - intros Hr. eexists. split.
    + exact (Prepare_open_rejected w p _ _ Hatt
               (surjective_pairing (openStream builder)) Hr).
    + split; [reflexivity|]. cbn. apply lookup_insert_eq.
Qed.

(** X21. A granted capacity from 0 up to but not including the requested
    buffer size: the stream just opened is released, the bridge holds no
    stream, the call fails with IOError. *)
Lemma Prepare_capacity_too_small (w : World T) p s :
  attached w p None ->
  openStream (builder_of (ext w)) = (OK, Some s) ->
  0 <= getBufferCapacityInFrames s < buffer_size (ext w) ->
  buffer_size (ext w) <= 2 ^ 64 ->
  exists w',
    Prepare w = Ret IOError w' /\
    heap w' !! p = Some {| stream := None |} /\
    events w' = events w ++
      [EvOpenStream (builder_of (ext w)) OK;
       EvGetBufferCapacityInFrames (getBufferCapacityInFrames s);
       EvGetBufferCapacityInFrames (getBufferCapacityInFrames s);
       EvRelease].
Proof.
  intros [Hpd Hp] Hopen Hcap Hbs. unfold Prepare, bind, get_ext.
  rewrite Hpd. rewrite (deref_run p _ w Hp). cbn [stream].
  unfold set_stream. rewrite Hp, Hopen. cbn [fst snd emit].
  rewrite decide_False by (intros E; apply E; reflexivity).
  unfold query, bind, the_stream, bind, deref.
  cbn [heap add_event store_stream with_heap].
  rewrite lookup_insert_eq. cbn [stream ret emit].
  unfold to_ulong, wrap_unsigned. rewrite Z.mod_small by lia.
  rewrite decide_True by lia.
  cbn [heap add_event store_stream with_heap].
  rewrite lookup_insert_eq. cbn [stream ret emit log].
  unfold stream_reset, bind, deref, set_stream.
  cbn [heap add_event add_diag store_stream with_heap].
  repeat (rewrite lookup_insert_eq; cbn).
  eexists. split; [reflexivity|]. cbn. split.
  - apply lookup_insert_eq.
  - rewrite <- !app_assoc. reflexivity.
Qed.

(** A negative granted capacity is converted to [unsigned long] for the
    comparison and so is never below the requested size: [Prepare] keeps
    the stream and returns 0. *)
Lemma Prepare_negative_capacity (w : World T) p s :
  attached w p None ->
  openStream (builder_of (ext w)) = (OK, Some s) ->
  - 2 ^ 31 <= getBufferCapacityInFrames s < 0 ->
  buffer_size (ext w) <= 2 ^ 64 - 2 ^ 31 ->
  exists w',
    Prepare w = Ret 0 w' /\
    heap w' !! p = Some {| stream := Some s |}.
Proof.
  intros [Hpd Hp] Hopen Hcap Hbs. unfold Prepare, bind, get_ext.
  rewrite Hpd. rewrite (deref_run p _ w Hp). cbn [stream].
  unfold set_stream. rewrite Hp, Hopen. cbn [fst snd emit].
  rewrite decide_False by (intros E; apply E; reflexivity).
  unfold query, bind, the_stream, bind, deref.
  cbn [heap add_event store_stream with_heap].
  rewrite lookup_insert_eq. cbn [stream ret emit].
  assert (Hconv : to_ulong (getBufferCapacityInFrames s)
                  = getBufferCapacityInFrames s + 2 ^ 64).
  { unfold to_ulong, wrap_unsigned. symmetry.
    apply (Z.mod_unique_pos _ _ (-1)); lia. }
  rewrite Hconv. rewrite decide_False by lia.
  eexists. split; [reflexivity|]. cbn. apply lookup_insert_eq.
Qed.

(** C9. The stream opened, and the capacity the backend granted is below
    the requested buffer size.  The granted capacity is a frame count,
    the size of the buffer or 0 when unspecified, so it is not negative;
    the requested size is an [unsigned long].  [Prepare] then queries the
    capacity for the comparison and again for the diagnostic, reports the
    two sizes, releases the stream it had just stored, and returns
    IOError: the release is its last backend call, and the bridge the
    plugin structure points to holds no stream. *)
Theorem Prepare_insufficient_capacity (w : World T) p s :
  attached w p None ->
  openStream (builder_of (ext w)) = (OK, Some s) ->
  0 <= getBufferCapacityInFrames s ->
  getBufferCapacityInFrames s < buffer_size (ext w) ->
  buffer_size (ext w) < 2 ^ 64 ->
  exists w',
    Prepare w = Ret IOError w' /\
    attached w' p None /\
    ext w' = ext w /\
    cerr w' = cerr w ++
      [BufferSmallerThanRequested (getBufferCapacityInFrames s)
         (buffer_size (ext w))] /\
    events w' = events w ++
      [EvOpenStream (builder_of (ext w)) OK;
       EvGetBufferCapacityInFrames (getBufferCapacityInFrames s);
       EvGetBufferCapacityInFrames (getBufferCapacityInFrames s);
       EvRelease].
Proof.
  intros [Hpd Hp] Hopen Hpos Hcap Hbs. unfold Prepare, bind, get_ext.
  rewrite Hpd. rewrite (deref_run p _ w Hp). cbn [stream].
  unfold set_stream. rewrite Hp, Hopen. cbn [fst snd emit].
  rewrite decide_False by (intros E; apply E; reflexivity).
  unfold query, bind, the_stream, bind, deref.
  cbn [heap add_event store_stream with_heap].
  rewrite lookup_insert_eq. cbn [stream ret emit].
  unfold to_ulong, wrap_unsigned. rewrite Z.mod_small by lia.
  rewrite decide_True by lia.
  cbn [heap add_event store_stream with_heap].
  rewrite lookup_insert_eq. cbn [stream ret emit log].
  unfold stream_reset, bind, deref, set_stream.
  cbn [heap add_event add_diag store_stream with_heap].
  repeat (rewrite lookup_insert_eq; cbn).
  eexists. split; [reflexivity|]. cbn. split; [|split; [|split]].
  - split; [exact Hpd|apply lookup_insert_eq].
  - reflexivity.
  - reflexivity.
  - rewrite <- !app_assoc. reflexivity.
Qed.

End PrepareClaims.

(** ** Drain *)

Section DrainClaims.
Context {T : Type} `{AudioStream T}.

Lemma time_now_normalized (w : World T) : normalized (time_now w).
Proof. unfold normalized, time_now; cbn. apply Z.mod_pos_bound. lia. Qed.

Lemma time_now_ns (w : World T) :
  timespec_ns (time_now w) = clock w (clock_reads w).
Proof.
  unfold timespec_ns, time_now; cbn.
  pose proof (Z.div_mod (clock w (clock_reads w)) 1000000000). lia.
Qed.

(** The comparison of [Drain] on seconds and nanoseconds is "more than
    one second after the recorded start". *)
Lemma timespec_after_one_second (now start : timespec) :
  normalized now -> normalized start ->
  timespec_after now (one_second_later start) = true <->
  timespec_ns now - timespec_ns start > 1000000000.
Proof.
  unfold normalized, timespec_after, one_second_later, timespec_ns; cbn.
  intros Hn Hs.
  rewrite orb_true_iff, andb_true_iff, !bool_decide_eq_true. lia.
Qed.

Lemma usleep_run p (s : T) us (w : World T) :
  heap w !! p = Some {| stream := Some s |} ->
  usleep (Some p) us w = Ret tt (effect p (elapse us s) [] [] w).
Proof.
  intros Hp. unfold usleep, bind. rewrite (the_stream_run p s w Hp).
  unfold set_stream. rewrite Hp.
  unfold effect, store_stream, with_heap. rewrite !app_nil_r. reflexivity.
Qed.

(** The recorded start of [Drain] is the clock reading at entry, and the
    polling loop compares against it moved one second ahead. *)
Lemma Drain_records_start fuel (w : World T) p s :
  attached w p (Some s) ->
  Drain fuel w =
  match Drain_poll fuel (Some p) (one_second_later (time_now w))
          (clock_read w) with
  | Ret (Return code) w' => Ret code w'
  | Ret _ w' => Drain_stop fuel (Some p) w'
  | Stuck f => Stuck f
  end.
Proof.
  intros [Hpd Hp]. unfold Drain, bind, get_ext. rewrite Hpd.
  rewrite (deref_run p _ w Hp). cbn [stream clock_gettime].
  unfold one_second_later.
  destruct (Drain_poll _ _ _ _) as [[| |code] w'|]; reflexivity.
Qed.

(** One pass through the polling loop, case by case. *)
Lemma Drain_poll_body_run (w : World T) p s deadline :
  heap w !! p = Some {| stream := Some s |} ->
  let framesRead := getFramesRead s in
  let framesWritten := getFramesWritten s in
  let polled :=
    [EvGetFramesRead framesRead; EvGetFramesWritten framesWritten] in
  Drain_poll_body (Some p) deadline w =
  if decide (framesRead < 0) then
    Ret (Return (-1))
        (effect p s [EvGetFramesRead framesRead]
           [FailedToGetFramesRead framesRead] w)
  else if decide (framesWritten < 0) then
    Ret (Return (-1))
        (effect p s polled [FailedToGetFramesWritten framesWritten] w)
  else if decide (framesRead = framesWritten) then
    Ret Break (effect p s polled [] w)
  else
    Ret (if timespec_after (time_now w) deadline
            && bool_decide (framesRead = 0)
         then Break else Continue)
        (clock_read (effect p (elapse 1000 s) polled [] w)).
Proof.
  intros Hp framesRead framesWritten polled.
  unfold Drain_poll_body, bind.
  rewrite (query_run p s) by assumption. fold framesRead.
  destruct (decide (framesRead < 0)).
  { rewrite (log_run p s) by apply effect_lookup.
    rewrite effect_effect. reflexivity. }
  rewrite (query_run p s) by apply effect_lookup.
  rewrite effect_effect. fold framesWritten.
  destruct (decide (framesWritten < 0)).
  { rewrite (log_run p s) by apply effect_lookup.
    rewrite effect_effect. reflexivity. }
  destruct (decide (framesRead = framesWritten)); [reflexivity|].
  rewrite (usleep_run p s) by apply effect_lookup.
  rewrite effect_effect. cbn [clock_gettime].
  change (time_now (effect p (elapse 1000 s)
                      (([EvGetFramesRead framesRead] ++
                        [EvGetFramesWritten framesWritten]) ++ [])
                      (([] ++ []) ++ []) w))
    with (time_now w).
  destruct (timespec_after (time_now w) deadline
            && bool_decide (framesRead = 0)); reflexivity.
Qed.

(** One pass through the polling loop against the deadline "[start] plus
    one second", on the counters this pass reads and the clock read
    after the sleep. *)
Lemma Drain_poll_pass (w : World T) p s start :
  heap w !! p = Some {| stream := Some s |} ->
  normalized start ->
  let framesRead := getFramesRead s in
  let framesWritten := getFramesWritten s in
  let elapsed := timespec_ns (time_now w) - timespec_ns start in
  let valve :=
    elapsed > 1000000000 /\ framesRead = 0 /\ framesWritten > 0 in
  exists step w',
    Drain_poll_body (Some p) (one_second_later start) w = Ret step w' /\
    (forall fuel,
       Drain_poll (S fuel) (Some p) (one_second_later start) w =
       match step with
       | Continue => Drain_poll fuel (Some p) (one_second_later start) w'
       | _ => Ret step w'
       end) /\
    ((step = Break /\ framesRead <> framesWritten) <-> valve) /\
    (step = Break <->
     (0 <= framesRead /\ framesRead = framesWritten) \/ valve) /\
    (step = Return BackendError <-> framesRead < 0 \/ framesWritten < 0) /\
    (forall code, step = Return code -> code = BackendError).
Proof.
  intros Hp Hstart framesRead framesWritten elapsed valve.
  pose proof (timespec_after_one_second (time_now w) start
                (time_now_normalized w) Hstart) as Hafter.
  fold elapsed in Hafter.
  assert (Hbody : forall step w',
    Drain_poll_body (Some p) (one_second_later start) w = Ret step w' ->
    forall fuel,
      Drain_poll (S fuel) (Some p) (one_second_later start) w =
      match step with
      | Continue => Drain_poll fuel (Some p) (one_second_later start) w'
      | _ => Ret step w'
      end).
  { intros step w' Hb fuel. cbn [Drain_poll]. unfold bind at 1.
    rewrite Hb. destruct step; reflexivity. }
  assert (Hminus : -1 = BackendError) by reflexivity.
  unfold Drain_poll_body, bind in *.
  rewrite (query_run p s) in * by assumption. fold framesRead in Hbody |- *.
  destruct (decide (framesRead < 0)) as [Hr|Hr].
  { cbn [log ret] in *. eexists _, _. split; [reflexivity|].
    split; [exact (Hbody _ _ eq_refl)|].
    subst valve; cbv beta;
      intuition (try discriminate; try congruence; try lia). }
  rewrite (query_run p s) in * by apply effect_lookup.
  fold framesWritten in Hbody |- *.
  destruct (decide (framesWritten < 0)) as [Hw|Hw].
  { cbn [log ret] in *. eexists _, _. split; [reflexivity|].
    split; [exact (Hbody _ _ eq_refl)|].
    subst valve; cbv beta;
      intuition (try discriminate; try congruence; try lia). }
  destruct (decide (framesRead = framesWritten)) as [He|He].
  { cbn [ret] in *. eexists _, _. split; [reflexivity|].
    split; [exact (Hbody _ _ eq_refl)|].
    subst valve; cbv beta;
      intuition (try discriminate; try congruence; try lia). }
  rewrite (usleep_run p s) in * by apply effect_lookup.
  cbn [clock_gettime] in *.
  change (time_now (effect p (elapse 1000 s) [] []
            (effect p s [EvGetFramesWritten framesWritten] []
               (effect p s [EvGetFramesRead framesRead] [] w))))
    with (time_now w) in *.
  destruct (timespec_after (time_now w) (one_second_later start))
    eqn:Hcmp;
    [destruct (decide (framesRead = 0)) as [Hz|Hz];
     [rewrite (bool_decide_eq_true_2 _ Hz) in *
     |rewrite (bool_decide_eq_false_2 _ Hz) in *]|];
    cbn [andb ret] in *;
    (eexists _, _; split; [reflexivity|];
     split; [exact (Hbody _ _ eq_refl)|]).
  - assert (elapsed > 1000000000) by (apply Hafter; reflexivity).
    subst valve; cbv beta;
      intuition (try discriminate; try congruence; try lia).
  - subst valve; cbv beta;
      intuition (try discriminate; try congruence; try lia).
  - assert (~ elapsed > 1000000000).
    { intros E. apply Hafter in E. congruence. }
    subst valve; cbv beta;
      intuition (try discriminate; try congruence; try lia).
Qed.

(** C3. [Drain] on a held stream reads the clock once at entry, [start],
    and runs its polling loop against the deadline [start] with [tv_sec]
    plus one; what the loop leaves decides the call.  In any pass of that
    loop, with [framesRead] and [framesWritten] the counters the pass
    reads and [elapsed] the nanoseconds from the reading at entry to the
    reading the pass takes after its sleep: the pass leaves the loop with
    the counters unequal (the safety valve) exactly when [elapsed] is more
    than one second, [framesRead] is 0 and [framesWritten] is positive;
    any other way out of the loop has the two counters equal; the pass
    returns BackendError exactly when one of the counters is negative; in
    all remaining cases the loop goes round again. *)
Theorem Drain_safety_valve (w : World T) p s0 :
  attached w p (Some s0) ->
  let start := time_now w in
  let deadline :=
    {| tv_sec := tv_sec start + 1; tv_nsec := tv_nsec start |} in
  clock_gettime w = Ret start (clock_read w) /\
  (forall fuel,
     Drain fuel w =
     match Drain_poll fuel (Some p) deadline (clock_read w) with
     | Ret (Return code) w' => Ret code w'
     | Ret _ w' => Drain_stop fuel (Some p) w'
     | Stuck f => Stuck f
     end) /\
  forall (wk : World T) s,
    heap wk !! p = Some {| stream := Some s |} ->
    let framesRead := getFramesRead s in
    let framesWritten := getFramesWritten s in
    let elapsed := clock wk (clock_reads wk) - clock w (clock_reads w) in
    let valve :=
      elapsed > 1000000000 /\ framesRead = 0 /\ framesWritten > 0 in
    exists step w',
      Drain_poll_body (Some p) deadline wk = Ret step w' /\
      (forall fuel,
         Drain_poll (S fuel) (Some p) deadline wk =
         match step with
         | Continue => Drain_poll fuel (Some p) deadline w'
         | _ => Ret step w'
         end) /\
      ((step = Break /\ framesRead <> framesWritten) <-> valve) /\
      (step = Break <->
       (0 <= framesRead /\ framesRead = framesWritten) \/ valve) /\
      (step = Return BackendError <->
       framesRead < 0 \/ framesWritten < 0) /\
      (forall code, step = Return code -> code = BackendError).
Proof.
  intros Hatt start deadline. split; [reflexivity|]. split.
  - intros fuel. exact (Drain_records_start fuel w p s0 Hatt).
  - intros wk s Hp framesRead framesWritten elapsed valve.
    pose proof (Drain_poll_pass wk p s start Hp (time_now_normalized w))
      as Hpass.
    cbv zeta in Hpass. rewrite time_now_ns in Hpass.
    rewrite (time_now_ns w : timespec_ns start = _) in Hpass. exact Hpass.
Qed.

End DrainClaims.

(** * The callbacks as a whole *)

Section Shapes.
Context {T : Type} `{AudioStream T}.
Implicit Types (w : World T) (p : nat) (s : T).

Lemma tick_0 w : tick 0 w = w.
Proof. destruct w; reflexivity. Qed.

Lemma tick_tick n m w : tick n (tick m w) = tick (n + m) w.
Proof. unfold tick; cbn. rewrite Nat.add_assoc. reflexivity. Qed.

Lemma keeps_bridge_tick_effect p s0 s evs ds n w :
  heap w !! p = Some {| stream := Some s0 |} ->
  keeps_bridge p w (tick n (effect p s evs ds w)).
Proof.
  intros Hp. unfold keeps_bridge; cbn. split; [reflexivity|].
  split; [exists s; apply lookup_insert_eq|].
  split; [intros q Hq; apply lookup_insert_ne; congruence|].
  split; eexists; reflexivity.
Qed.

Lemma keeps_bridge_effect p s0 s evs ds w :
  heap w !! p = Some {| stream := Some s0 |} ->
  keeps_bridge p w (effect p s evs ds w).
Proof.
  intros Hp. rewrite <- (tick_0 (effect p s evs ds w)).
  eapply keeps_bridge_tick_effect, Hp.
Qed.

Lemma Start_run w p s :
  attached w p (Some s) ->
  Start w =
  Ret (if decide (fst (requestStart s) <> OK) then -1 else 0)
      (effect p (snd (requestStart s)) [EvRequestStart (fst (requestStart s))]
         (if decide (fst (requestStart s) <> OK)
          then [FailedToStart (fst (requestStart s))] else []) w).
Proof.
  intros [Hpd Hp]. unfold Start, bind, get_ext. rewrite Hpd.
  rewrite (deref_run p _ w Hp). cbn [stream].
  destruct (requestStart s) as [r s'] eqn:Hr. cbn [fst snd].
  rewrite (request_run p s _ _ w r s' Hp Hr).
  destruct (decide (r <> OK)); [|reflexivity].
  rewrite (log_run p s') by apply effect_lookup.
  rewrite effect_effect. reflexivity.
Qed.

Lemma Pause_run w p s enable :
  attached w p (Some s) ->
  Pause enable w =
  Ret (if decide (fst (requestPause s) <> OK) then -1 else 0)
      (effect p (snd (requestPause s)) [EvRequestPause (fst (requestPause s))]
         (if decide (fst (requestPause s) <> OK)
          then [FailedToPause (fst (requestPause s))] else []) w).
Proof.
  intros [Hpd Hp]. unfold Pause, bind, get_ext. rewrite Hpd.
  rewrite (deref_run p _ w Hp). cbn [stream].
  destruct (requestPause s) as [r s'] eqn:Hr. cbn [fst snd].
  rewrite (request_run p s _ _ w r s' Hp Hr).
  destruct (decide (r <> OK)); [|reflexivity].
  rewrite (log_run p s') by apply effect_lookup.
  rewrite effect_effect. reflexivity.
Qed.

(** [Stop] on a stream that is already stopped or flushed. *)
Lemma Stop_idle_run fuel w p s :
  attached w p (Some s) ->
  getState s = Stopped \/ getState s = Flushed ->
  Stop fuel w = Ret 0 (effect p s [EvGetState (getState s)] [] w).
Proof.
  intros [Hpd Hp] Hst. unfold Stop, bind, get_ext. rewrite Hpd.
  rewrite (deref_run p _ w Hp). cbn [stream].
  rewrite (query_run p s) by assumption.
  rewrite decide_True by assumption. reflexivity.
Qed.

(** Every completed [Stop] on a held stream, whatever its state. *)
Lemma Stop_shape fuel w p s r w' :
  attached w p (Some s) ->
  Stop fuel w = Ret r w' ->
  exists s' evs ds,
    w' = effect p s' evs ds w /\
    ((r = 0 /\ evs = [EvGetState (getState s)] /\
      (getState s = Stopped \/ getState s = Flushed)) \/
     (getState s <> Stopped /\ getState s <> Flushed /\
      stop_run s r evs ds s')).
Proof.
  intros Hatt Hrun.
  destruct (decide (getState s = Stopped \/ getState s = Flushed))
    as [Hst|Hst].
  - rewrite (Stop_idle_run fuel w p s Hatt Hst) in Hrun.
    inversion Hrun; subst. eexists _, _, _. split; [reflexivity|].
    left. auto.
  - assert (HnS : getState s <> Stopped) by tauto.
    assert (HnF : getState s <> Flushed) by tauto.
    destruct (Stop_sound fuel w p s r w' Hatt HnS HnF Hrun)
      as (evs & ds & s' & Hsr & ->).
    eexists _, _, _. split; [reflexivity|]. right. auto.
Qed.

Lemma wait_run_last_reported target input st s evs s' :
  wait_run target input st s evs None s' ->
  last_reported (EvGetState st :: evs) = Some target.
Proof.
  intros Hrun. apply wait_run_reached in Hrun.
  destruct Hrun as [(-> & -> & _) | (evs' & i & ->)].
  - reflexivity.
  - unfold last_reported. rewrite app_comm_cons, omap_app.
    cbn [omap list_omap reported]. apply last_snoc.
Qed.

Lemma last_reported_app evs evs' st :
  last_reported evs' = Some st -> last_reported (evs ++ evs') = Some st.
Proof.
  unfold last_reported. rewrite omap_app. intros Hl.
  destruct (omap reported evs') as [|e l] eqn:E using rev_ind;
    [discriminate|].
  rewrite last_snoc in Hl. rewrite app_assoc, last_snoc. exact Hl.
Qed.

Lemma tick_effect_compose p s1 s2 e1 e2 d1 d2 n1 n2 w :
  tick n2 (effect p s2 e2 d2 (tick n1 (effect p s1 e1 d1 w)))
  = tick (n2 + n1) (effect p s2 (e1 ++ e2) (d1 ++ d2) w).
Proof.
  unfold tick, effect; cbn.
  rewrite insert_insert_eq, <- !app_assoc, Nat.add_assoc. reflexivity.
Qed.

(** Every completed [Transfer] on a held stream: nothing for zero frames;
    otherwise the state query, the start request when the stream is not
    started, and, unless the start was refused or the areas were rejected,
    one write. *)
Lemma Transfer_shape NDEBUG areas offset size w p s r w' :
  attached w p (Some s) ->
  Transfer NDEBUG areas offset size w = Ret r w' ->
  exists s' evs ds,
    w' = effect p s' evs ds w /\
    ((size = 0 /\ r = 0 /\ evs = [] /\ ds = []) \/
     (size <> 0 /\ getState s <> Started /\
      fst (requestStart s) <> OK /\ r = -1 /\
      evs = [EvGetState (getState s);
             EvRequestStart (fst (requestStart s))]) \/
     (size <> 0 /\
      exists starts firstArea,
        areas !! 0%nat = Some firstArea /\
        ((getState s = Started /\ starts = []) \/
         (getState s <> Started /\ starts = [EvRequestStart OK])) /\
        ((NDEBUG = false /\ r = -1 /\ ds = [NonInterleaved] /\
          evs = EvGetState (getState s) :: starts) \/
         (exists res,
            r = write_status res /\
            evs = EvGetState (getState s) :: starts ++
                  [EvWrite (addr firstArea) (to_int32 size)
                     (if decide (nonblock (ext w) <> 0) then 0
                      else TimeoutNanoseconds) res])))).
Proof.
  intros [Hpd Hp] Hrun. unfold Transfer, bind, get_ext in Hrun.
  rewrite Hpd in Hrun. rewrite (deref_run p _ w Hp) in Hrun.
  cbn [stream] in Hrun.
  destruct (decide (size = 0)) as [Hz|Hz].
  { inversion Hrun; subst. exists s, [], []. split.
    - symmetry. apply effect_id. assumption.
    - left. auto. }
  rewrite (query_run p s) in Hrun by assumption.
  (* the part after the implicit start, from the stream [s1] it left *)
  assert (Htail : forall s1 starts es,
    es = EvGetState (getState s) :: starts ->
    ((getState s = Started /\ starts = []) \/
     (getState s <> Started /\ starts = [EvRequestStart OK])) ->
    forall firstArea, areas !! 0%nat = Some firstArea ->
    forall chk,
      (if NDEBUG then Some true
       else areas_interleaved areas firstArea
              (seq 0 (Z.to_nat (channels (ext w))))) = chk ->
    forall res s2,
      write (addr firstArea) (to_int32 size)
        (if decide (nonblock (ext w) <> 0) then 0 else TimeoutNanoseconds) s1
      = (res, s2) ->
    forall out,
      out = match chk with
            | Some true =>
                Ret (write_status res)
                  (effect p s2
                     (es ++ [EvWrite (addr firstArea) (to_int32 size)
                               (if decide (nonblock (ext w) <> 0) then 0
                                else TimeoutNanoseconds) res])
                     (if decide (rv_error res <> OK)
                      then [FailedToWrite (rv_error res)]
                      else if decide (rv_value res = 0)
                           then if decide (nonblock (ext w) <> 0) then []
                                else [CannotWriteInBlockingMode]
                           else []) w)
            | Some false => Ret (-1) (effect p s1 es [NonInterleaved] w)
            | None => Stuck OutOfBounds
            end ->
      out = Ret r w' ->
      exists s' evs ds,
        w' = effect p s' evs ds w /\
        ((size = 0 /\ r = 0 /\ evs = [] /\ ds = []) \/
         (size <> 0 /\ getState s <> Started /\
          fst (requestStart s) <> OK /\ r = -1 /\
          evs = [EvGetState (getState s);
                 EvRequestStart (fst (requestStart s))]) \/
         (size <> 0 /\
          exists starts firstArea,
            areas !! 0%nat = Some firstArea /\
            ((getState s = Started /\ starts = []) \/
             (getState s <> Started /\ starts = [EvRequestStart OK])) /\
            ((NDEBUG = false /\ r = -1 /\ ds = [NonInterleaved] /\
              evs = EvGetState (getState s) :: starts) \/
             (exists res,
                r = write_status res /\
                evs = EvGetState (getState s) :: starts ++
                      [EvWrite (addr firstArea) (to_int32 size)
                         (if decide (nonblock (ext w) <> 0) then 0
                          else TimeoutNanoseconds) res]))))).
  { intros s1 starts es -> Hstarts firstArea Hfirst chk Hchk res s2 Hw
           out -> Hout.
    destruct chk as [[|]|]; [| |discriminate].
    - inversion Hout; subst. eexists _, _, _. split; [reflexivity|].
      right; right. split; [assumption|].
      exists starts, firstArea. split; [assumption|]. split; [assumption|].
      right. exists res. split; reflexivity.
    - inversion Hout; subst. eexists _, _, _. split; [reflexivity|].
      right; right. split; [assumption|].
      exists starts, firstArea. split; [assumption|]. split; [assumption|].
      left. destruct NDEBUG; [discriminate|]. auto. }
  (* running the code up to that point *)
  assert (Hcode : forall s1 es,
    heap (effect p s1 es [] w) !! p = Some {| stream := Some s1 |} ->
    forall firstArea, areas !! 0%nat = Some firstArea ->
    forall res s2,
      write (addr firstArea) (to_int32 size)
        (if decide (nonblock (ext w) <> 0) then 0 else TimeoutNanoseconds) s1
      = (res, s2) ->
      match
        (if NDEBUG then Some true
         else areas_interleaved areas firstArea
                (seq 0 (Z.to_nat (channels (ext w)))))
      with
      | Some true =>
          bind (request (Some p)
                  (write (addr firstArea) (to_int32 size)
                     (if decide (nonblock (ext w) <> 0) then 0
                      else TimeoutNanoseconds))
                  (EvWrite (addr firstArea) (to_int32 size)
                     (if decide (nonblock (ext w) <> 0) then 0
                      else TimeoutNanoseconds)))
            (fun result =>
               if decide (rv_error result <> OK)
               then bind (log (FailedToWrite (rv_error result)))
                      (fun _ => ret (-1))
               else if decide (rv_value result = 0)
                    then bind (if decide (nonblock (ext w) <> 0)
                               then ret tt
                               else log CannotWriteInBlockingMode)
                           (fun _ => ret (- EAGAIN))
                    else ret (rv_value result))
      | Some false => bind (log NonInterleaved) (fun _ => ret (-1))
      | None => fail OutOfBounds
      end (effect p s1 es [] w)
      = match (if NDEBUG then Some true
               else areas_interleaved areas firstArea
                      (seq 0 (Z.to_nat (channels (ext w))))) with
        | Some true =>
            Ret (write_status res)
              (effect p s2
                 (es ++ [EvWrite (addr firstArea) (to_int32 size)
                           (if decide (nonblock (ext w) <> 0) then 0
                            else TimeoutNanoseconds) res])
                 (if decide (rv_error res <> OK)
                  then [FailedToWrite (rv_error res)]
                  else if decide (rv_value res = 0)
                       then if decide (nonblock (ext w) <> 0) then []
                            else [CannotWriteInBlockingMode]
                       else []) w)
        | Some false => Ret (-1) (effect p s1 es [NonInterleaved] w)
        | None => Stuck OutOfBounds
        end).
  { intros s1 es Hp1 firstArea Hfirst res s2 Hw.
    destruct (if NDEBUG then Some true else _) as [[|]|]; [| |reflexivity].
    - unfold bind.
      rewrite (request_run p s1 _ _ _ res s2 Hp1 Hw).
      rewrite effect_effect. unfold write_status.
      destruct (decide (rv_error res <> OK)).
      + rewrite (log_run p s2) by apply effect_lookup.
        rewrite effect_effect, !app_nil_r. reflexivity.
      + destruct (decide (rv_value res = 0)).
        * destruct (decide (nonblock (ext w) <> 0)).
          -- reflexivity.
          -- rewrite (log_run p s2) by apply effect_lookup.
             rewrite effect_effect, !app_nil_r. reflexivity.
        * reflexivity.
    - unfold bind. rewrite (log_run p s1) by assumption.
      rewrite effect_effect, app_nil_r. reflexivity. }
  destruct (decide (getState s <> Started)) as [Hst|Hst].
  - destruct (requestStart s) as [rs s1] eqn:Hrs. cbn [fst] in *.
    rewrite (request_run p s _ _ _ rs s1) in Hrun
      by (first [apply effect_lookup | assumption]).
    rewrite effect_effect in Hrun.
    destruct (decide (rs <> OK)) as [Hr|Hr].
    + rewrite (log_run p s1) in Hrun by apply effect_lookup.
      rewrite effect_effect in Hrun. inversion Hrun; subst.
      eexists _, _, _. split; [reflexivity|]. right; left. auto.
    + apply dec_stable in Hr. subst rs. cbn [ret negb] in Hrun.
      destruct (areas !! 0%nat) as [firstArea|] eqn:Hfirst; [|discriminate].
      cbv zeta in Hrun.
      destruct (write (addr firstArea) (to_int32 size)
                  (if decide (nonblock (ext w) <> 0) then 0
                   else TimeoutNanoseconds) s1) as [res s2] eqn:Hw.
      pose proof (Hcode s1 [EvGetState (getState s); EvRequestStart OK]
                    (effect_lookup _ _ _ _ _) firstArea eq_refl
                    res s2 Hw) as Hc.
      exact (Htail s1 [EvRequestStart OK] _ eq_refl
               ltac:(right; auto) firstArea eq_refl _ eq_refl res s2 Hw
               _ eq_refl (eq_trans (eq_sym Hc) Hrun)).
  - apply dec_stable in Hst. cbn [ret negb] in Hrun.
    destruct (areas !! 0%nat) as [firstArea|] eqn:Hfirst; [|discriminate].
    cbv zeta in Hrun.
    destruct (write (addr firstArea) (to_int32 size)
                (if decide (nonblock (ext w) <> 0) then 0
                 else TimeoutNanoseconds) s) as [res s2] eqn:Hw.
    pose proof (Hcode s [EvGetState (getState s)]
                  (effect_lookup _ _ _ _ _) firstArea eq_refl
                  res s2 Hw) as Hc.
    exact (Htail s [] _ eq_refl
             ltac:(left; auto) firstArea eq_refl _ eq_refl res s2 Hw
             _ eq_refl (eq_trans (eq_sym Hc) Hrun)).
Qed.

(** The end of [Drain]: the completed calls are the runs of
    [drain_stop_run]. *)
Lemma Drain_stop_sound fuel w p s r w' :
  heap w !! p = Some {| stream := Some s |} ->
  Drain_stop fuel (Some p) w = Ret r w' ->
  exists evs ds s',
    drain_stop_run s r evs ds s' /\ w' = effect p s' evs ds w.
Proof.
  intros Hp Hrun. unfold Drain_stop, bind in Hrun.
  destruct (requestStop s) as [r1 s1] eqn:Hstop.
  rewrite (request_run p s _ _ _ r1 s1 Hp Hstop) in Hrun.
  destruct (decide (r1 <> OK)) as [Hr1|Hr1].
  { rewrite (log_run p s1) in Hrun by apply effect_lookup.
    rewrite effect_effect in Hrun. inversion Hrun; subst.
    eexists _, _, _. split; [|reflexivity].
    apply drain_stop_rejected; assumption. }
  apply dec_stable in Hr1. subst r1.
  rewrite (query_run p s1) in Hrun by apply effect_lookup.
  rewrite effect_effect in Hrun.
  match type of Hrun with
  | context [wait_loop ?f ?q ?t ?i ?d ?st ?w0] =>
      destruct (wait_loop f q t i d st w0) as [stopped w1|] eqn:Hw1;
        [|discriminate]
  end.
  apply (wait_loop_sound p _ _ _ _ _ s1) in Hw1; [|apply effect_lookup].
  destruct Hw1 as (evs & out & s2 & Hwr & -> & ->).
  rewrite effect_effect in Hrun.
  assert (Hr : r = if wait_answer out then 0 else -1).
  { destruct out; cbn in Hrun |- *; inversion Hrun; reflexivity. }
  assert (Hw' : w' = effect p s2
                       (([EvRequestStop OK] ++ [EvGetState (getState s1)])
                        ++ evs)
                       (([] ++ []) ++ wait_diags FailedToWaitForStop out) w).
  { destruct out; cbn in Hrun |- *; inversion Hrun; reflexivity. }
  subst r. eexists _, _, _. split; [|exact Hw'].
  exact (drain_stop_waited s s1 evs out s2 Hstop Hwr).
Qed.

Lemma Drain_stop_complete w p s r evs ds s' :
  heap w !! p = Some {| stream := Some s |} ->
  drain_stop_run s r evs ds s' ->
  forall fuel, (length evs <= fuel)%nat ->
    Drain_stop fuel (Some p) w = Ret r (effect p s' evs ds w).
Proof.
  intros Hp Hrun fuel Hfuel. unfold Drain_stop, bind.
  destruct Hrun as [r1 s1 Hstop Hr1 | s1 evs out s2 Hstop Hw].
  - rewrite (request_run p s _ _ _ r1 s1 Hp Hstop).
    rewrite decide_True by assumption.
    rewrite (log_run p s1) by apply effect_lookup.
    rewrite effect_effect. reflexivity.
  - rewrite (request_run p s _ _ _ OK s1 Hp Hstop).
    rewrite decide_False by (intros E; apply E; reflexivity).
    rewrite (query_run p s1) by apply effect_lookup.
    rewrite effect_effect.
    rewrite (wait_loop_complete p _ _ _ _ _ _ _ _ Hw);
      [|apply effect_lookup|cbn in Hfuel; lia].
    rewrite effect_effect. destruct out; reflexivity.
Qed.

Lemma drain_stop_run_requests (s0 : T) r evs ds s' :
  drain_stop_run s0 r evs ds s' ->
  exists rs, requests evs = [EvRequestStop rs] /\
             (r = 0 \/ r = -1) /\
             (r = 0 -> rs = OK /\ last_reported evs = Some Stopped).
Proof.
  destruct 1 as [r1 s1 Hstop Hr1 | s1 evs out s2 Hstop Hw].
  - exists r1. split; [reflexivity|]. split; [right; reflexivity|].
    discriminate.
  - exists OK. pose proof (wait_run_requests _ _ _ _ _ _ _ Hw) as Hreq.
    unfold requests in *. cbn [app List.filter is_request]. rewrite Hreq.
    split; [reflexivity|]. destruct out as [rw|]; cbn.
    + split; [right; reflexivity|]. discriminate.
    + split; [left; reflexivity|]. intros _. split; [reflexivity|].
      apply (last_reported_app [EvRequestStop OK]).
      eapply wait_run_last_reported, Hw.
Qed.

(** The polling loop never ends on [Continue], returns only -1, makes no
    request, and leaves a world that grew from the one it started in. *)
Lemma Drain_poll_shape fuel :
  forall w p s deadline step w',
    heap w !! p = Some {| stream := Some s |} ->
    Drain_poll fuel (Some p) deadline w = Ret step w' ->
    (step = Break \/ step = Return (-1)) /\
    exists s' evs ds n,
      w' = tick n (effect p s' evs ds w) /\ requests evs = [] /\
      (step = Break -> ds = []).
Proof.
  induction fuel as [|fuel IH]; intros w p s deadline step w' Hp Hrun;
    [discriminate|].
  cbn [Drain_poll] in Hrun. unfold bind at 1 in Hrun.
  rewrite (Drain_poll_body_run w p s deadline Hp) in Hrun. cbv zeta in Hrun.
  destruct (decide (getFramesRead s < 0)).
  { inversion Hrun; subst. split; [right; reflexivity|].
    eexists s, _, _, 0%nat. rewrite tick_0. split; [reflexivity|].
    split; [reflexivity|discriminate]. }
  destruct (decide (getFramesWritten s < 0)).
  { inversion Hrun; subst. split; [right; reflexivity|].
    eexists s, _, _, 0%nat. rewrite tick_0. split; [reflexivity|].
    split; [reflexivity|discriminate]. }
  destruct (decide (getFramesRead s = getFramesWritten s)).
  { inversion Hrun; subst. split; [left; reflexivity|].
    eexists s, _, _, 0%nat. rewrite tick_0. split; [reflexivity|].
    split; reflexivity. }
  destruct (timespec_after (time_now w) deadline
            && bool_decide (getFramesRead s = 0)).
  { inversion Hrun; subst. split; [left; reflexivity|].
    eexists (elapse 1000 s), _, _, 1%nat. split; [reflexivity|].
    split; reflexivity. }
  apply (IH _ p (elapse 1000 s)) in Hrun; [|apply effect_lookup].
  destruct Hrun as (Hstep & s' & evs & ds & k & -> & Hreq & Hds).
  split; [exact Hstep|].
  change (clock_read
            (effect p (elapse 1000 s)
               [EvGetFramesRead (getFramesRead s);
                EvGetFramesWritten (getFramesWritten s)] [] w))
    with (tick 1 (effect p (elapse 1000 s)
               [EvGetFramesRead (getFramesRead s);
                EvGetFramesWritten (getFramesWritten s)] [] w)).
  rewrite tick_effect_compose.
  eexists _, _, _, _. split; [reflexivity|]. split; [|exact Hds].
  unfold requests in *. cbn [app List.filter is_request]. exact Hreq.
Qed.

(** Every completed [Drain] on a held stream. *)
Lemma Drain_shape fuel w p s r w' :
  attached w p (Some s) ->
  Drain fuel w = Ret r w' ->
  exists s' evs ds n,
    w' = tick n (effect p s' evs ds w) /\
    ((r = -1 /\ requests evs = []) \/
     (exists s1 polled stopping,
        evs = polled ++ stopping /\ requests polled = [] /\
        drain_stop_run s1 r stopping ds s')).
Proof.
  intros Hatt Hrun. pose proof Hatt as [Hpd Hp].
  rewrite (Drain_records_start fuel w p s Hatt) in Hrun.
  destruct (Drain_poll fuel (Some p) (one_second_later (time_now w))
              (clock_read w)) as [step w1|] eqn:Hpoll; [|discriminate].
  apply (Drain_poll_shape fuel _ p s) in Hpoll; [|exact Hp].
  destruct Hpoll as (Hstep & s1 & polled & ds1 & n & -> & Hreq & Hds).
  change (clock_read w) with (tick 1 w) in Hrun.
  assert (Hw1 : tick n (effect p s1 polled ds1 (tick 1 w))
                = tick (n + 1) (effect p s1 polled ds1 w)).
  { unfold tick, effect; cbn. f_equal. lia. }
  rewrite Hw1 in Hrun. clear Hw1.
  destruct Hstep as [-> | ->].
  - rewrite (Hds eq_refl) in *.
    apply (Drain_stop_sound fuel _ p s1) in Hrun; [|apply effect_lookup].
    destruct Hrun as (stopping & ds & s' & Hsr & ->).
    assert (Hc : effect p s' stopping ds (tick (n + 1) (effect p s1 polled [] w))
                 = tick (n + 1) (effect p s' (polled ++ stopping) ds w)).
    { unfold tick, effect; cbn. rewrite insert_insert_eq, <- !app_assoc.
      reflexivity. }
    rewrite Hc. eexists _, _, _, _. split; [reflexivity|].
    right. exists s1, polled, stopping. auto.
  - inversion Hrun; subst.
    eexists _, _, _, _. split; [reflexivity|]. left. auto.
Qed.

(** [Prepare] on a bridge without a stream, by the answer of the open. *)
Lemma Prepare_cases w p :
  attached w p None ->
  let builder := builder_of (ext w) in
  let opened := store_stream p (snd (openStream builder)) w in
  let open_event := EvOpenStream builder (fst (openStream builder)) in
  Prepare w =
  if decide (fst (openStream builder) <> OK) then
    Ret (-1) (add_diag (FailedToOpen (fst (openStream builder)))
                (add_event open_event opened))
  else match snd (openStream builder) with
       | None => Stuck NullDereference
       | Some s =>
           let capacity := getBufferCapacityInFrames s in
           if decide (to_ulong capacity < buffer_size (ext w)) then
             Ret (- EIO)
               (add_event EvRelease
                  (store_stream p None
                     (add_diag
                        (BufferSmallerThanRequested capacity
                           (buffer_size (ext w)))
                        (add_event (EvGetBufferCapacityInFrames capacity)
                           (add_event (EvGetBufferCapacityInFrames capacity)
                              (add_event open_event opened))))))
           else
             Ret 0 (add_event (EvGetBufferCapacityInFrames capacity)
                      (add_event open_event opened))
       end.
Proof.
  intros [Hpd Hp]. cbv zeta. unfold Prepare, bind, get_ext.
  rewrite Hpd. rewrite (deref_run p _ w Hp). cbn [stream].
  unfold set_stream. rewrite Hp. cbn [emit].
  destruct (openStream (builder_of (ext w))) as [res os]. cbn [fst snd].
  destruct (decide (res <> OK)); [reflexivity|].
  unfold query, bind, the_stream, bind, deref.
  cbn [heap add_event store_stream with_heap].
  rewrite lookup_insert_eq. cbn [stream].
  destruct os as [s|]; [|reflexivity].
  cbn [ret emit].
  destruct (decide (to_ulong (getBufferCapacityInFrames s)
                    < buffer_size (ext w))); [|reflexivity].
  cbn [heap add_event store_stream with_heap].
  rewrite lookup_insert_eq. cbn [stream ret emit log].
  unfold stream_reset, bind, deref, set_stream.
  cbn [heap add_event add_diag store_stream with_heap].
  repeat (rewrite lookup_insert_eq; cbn). reflexivity.
Qed.

End Shapes.

Section CallbackProperties.
Context {T : Type} `{AudioStream T}.
Implicit Types (w : World T) (p : nat) (s : T).

(** How a callback starts: the bridge holds a stream, or holds none, or
    [self] cannot be dereferenced. *)
Lemma entry_cases w :
  (exists p s, attached w p (Some s)) \/
  (exists p, attached w p None) \/
  (forall A (k : OboePcm T -> M A),
     bind (deref (private_data (ext w))) k w = Stuck NullDereference).
Proof.
  unfold attached. destruct (private_data (ext w)) as [p|] eqn:Hpd.
  - destruct (heap w !! p) as [[[s|]]|] eqn:Hp.
    + left. exists p, s. auto.
    + right; left. exists p. auto.
    + right; right. intros A k. unfold bind, deref. rewrite Hp. reflexivity.
  - right; right. intros A k. reflexivity.
Qed.

Lemma callbacks_not_ready_aux w p :
  attached w p None ->
  Start w = Ret NotReady w /\
  (forall fuel, Stop fuel w = Ret NotReady w) /\
  (forall fuel, Drain fuel w = Ret NotReady w) /\
  (forall enable, Pause enable w = Ret NotReady w).
Proof.
  intros [Hpd Hp].
  repeat split; intros;
    [ unfold Start | unfold Stop | unfold Drain | unfold Pause ];
    unfold bind, get_ext; rewrite Hpd; rewrite (deref_run p _ w Hp);
    reflexivity.
Qed.

(** X1. On a bridge that holds no stream every callback that needs one
    returns NotReady and does nothing else: no backend call, no
    diagnostic, no clock reading, whatever its arguments. *)
Theorem callbacks_not_ready w p :
  attached w p None ->
  Start w = Ret NotReady w /\
  (forall fuel, Stop fuel w = Ret NotReady w) /\
  Pointer w = Ret NotReady w /\
  (forall NDEBUG areas offset size,
     Transfer NDEBUG areas offset size w = Ret NotReady w) /\
  (forall fuel, Drain fuel w = Ret NotReady w) /\
  (forall enable, Pause enable w = Ret NotReady w).
Proof.
  intros [Hpd Hp].
  repeat split; intros;
    [ unfold Start | unfold Stop | unfold Pointer | unfold Transfer
    | unfold Drain | unfold Pause ];
    unfold bind, get_ext; rewrite Hpd; rewrite (deref_run p _ w Hp);
    reflexivity.
Qed.

(** X2. [Close] always returns 0 and leaves [private_data] null, and from
    then on every other callback dereferences the null pointer: none of
    them returns a status. *)
Theorem callbacks_after_Close w :
  exists w',
    Close w = Ret 0 w' /\ private_data (ext w') = None /\
    Start w' = Stuck NullDereference /\
    (forall fuel, Stop fuel w' = Stuck NullDereference) /\
    Pointer w' = Stuck NullDereference /\
    (forall NDEBUG areas offset size,
       Transfer NDEBUG areas offset size w' = Stuck NullDereference) /\
    Prepare w' = Stuck NullDereference /\
    (forall fuel, Drain fuel w' = Stuck NullDereference) /\
    (forall enable, Pause enable w' = Stuck NullDereference).
Proof.
  assert (Hnull : forall w', private_data (ext w') = None ->
    Start w' = Stuck NullDereference /\
    (forall fuel, Stop fuel w' = Stuck NullDereference) /\
    Pointer w' = Stuck NullDereference /\
    (forall NDEBUG areas offset size,
       Transfer NDEBUG areas offset size w' = Stuck NullDereference) /\
    Prepare w' = Stuck NullDereference /\
    (forall fuel, Drain fuel w' = Stuck NullDereference) /\
    (forall enable, Pause enable w' = Stuck NullDereference)).
  { intros w' Hpd.
    repeat split; intros;
      [ unfold Start | unfold Stop | unfold Pointer | unfold Transfer
      | unfold Prepare | unfold Drain | unfold Pause ];
      unfold bind, get_ext; rewrite Hpd; reflexivity. }
  destruct (private_data (ext w)) as [p|] eqn:Hpd.
  - exists (with_ext (set_private_data None (ext w)) w).
    split; [unfold Close, bind, get_ext; rewrite Hpd; reflexivity|].
    split; [reflexivity|]. apply Hnull. reflexivity.
  - exists w.
    split; [unfold Close, bind, get_ext; rewrite Hpd; reflexivity|].
    split; [assumption|]. apply Hnull. assumption.
Qed.

Lemma stop_run_status (s0 : T) r evs ds s' :
  stop_run s0 r evs ds s' -> r = 0 \/ r = BackendError.
Proof. destruct 1; auto. Qed.

Lemma Pointer_shape w p s r w' :
  attached w p (Some s) ->
  Pointer w = Ret r w' ->
  exists ds, w' = effect p s [EvGetFramesWritten (getFramesWritten s)] ds w.
Proof.
  intros [Hpd Hp] Hrun. unfold Pointer, bind, get_ext in Hrun.
  rewrite Hpd in Hrun. rewrite (deref_run p _ w Hp) in Hrun.
  cbn [stream] in Hrun. rewrite (query_run p s) in Hrun by assumption.
  destruct (decide (getFramesWritten s < 0)).
  - rewrite (log_run p s) in Hrun by apply effect_lookup.
    rewrite effect_effect in Hrun. inversion Hrun; subst.
    eexists. reflexivity.
  - destruct (decide (buffer_size (ext w) = 0)); [discriminate|].
    inversion Hrun; subst. eexists. reflexivity.
Qed.

(** X3. The statuses of the control callbacks: [Start], [Stop], [Drain]
    and [Pause] return 0, -1 or -EBADFD and nothing else, [Prepare]
    returns 0, -1 or -EIO, [Close] returns 0; none of them ever returns a
    positive value or -EAGAIN. *)
Theorem control_callbacks_status w :
  (forall r w', Start w = Ret r w' -> control_status r) /\
  (forall fuel r w', Stop fuel w = Ret r w' -> control_status r) /\
  (forall fuel r w', Drain fuel w = Ret r w' -> control_status r) /\
  (forall enable r w', Pause enable w = Ret r w' -> control_status r) /\
  (forall r w', Prepare w = Ret r w' ->
     r = 0 \/ r = BackendError \/ r = IOError) /\
  (forall r w', Close w = Ret r w' -> r = 0).
Proof.
  unfold control_status.
  destruct (entry_cases w) as [(p & s & Hatt) | [(p & Hatt) | Hnull]].
  - repeat split.
    + intros r w' Hrun. rewrite (Start_run w p s Hatt) in Hrun.
      inversion Hrun. destruct (decide _); auto.
    + intros fuel r w' Hrun.
      destruct (Stop_shape fuel w p s r w' Hatt Hrun)
        as (s' & evs & ds & _ & [(-> & _) | (_ & _ & Hsr)]); [auto|].
      destruct (stop_run_status _ _ _ _ _ Hsr); auto.
    + intros fuel r w' Hrun.
      destruct (Drain_shape fuel w p s r w' Hatt Hrun)
        as (s' & evs & ds & n & _ & [(-> & _) | (s1 & e1 & e2 & _ & _ & Hsr)]);
        [auto|].
      destruct (drain_stop_run_requests _ _ _ _ _ Hsr)
        as (rs & _ & [-> | ->] & _); auto.
    + intros enable r w' Hrun. rewrite (Pause_run w p s enable Hatt) in Hrun.
      inversion Hrun. destruct (decide _); auto.
    + intros r w' Hrun. destruct Hatt as [Hpd Hp].
      unfold Prepare, bind, get_ext in Hrun. rewrite Hpd in Hrun.
      rewrite (deref_run p _ w Hp) in Hrun. inversion Hrun. auto.
    + intros r w' Hrun. unfold Close, bind, get_ext in Hrun.
      destruct (private_data (ext w)); inversion Hrun; reflexivity.
  - destruct (callbacks_not_ready_aux w p Hatt) as (HS & HSt & HD & HP).
    repeat split.
    + intros r w' Hrun. rewrite HS in Hrun. inversion Hrun. auto.
    + intros fuel r w' Hrun. rewrite HSt in Hrun. inversion Hrun. auto.
    + intros fuel r w' Hrun. rewrite HD in Hrun. inversion Hrun. auto.
    + intros enable r w' Hrun. rewrite HP in Hrun. inversion Hrun. auto.
    + intros r w' Hrun. rewrite (Prepare_cases w p Hatt) in Hrun.
      cbv zeta in Hrun.
      destruct (decide _); [inversion Hrun; auto|].
      destruct (snd (openStream (builder_of (ext w)))); [|discriminate].
      destruct (decide _); inversion Hrun; auto.
    + intros r w' Hrun. unfold Close, bind, get_ext in Hrun.
      destruct (private_data (ext w)); inversion Hrun; reflexivity.
  - repeat split; intros * Hrun;
      try (first [ progress unfold Start in Hrun
                 | progress unfold Stop in Hrun
                 | progress unfold Drain in Hrun
                 | progress unfold Pause in Hrun
                 | progress unfold Prepare in Hrun ];
           unfold bind at 1 in Hrun; unfold get_ext in Hrun;
           cbv beta zeta in Hrun; rewrite Hnull in Hrun; discriminate).
    unfold Close, bind, get_ext in Hrun.
    destruct (private_data (ext w)); inversion Hrun; reflexivity.
Qed.

(** X4. Whatever they return, [Start], [Stop], [Pointer], [Transfer],
    [Drain] and [Pause] keep the bridge: the plugin structure is
    untouched, the bridge still holds a stream, no other object changes,
    and the log of backend calls and the diagnostics only grow. *)
Theorem callbacks_keep_bridge w p s :
  attached w p (Some s) ->
  (forall r w', Start w = Ret r w' -> keeps_bridge p w w') /\
  (forall fuel r w', Stop fuel w = Ret r w' -> keeps_bridge p w w') /\
  (forall r w', Pointer w = Ret r w' -> keeps_bridge p w w') /\
  (forall NDEBUG areas offset size r w',
     Transfer NDEBUG areas offset size w = Ret r w' ->
     keeps_bridge p w w') /\
  (forall fuel r w', Drain fuel w = Ret r w' -> keeps_bridge p w w') /\
  (forall enable r w', Pause enable w = Ret r w' -> keeps_bridge p w w').
Proof.
  intros Hatt. pose proof Hatt as [Hpd Hp].
  refine (conj _ (conj _ (conj _ (conj _ (conj _ _))))).
  - intros r w' Hrun. rewrite (Start_run w p s Hatt) in Hrun.
    inversion Hrun. eapply keeps_bridge_effect, Hp.
  - intros fuel r w' Hrun.
    destruct (Stop_shape fuel w p s r w' Hatt Hrun)
      as (s' & evs & ds & -> & _).
    eapply keeps_bridge_effect, Hp.
  - intros r w' Hrun.
    destruct (Pointer_shape w p s r w' Hatt Hrun) as (ds & ->).
    eapply keeps_bridge_effect, Hp.
  - intros NDEBUG areas offset size r w' Hrun.
    destruct (Transfer_shape NDEBUG areas offset size w p s r w' Hatt Hrun)
      as (s' & evs & ds & -> & _).
    eapply keeps_bridge_effect, Hp.
  - intros fuel r w' Hrun.
    destruct (Drain_shape fuel w p s r w' Hatt Hrun)
      as (s' & evs & ds & n & -> & _).
    eapply keeps_bridge_tick_effect, Hp.
  - intros enable r w' Hrun. rewrite (Pause_run w p s enable Hatt) in Hrun.
    inversion Hrun. eapply keeps_bridge_effect, Hp.
Qed.

(** X5. [Start] and [Pause] are one request each and never wait: the
    status is 0 exactly when the backend accepted the request, the
    request is the only backend call, and [Pause] requests a pause
    whatever [enable] is, also when the host asks to resume. *)
Theorem Start_and_Pause_request_once w p s :
  attached w p (Some s) ->
  (exists w',
     Start w = Ret (if decide (fst (requestStart s) = OK) then 0
                    else BackendError) w' /\
     events w' = events w ++ [EvRequestStart (fst (requestStart s))] /\
     heap w' !! p = Some {| stream := Some (snd (requestStart s)) |}) /\
  (forall enable,
   exists w',
     Pause enable w = Ret (if decide (fst (requestPause s) = OK) then 0
                           else BackendError) w' /\
     events w' = events w ++ [EvRequestPause (fst (requestPause s))] /\
     heap w' !! p = Some {| stream := Some (snd (requestPause s)) |}).
Proof.
  intros Hatt. split; [|intros enable].
  - rewrite (Start_run w p s Hatt). eexists. split.
    + destruct (decide (fst (requestStart s) = OK)) as [E|E].
      * rewrite decide_False by (intros N; apply N, E). reflexivity.
      * rewrite decide_True by assumption. reflexivity.
    + split; [reflexivity|apply effect_lookup].
  - rewrite (Pause_run w p s enable Hatt). eexists. split.
    + destruct (decide (fst (requestPause s) = OK)) as [E|E].
      * rewrite decide_False by (intros N; apply N, E). reflexivity.
      * rewrite decide_True by assumption. reflexivity.
    + split; [reflexivity|apply effect_lookup].
Qed.

End CallbackProperties.

Section TransferProperties.
Context {T : Type} `{AudioStream T}.
Implicit Types (w : World T) (p : nat) (s : T).

Lemma write_status_nonzero res : write_status res <> 0.
Proof.
  unfold write_status. destruct (decide _); [discriminate|].
  destruct (decide _); [discriminate|assumption].
Qed.

(** X6. The backend calls of one [Transfer] on a held stream: apart from
    the state query there is at most one start request, made only when the
    stream is not started, followed by at most one write; the write is
    passed the address of the first area, the frame count as [int32_t] and
    the timeout of the mode, whatever [offset] is, and its answer decides
    the status; [Transfer] never pauses, stops, flushes, opens or releases
    the stream.  The status is 0 exactly for a zero frame count. *)
Theorem Transfer_backend_calls NDEBUG areas offset size w p s r w' :
  attached w p (Some s) ->
  Transfer NDEBUG areas offset size w = Ret r w' ->
  (r = 0 <-> size = 0) /\
  exists evs,
    events w' = events w ++ evs /\
    ((requests evs = [] /\ (r = 0 \/ r = BackendError)) \/
     (exists rs, requests evs = [EvRequestStart rs] /\
                 getState s <> Started /\ r = BackendError) \/
     (exists starts firstArea res,
        areas !! 0%nat = Some firstArea /\
        ((getState s = Started /\ starts = []) \/
         (getState s <> Started /\ starts = [EvRequestStart OK])) /\
        requests evs =
          starts ++ [EvWrite (addr firstArea) (to_int32 size)
                       (if decide (nonblock (ext w) <> 0) then 0
                        else TimeoutNanoseconds) res] /\
        r = write_status res)).
Proof.
  intros Hatt Hrun.
  destruct (Transfer_shape NDEBUG areas offset size w p s r w' Hatt Hrun)
    as (s' & evs & ds & -> & Hcases).
  destruct Hcases as
    [ (Hz & -> & -> & ->)
    | [ (Hz & Hst & Hrs & -> & ->)
      | (Hz & starts & fa & Hfa & Hstarts &
         [ (Hnd & -> & -> & ->) | (res & -> & ->) ]) ] ].
  - split; [tauto|]. exists []. split; [reflexivity|]. left. auto.
  - split; [split; [discriminate|contradiction]|].
    eexists. split; [reflexivity|]. right; left.
    eexists. split; [reflexivity|]. auto.
  - split; [split; [discriminate|contradiction]|].
    eexists. split; [reflexivity|].
    destruct Hstarts as [(Hst & ->) | (Hst & ->)].
    + left. auto.
    + right; left. exists OK. auto.
  - split; [split; [intros E; exfalso; eapply write_status_nonzero, E
                   |contradiction]|].
    eexists. split; [reflexivity|]. right; right.
    exists starts, fa, res. split; [assumption|]. split; [assumption|].
    split; [|reflexivity].
    destruct Hstarts as [(Hst & ->) | (Hst & ->)]; reflexivity.
Qed.

(** X7. A refused implicit start ends [Transfer] with BackendError before
    the channel areas are looked at: the state query and the start request
    are the only backend calls, no write is made, and this is so for any
    areas, offset and build. *)
Theorem Transfer_start_refused NDEBUG areas offset size w p s rs s1 :
  attached w p (Some s) ->
  size <> 0 ->
  getState s <> Started ->
  requestStart s = (rs, s1) ->
  rs <> OK ->
  Transfer NDEBUG areas offset size w =
  Ret BackendError
    (effect p s1 [EvGetState (getState s); EvRequestStart rs]
       [FailedToStartFromTransfer rs] w).
Proof.
  intros [Hpd Hp] Hsize Hst Hreq Hrs.
  unfold Transfer, bind, get_ext. rewrite Hpd.
  rewrite (deref_run p _ w Hp). cbn [stream].
  rewrite decide_False by assumption.
  rewrite (query_run p s) by assumption.
  rewrite decide_True by assumption.
  rewrite (request_run p s _ _ _ rs s1)
    by (first [apply effect_lookup | assumption]).
  rewrite effect_effect. rewrite decide_True by assumption.
  rewrite (log_run p s1) by apply effect_lookup.
  rewrite effect_effect. reflexivity.
Qed.

(** X8. The interleaving check of the debug build accepts a list of
    channel indices exactly when every index has an area, and every such
    area has the address and the step of the first area and a first-bit
    offset below that step. *)
Theorem areas_interleaved_accepts areas firstArea cs :
  areas_interleaved areas firstArea cs = Some true <->
  Forall (fun c : nat =>
            exists area, areas !! c = Some area /\
                         addr area = addr firstArea /\
                         step area = step firstArea /\
                         first area < step firstArea) cs.
Proof.
  induction cs as [|c cs IH]; cbn [areas_interleaved].
  - split; [constructor|reflexivity].
  - destruct (areas !! c) as [area|] eqn:Harea.
    + destruct (decide _) as [Hbad|Hok].
      * split; [discriminate|]. intros Hall. exfalso.
        apply Forall_cons in Hall. destruct Hall as [(a & Ha & ? & ? & ?) _].
        rewrite Harea in Ha. inversion Ha; subst. lia.
      * rewrite IH. split.
        -- intros Hall. constructor; [|assumption].
           exists area. split; [exact Harea|].
           destruct (decide (addr area = addr firstArea));
             destruct (decide (step area = step firstArea));
             destruct (decide (first area < step firstArea));
             try (exfalso; apply Hok; lia). auto.
        -- intros Hall. apply Forall_cons in Hall. tauto.
    + split; [discriminate|]. intros Hall. exfalso.
      apply Forall_cons in Hall. destruct Hall as [(a & Ha & _) _].
      rewrite Harea in Ha. discriminate.
Qed.

(** X9. In a debug build, areas that fail the interleaving check end
    [Transfer] with BackendError and the diagnostic, and no write is made;
    the implicit start, when the stream was not started, has already been
    requested by then. *)
Theorem Transfer_rejects_non_interleaved areas offset size w p s s1
    firstArea :
  attached w p (Some s) ->
  size <> 0 ->
  (getState s = Started /\ s1 = s) \/
  (getState s <> Started /\ requestStart s = (OK, s1)) ->
  areas !! 0%nat = Some firstArea ->
  areas_interleaved areas firstArea (seq 0 (Z.to_nat (channels (ext w))))
  = Some false ->
  exists w',
    Transfer false areas offset size w = Ret BackendError w' /\
    cerr w' = cerr w ++ [NonInterleaved] /\
    heap w' !! p = Some {| stream := Some s1 |} /\
    events w' = events w ++
      EvGetState (getState s) ::
      (if decide (getState s = Started) then [] else [EvRequestStart OK]).
Proof.
  intros [Hpd Hp] Hsize Hstart Hfirst Hchk.
  unfold Transfer, bind, get_ext. rewrite Hpd.
  rewrite (deref_run p _ w Hp). cbn [stream].
  rewrite decide_False by assumption.
  rewrite (query_run p s) by assumption.
  destruct Hstart as [[Hst ->] | [Hst Hreq]].
  - rewrite decide_False by (intros E; apply E; assumption).
    cbn [ret negb]. rewrite Hfirst, Hchk.
    rewrite (log_run p s) by apply effect_lookup. rewrite effect_effect.
    eexists. split; [reflexivity|]. split; [reflexivity|].
    split; [apply effect_lookup|].
    rewrite decide_True by assumption. reflexivity.
  - rewrite decide_True by assumption.
    rewrite (request_run p s _ _ _ OK s1)
      by (first [apply effect_lookup | assumption]).
    rewrite effect_effect.
    rewrite decide_False by (intros E; apply E; reflexivity).
    cbn [ret negb]. rewrite Hfirst, Hchk.
    rewrite (log_run p s1) by apply effect_lookup. rewrite effect_effect.
    eexists. split; [reflexivity|]. split; [reflexivity|].
    split; [apply effect_lookup|].
    rewrite decide_False by assumption. reflexivity.
Qed.

End TransferProperties.

Section PrepareProperties.
Context {T : Type} `{AudioStream T}.
Implicit Types (w : World T) (p : nat) (s : T).

(** X10. [Prepare] is idempotent: once it has returned 0 the bridge holds
    a stream, and calling it again returns 0 without any backend call and
    without touching that stream. *)
Theorem Prepare_idempotent w p o w' :
  attached w p o ->
  Prepare w = Ret 0 w' ->
  (exists s, attached w' p (Some s)) /\ Prepare w' = Ret 0 w'.
Proof.
  intros Hatt Hrun.
  assert (Hheld : forall w0 s, attached w0 p (Some s) ->
                               Prepare w0 = Ret 0 w0).
  { intros w0 s [Hpd Hp]. unfold Prepare, bind, get_ext. rewrite Hpd.
    rewrite (deref_run p _ w0 Hp). reflexivity. }
  destruct o as [s|].
  - rewrite (Hheld w s Hatt) in Hrun. inversion Hrun; subst.
    split; [exists s; assumption|]. eapply Hheld, Hatt.
  - rewrite (Prepare_cases w p Hatt) in Hrun. cbv zeta in Hrun.
    destruct Hatt as [Hpd Hp].
    destruct (decide _); [discriminate|].
    destruct (snd (openStream (builder_of (ext w)))) as [s|] eqn:Hs;
      [|discriminate].
    destruct (decide _); [discriminate|].
    inversion Hrun; subst.
    assert (Hatt' : attached
              (add_event
                 (EvGetBufferCapacityInFrames (getBufferCapacityInFrames s))
                 (add_event
                    (EvOpenStream (builder_of (ext w))
                       (fst (openStream (builder_of (ext w)))))
                    (store_stream p (Some s) w))) p (Some s)).
    { split; [exact Hpd|]. cbn. apply lookup_insert_eq. }
    split; [exists s; exact Hatt'|]. eapply Hheld, Hatt'.
Qed.

(** X11. With a backend that stores no stream when it rejects the open,
    [Prepare] on a bridge without a stream leaves a stream exactly when it
    returns 0: after 0 the bridge holds the opened stream, whose capacity
    passed the check; after any other status it holds none. *)
Theorem Prepare_holds_stream_iff_success w p r w' :
  attached w p None ->
  (fst (openStream (builder_of (ext w))) <> OK ->
   snd (openStream (builder_of (ext w))) = None) ->
  Prepare w = Ret r w' ->
  (r = 0 /\
   exists s, attached w' p (Some s) /\
             snd (openStream (builder_of (ext w))) = Some s /\
             ~ to_ulong (getBufferCapacityInFrames s) < buffer_size (ext w))
  \/
  (r < 0 /\ attached w' p None).
Proof.
  intros Hatt Hcontract Hrun. pose proof Hatt as [Hpd Hp].
  rewrite (Prepare_cases w p Hatt) in Hrun. cbv zeta in Hrun.
  destruct (decide _) as [Hrej|Hacc].
  - inversion Hrun; subst. right. split; [reflexivity|].
    split; [exact Hpd|]. cbn. rewrite (Hcontract Hrej).
    apply lookup_insert_eq.
  - destruct (snd (openStream (builder_of (ext w)))) as [s|] eqn:Hs;
      [|discriminate].
    destruct (decide _) as [Hsmall|Hfits]; inversion Hrun; subst.
    + right. split; [reflexivity|]. split; [exact Hpd|].
      cbn. apply lookup_insert_eq.
    + left. split; [reflexivity|]. exists s.
      split; [split; [exact Hpd|cbn; apply lookup_insert_eq]|]. auto.
Qed.

End PrepareProperties.

Section StopDrainProperties.
Context {T : Type} `{AudioStream T}.
Implicit Types (w : World T) (p : nat) (s : T).

(** X12. [Stop] returns 0 only on the word of the backend: the last state
    the backend reported during the call is [Flushed], or [Stopped] when
    the stream was already stopped at entry. *)
Theorem Stop_success_reported fuel w p s w' :
  attached w p (Some s) ->
  Stop fuel w = Ret 0 w' ->
  exists evs,
    events w' = events w ++ evs /\
    (last_reported evs = Some Flushed \/
     (last_reported evs = Some Stopped /\ getState s = Stopped)).
Proof.
  intros Hatt Hrun.
  destruct (Stop_shape fuel w p s 0 w' Hatt Hrun)
    as (s' & evs & ds & -> & [(_ & -> & Hst) | (_ & _ & Hsr)]).
  - eexists. split; [reflexivity|]. destruct Hst as [Hst|Hst]; rewrite Hst.
    + right. split; reflexivity.
    + left. reflexivity.
  - eexists. split; [reflexivity|]. left.
    inversion Hsr as [ | | | | s1 evs1 s2 s3 evs2 s4 Hp1 Hw1 Hf Hw2 ]; subst.
    apply last_reported_app, last_reported_app.
    apply (last_reported_app [EvRequestFlush OK]
             (EvGetState (getState s3) :: evs2)).
    eapply wait_run_last_reported, Hw2.
Qed.

(** X13. The end of [Drain], after the polling loop: the completed calls
    are exactly the runs "request stop; if accepted, wait until the
    backend reports Stopped", a rejected request or a failed wait giving
    -1; each such run is what the code returns once the fuel covers its
    backend calls. *)
Theorem Drain_ends_with_stop w p s :
  heap w !! p = Some {| stream := Some s |} ->
  (forall fuel r w', Drain_stop fuel (Some p) w = Ret r w' ->
     exists evs ds s',
       drain_stop_run s r evs ds s' /\ w' = effect p s' evs ds w) /\
  (forall r evs ds s', drain_stop_run s r evs ds s' ->
     forall fuel, (length evs <= fuel)%nat ->
       Drain_stop fuel (Some p) w = Ret r (effect p s' evs ds w)).
Proof.
  intros Hp. split.
  - intros fuel r w'. apply Drain_stop_sound. assumption.
  - intros r evs ds s'. apply Drain_stop_complete. assumption.
Qed.

Lemma wait_run_waits target input st s evs out s' :
  wait_run target input st s evs out s' ->
  Forall (fun e => is_wait e = true) evs.
Proof. induction 1; repeat constructor; assumption. Qed.

(** The polling loop makes counter queries and no other backend call. *)
Lemma Drain_poll_queries fuel :
  forall w p s deadline step w',
    heap w !! p = Some {| stream := Some s |} ->
    Drain_poll fuel (Some p) deadline w = Ret step w' ->
    (step = Break \/ step = Return (-1)) /\
    exists s' evs ds n,
      w' = tick n (effect p s' evs ds w) /\
      Forall (fun e => is_counter_query e = true) evs /\
      (step = Break -> ds = []).
Proof.
  induction fuel as [|fuel IH]; intros w p s deadline step w' Hp Hrun;
    [discriminate|].
  cbn [Drain_poll] in Hrun. unfold bind at 1 in Hrun.
  rewrite (Drain_poll_body_run w p s deadline Hp) in Hrun. cbv zeta in Hrun.
  destruct (decide (getFramesRead s < 0)).
  { inversion Hrun; subst. split; [right; reflexivity|].
    eexists s, _, _, 0%nat. rewrite tick_0. split; [reflexivity|].
    split; [repeat constructor|discriminate]. }
  destruct (decide (getFramesWritten s < 0)).
  { inversion Hrun; subst. split; [right; reflexivity|].
    eexists s, _, _, 0%nat. rewrite tick_0. split; [reflexivity|].
    split; [repeat constructor|discriminate]. }
  destruct (decide (getFramesRead s = getFramesWritten s)).
  { inversion Hrun; subst. split; [left; reflexivity|].
    eexists s, _, _, 0%nat. rewrite tick_0. split; [reflexivity|].
    split; [repeat constructor|reflexivity]. }
  destruct (timespec_after (time_now w) deadline
            && bool_decide (getFramesRead s = 0)).
  { inversion Hrun; subst. split; [left; reflexivity|].
    eexists (elapse 1000 s), _, _, 1%nat. split; [reflexivity|].
    split; [repeat constructor|reflexivity]. }
  apply (IH _ p (elapse 1000 s)) in Hrun; [|apply effect_lookup].
  destruct Hrun as (Hstep & s' & evs & ds & k & -> & Hq & Hds).
  split; [exact Hstep|].
  change (clock_read
            (effect p (elapse 1000 s)
               [EvGetFramesRead (getFramesRead s);
                EvGetFramesWritten (getFramesWritten s)] [] w))
    with (tick 1 (effect p (elapse 1000 s)
               [EvGetFramesRead (getFramesRead s);
                EvGetFramesWritten (getFramesWritten s)] [] w)).
  rewrite tick_effect_compose.
  eexists _, _, _, _. split; [reflexivity|]. split; [|exact Hds].
  repeat (constructor; [reflexivity|]). exact Hq.
Qed.

(** Every completed [Drain] on a held stream, call by call: the counter
    queries of the polling loop, then the run of the stop if the loop was
    left without an error. *)
Lemma Drain_calls fuel w p s r w' :
  attached w p (Some s) ->
  Drain fuel w = Ret r w' ->
  exists polled stopping,
    events w' = events w ++ polled ++ stopping /\
    Forall (fun e => is_counter_query e = true) polled /\
    ((r = -1 /\ stopping = []) \/
     (exists s1 ds s', drain_stop_run s1 r stopping ds s')).
Proof.
  intros Hatt Hrun. pose proof Hatt as [Hpd Hp].
  rewrite (Drain_records_start fuel w p s Hatt) in Hrun.
  destruct (Drain_poll fuel (Some p) (one_second_later (time_now w))
              (clock_read w)) as [step w1|] eqn:Hpoll; [|discriminate].
  apply (Drain_poll_queries fuel _ p s) in Hpoll; [|exact Hp].
  destruct Hpoll as (Hstep & s1 & polled & ds1 & n & -> & Hq & Hds).
  exists polled.
  destruct Hstep as [-> | ->].
  - apply (Drain_stop_sound fuel _ p s1) in Hrun; [|apply effect_lookup].
    destruct Hrun as (stopping & ds & s' & Hsr & ->).
    exists stopping. split; [cbn; rewrite <- app_assoc; reflexivity|].
    split; [exact Hq|]. right. exists s1, ds, s'. exact Hsr.
  - inversion Hrun; subst. exists [].
    split; [cbn; rewrite app_nil_r; reflexivity|].
    split; [exact Hq|]. left. split; reflexivity.
Qed.

(** X14. The backend calls of one [Drain] on a held stream, in order:
    the counter queries of the polling loop and nothing else while it
    polls; then either nothing more, or a stop request the backend
    rejected, or an accepted stop request followed by one state query and
    then waits for a state change only.  No start, pause, flush, write,
    open or release is made.  Only the third kind of run can return 0,
    and then the last state the backend reported is [Stopped]; the other
    two return BackendError. *)
Theorem Drain_backend_calls fuel w p s r w' :
  attached w p (Some s) ->
  Drain fuel w = Ret r w' ->
  exists polled stopping,
    events w' = events w ++ polled ++ stopping /\
    Forall (fun e => is_counter_query e = true) polled /\
    ((stopping = [] /\ r = BackendError) \/
     (exists rs,
        stopping = [EvRequestStop rs] /\ rs <> OK /\ r = BackendError) \/
     (exists st waits,
        stopping = EvRequestStop OK :: EvGetState st :: waits /\
        Forall (fun e => is_wait e = true) waits /\
        (r = 0 \/ r = BackendError) /\
        (r = 0 -> last_reported (polled ++ stopping) = Some Stopped))).
Proof.
  intros Hatt Hrun.
  destruct (Drain_calls fuel w p s r w' Hatt Hrun)
    as (polled & stopping & Hev & Hq &
        [(-> & ->) | (s1 & ds & s' & Hsr)]).
  - exists polled, []. split; [exact Hev|]. split; [exact Hq|].
    left. split; reflexivity.
  - exists polled, stopping. split; [exact Hev|]. split; [exact Hq|].
    right.
    destruct Hsr as [r1 s2 Hstop Hr1 | s2 evs out s3 Hstop Hw].
    + left. exists r1. split; [reflexivity|]. split; [exact Hr1|].
      reflexivity.
    + right. exists (getState s2), evs. split; [reflexivity|].
      split; [exact (wait_run_waits _ _ _ _ _ _ _ Hw)|].
      destruct out as [rw|]; cbn [wait_answer].
      * split; [right; reflexivity|]. discriminate.
      * split; [left; reflexivity|]. intros _.
        apply last_reported_app.
        apply (last_reported_app [EvRequestStop OK]).
        eapply wait_run_last_reported, Hw.
Qed.

(** X15. When the two counters are already equal at entry, [Drain] does
    not sleep: after the one clock reading that records the start and one
    pair of counter queries it goes straight to the stop request, on the
    stream as it was. *)
Theorem Drain_already_drained fuel w p s :
  attached w p (Some s) ->
  0 <= getFramesRead s ->
  getFramesRead s = getFramesWritten s ->
  Drain (S fuel) w =
  Drain_stop (S fuel) (Some p)
    (tick 1 (effect p s [EvGetFramesRead (getFramesRead s);
                         EvGetFramesWritten (getFramesWritten s)] [] w)).
Proof.
  intros Hatt Hpos Heq. pose proof Hatt as [Hpd Hp].
  rewrite (Drain_records_start (S fuel) w p s Hatt).
  cbn [Drain_poll]. unfold bind at 1.
  rewrite (Drain_poll_body_run (clock_read w) p s _ Hp). cbv zeta.
  rewrite decide_False by lia. rewrite decide_False by lia.
  rewrite decide_True by assumption. reflexivity.
Qed.

(** X16. A negative counter at the first poll ends [Drain] with
    BackendError at once: no sleep, no stop request, the stream as it
    was; the frames-written counter is not even read when frames-read is
    negative. *)
Theorem Drain_counter_error fuel w p s :
  attached w p (Some s) ->
  getFramesRead s < 0 \/ getFramesWritten s < 0 ->
  exists evs ds,
    Drain (S fuel) w = Ret BackendError (tick 1 (effect p s evs ds w)) /\
    requests evs = [] /\
    (getFramesRead s < 0 ->
     evs = [EvGetFramesRead (getFramesRead s)] /\
     ds = [FailedToGetFramesRead (getFramesRead s)]) /\
    (0 <= getFramesRead s ->
     evs = [EvGetFramesRead (getFramesRead s);
            EvGetFramesWritten (getFramesWritten s)] /\
     ds = [FailedToGetFramesWritten (getFramesWritten s)]).
Proof.
  intros Hatt Hneg. pose proof Hatt as [Hpd Hp].
  rewrite (Drain_records_start (S fuel) w p s Hatt).
  cbn [Drain_poll]. unfold bind at 1.
  rewrite (Drain_poll_body_run (clock_read w) p s _ Hp). cbv zeta.
  destruct (decide (getFramesRead s < 0)) as [Hr|Hr].
  - eexists _, _. split; [reflexivity|]. split; [reflexivity|].
    split; [auto|lia].
  - rewrite decide_True by lia.
    eexists _, _. split; [reflexivity|]. split; [reflexivity|].
    split; [lia|auto].
Qed.

(** A backend that never advances its frames-read counter: [stuck] holds
    of streams that report no frame read and some frame written, and
    sleeping keeps a stream stuck.  On such a stream the polling loop
    goes round until the first clock reading more than one second after
    [start], and leaves through the safety valve there, after two counter
    queries per pass and nothing else. *)
Lemma Drain_poll_stuck (stuck : T -> Prop) p start :
  (forall s, stuck s ->
     getFramesRead s = 0 /\ getFramesWritten s > 0 /\
     stuck (elapse 1000 s)) ->
  normalized start ->
  forall k fuel (w : World T) s,
    (k < fuel)%nat ->
    heap w !! p = Some {| stream := Some s |} ->
    stuck s ->
    (forall j, (j < k)%nat ->
       clock w (clock_reads w + j)%nat - timespec_ns start <= 1000000000) ->
    clock w (clock_reads w + k)%nat - timespec_ns start > 1000000000 ->
    exists s' evs,
      Drain_poll fuel (Some p) (one_second_later start) w
      = Ret Break (tick (S k) (effect p s' evs [] w)) /\
      stuck s' /\ length evs = (2 * S k)%nat /\
      Forall (fun e => is_counter_query e = true) evs.
Proof.
  intros Hinv Hstart.
  induction k as [|k IH]; intros fuel w s Hfuel Hp Hs Hearly Hlate;
    (destruct fuel as [|fuel]; [lia|]).
  - destruct (Hinv s Hs) as (Hr & Hw & Hs').
    cbn [Drain_poll]. unfold bind.
    rewrite (Drain_poll_body_run w p s _ Hp). cbv zeta.
    rewrite decide_False by lia. rewrite decide_False by lia.
    rewrite decide_False by lia.
    rewrite (bool_decide_eq_true_2 _ Hr).
    assert (Hcmp : timespec_after (time_now w) (one_second_later start)
                   = true).
    { apply timespec_after_one_second;
        [apply time_now_normalized|assumption|].
      rewrite time_now_ns. rewrite Nat.add_0_r in Hlate. exact Hlate. }
    rewrite Hcmp. cbn [andb ret].
    eexists _, _. split; [reflexivity|]. split; [exact Hs'|].
    split; [reflexivity|]. repeat constructor.
  - destruct (Hinv s Hs) as (Hr & Hw & Hs').
    cbn [Drain_poll]. unfold bind at 1.
    rewrite (Drain_poll_body_run w p s _ Hp). cbv zeta.
    rewrite decide_False by lia. rewrite decide_False by lia.
    rewrite decide_False by lia.
    assert (Hcmp : timespec_after (time_now w) (one_second_later start)
                   = false).
    { apply not_true_is_false. intros E.
      apply timespec_after_one_second in E;
        [|apply time_now_normalized|assumption].
      rewrite time_now_ns in E.
      specialize (Hearly 0%nat ltac:(lia)).
      rewrite Nat.add_0_r in Hearly. lia. }
    rewrite Hcmp. cbn [andb].
    edestruct (IH fuel
                 (clock_read (effect p (elapse 1000 s)
                     [EvGetFramesRead (getFramesRead s);
                      EvGetFramesWritten (getFramesWritten s)] [] w))
                 (elapse 1000 s))
      as (s' & evs & Hrun & Hst' & Hlen & Hq).
    + lia.
    + apply effect_lookup.
    + exact Hs'.
    + intros j Hj. cbn [clock clock_reads clock_read effect].
      replace (S (clock_reads w) + j)%nat
        with (clock_reads w + S j)%nat by lia.
      apply Hearly. lia.
    + cbn [clock clock_reads clock_read effect].
      replace (S (clock_reads w) + k)%nat
        with (clock_reads w + S k)%nat by lia.
      exact Hlate.
    + rewrite Hrun.
      change (clock_read
                (effect p (elapse 1000 s)
                   [EvGetFramesRead (getFramesRead s);
                    EvGetFramesWritten (getFramesWritten s)] [] w))
        with (tick 1 (effect p (elapse 1000 s)
                   [EvGetFramesRead (getFramesRead s);
                    EvGetFramesWritten (getFramesWritten s)] [] w)).
      rewrite tick_effect_compose.
      replace (S k + 1)%nat with (S (S k)) by lia.
      eexists _, _. split; [reflexivity|]. split; [exact Hst'|].
      split; [cbn [app length]; lia|].
      repeat (constructor; [reflexivity|]). exact Hq.
Qed.

(** X22. [Drain] on a backend that never advances its frames-read
    counter ([stuck] as above), with the clock read once at entry and
    once in every pass of the loop: while the readings are within one
    second of the reading at entry the loop goes round, and at the first
    reading more than one second after it, the one of pass [k], the loop
    is left and [Drain] goes on to the stop request.  By then it has read
    the clock [k + 2] times and made [2 * (k + 1)] counter queries, no
    other backend call and no diagnostic, and the stream is still
    stuck. *)
Theorem Drain_leaves_stuck_backend (stuck : T -> Prop) fuel k w p s :
  (forall s, stuck s ->
     getFramesRead s = 0 /\ getFramesWritten s > 0 /\
     stuck (elapse 1000 s)) ->
  attached w p (Some s) ->
  stuck s ->
  (k < fuel)%nat ->
  (forall j, (j < k)%nat ->
     clock w (clock_reads w + 1 + j)%nat - clock w (clock_reads w)
     <= 1000000000) ->
  clock w (clock_reads w + 1 + k)%nat - clock w (clock_reads w)
  > 1000000000 ->
  exists s' evs,
    Drain fuel w
    = Drain_stop fuel (Some p) (tick (k + 2) (effect p s' evs [] w)) /\
    stuck s' /\ length evs = (2 * (k + 1))%nat /\
    Forall (fun e => is_counter_query e = true) evs.
Proof.
  intros Hinv Hatt Hs Hfuel Hearly Hlate. pose proof Hatt as [Hpd Hp].
  rewrite (Drain_records_start fuel w p s Hatt).
  destruct (Drain_poll_stuck stuck p (time_now w) Hinv
              (time_now_normalized w) k fuel (clock_read w) s Hfuel)
    as (s' & evs & Hrun & Hst & Hlen & Hq).
  - exact Hp.
  - exact Hs.
  - intros j Hj. rewrite time_now_ns.
    cbn [clock clock_reads clock_read].
    replace (S (clock_reads w) + j)%nat
      with (clock_reads w + 1 + j)%nat by lia.
    apply Hearly, Hj.
  - rewrite time_now_ns. cbn [clock clock_reads clock_read].
    replace (S (clock_reads w) + k)%nat
      with (clock_reads w + 1 + k)%nat by lia.
    exact Hlate.
  - rewrite Hrun. exists s', evs.
    assert (Hw : tick (S k) (effect p s' evs [] (clock_read w))
                 = tick (k + 2) (effect p s' evs [] w)).
    { unfold tick, effect, clock_read; cbn. f_equal. lia. }
    rewrite Hw. split; [reflexivity|]. split; [exact Hst|].
    split; [lia|exact Hq].
Qed.

End StopDrainProperties.

(** * Negotiation and entry point *)

Section NegotiationProperties.
Context {Hs : Type} `{IoplugHost Hs}.

Lemma host_answers_app cs1 cs2 (h : Hs) :
  host_answers (cs1 ++ cs2) h
  = host_answers cs1 h ++ host_answers cs2 (host_after cs1 h).
Proof.
  revert h. induction cs1 as [|c cs1 IH]; intros h; cbn; [reflexivity|].
  rewrite IH. reflexivity.
Qed.

Lemma negotiate_spec cs :
  forall hw : HostWorld Hs,
  exists done rest,
    cs = done ++ rest /\
    host_calls (snd (negotiate cs hw)) = host_calls hw ++ done /\
    host (snd (negotiate cs hw)) = host_after done (host hw) /\
    ((fst (negotiate cs hw) = 0 /\ rest = [] /\
      Forall (fun a => 0 <= a) (host_answers done (host hw))) \/
     (fst (negotiate cs hw) < 0 /\
      exists before,
        host_answers done (host hw) = before ++ [fst (negotiate cs hw)] /\
        Forall (fun a => 0 <= a) before)).
Proof.
  induction cs as [|c cs IH]; intros hw.
  - exists [], []. cbn. split; [reflexivity|].
    split; [rewrite app_nil_r; reflexivity|]. split; [reflexivity|].
    left. split; [reflexivity|]. split; [reflexivity|constructor].
  - set (hw1 := {| host := snd (host_step c (host hw));
                   host_calls := host_calls hw ++ [c] |}).
    assert (Hstep : negotiate (c :: cs) hw =
                    if decide (fst (host_step c (host hw)) < 0)
                    then (fst (host_step c (host hw)), hw1)
                    else negotiate cs hw1) by reflexivity.
    rewrite Hstep. clear Hstep.
    destruct (decide (fst (host_step c (host hw)) < 0)) as [Hneg|Hpos].
    + exists [c], cs. cbn [fst snd]. split; [reflexivity|].
      split; [reflexivity|]. split; [reflexivity|].
      right. split; [assumption|].
      exists []. split; [reflexivity|constructor].
    + destruct (IH hw1) as (done & rest & -> & Hcalls & Hhost & Hres).
      exists (c :: done), rest. split; [reflexivity|].
      split; [rewrite Hcalls; cbn; rewrite <- app_assoc; reflexivity|].
      split; [rewrite Hhost; reflexivity|].
      destruct Hres as [(Hz & -> & Hall) | (Hn & before & Hans & Hall)].
      * left. split; [assumption|]. split; [reflexivity|].
        cbn. constructor; [lia|assumption].
      * right. split; [assumption|].
        exists (fst (host_step c (host hw)) :: before). split.
        -- cbn. cbn in Hans. rewrite Hans. reflexivity.
        -- constructor; [lia|assumption].
Qed.

Lemma Initialize_playback name mode (hw : HostWorld Hs) :
  Initialize name SND_PCM_STREAM_PLAYBACK mode hw
  = negotiate (negotiation name mode) hw.
Proof. reflexivity. Qed.

Lemma Initialize_nonpositive name stream mode (hw : HostWorld Hs) :
  fst (Initialize name stream mode hw) <= 0.
Proof.
  destruct stream.
  - rewrite Initialize_playback.
    destruct (negotiate_spec (negotiation name mode) hw)
      as (done & rest & _ & _ & _ & [(-> & _) | (Hn & _)]); lia.
  - change (Initialize name SND_PCM_STREAM_CAPTURE mode hw)
      with (- EINVAL, hw). cbn [fst]. unfold EINVAL. lia.
Qed.

(** X17. [Initialize] refuses capture with -EINVAL before any call to the
    host.  For playback it makes the calls of the negotiation table in
    order and stops at the first negative answer, which it returns: the
    calls made are a prefix of the table, the answers before the last are
    not negative, and the status is 0 exactly when the whole table was
    answered without a negative status.  The status is never positive. *)
Theorem Initialize_negotiates name stream mode (hw : HostWorld Hs) :
  let r := fst (Initialize name stream mode hw) in
  let hw' := snd (Initialize name stream mode hw) in
  r <= 0 /\
  (stream <> SND_PCM_STREAM_PLAYBACK -> r = - EINVAL /\ hw' = hw) /\
  (stream = SND_PCM_STREAM_PLAYBACK ->
   (r = 0 <->
    Forall (fun a => 0 <= a)
      (host_answers (negotiation name mode) (host hw))) /\
   exists done rest,
     negotiation name mode = done ++ rest /\
     host_calls hw' = host_calls hw ++ done /\
     host hw' = host_after done (host hw) /\
     ((r = 0 /\ rest = []) \/
      (r < 0 /\
       exists before,
         host_answers done (host hw) = before ++ [r] /\
         Forall (fun a => 0 <= a) before))).
Proof.
  cbv zeta. destruct stream.
  - rewrite Initialize_playback.
    destruct (negotiate_spec (negotiation name mode) hw)
      as (done & rest & Htable & Hcalls & Hhost & Hres).
    split; [destruct Hres as [(-> & _) | (Hn & _)]; lia|].
    split; [intros E; contradiction|]. intros _. split.
    + destruct Hres as [(Hz & -> & Hall) | (Hn & before & Hans & Hall)].
      * rewrite app_nil_r in Htable.
        split; intros _; [|exact Hz].
        pattern (negotiation name mode) at 1. rewrite Htable. exact Hall.
      * split; [intros E; exfalso; lia|]. intros Hall'. exfalso.
        pattern (negotiation name mode) at 1 in Hall'.
        rewrite Htable, host_answers_app, Hans in Hall'.
        apply Forall_app in Hall'. destruct Hall' as [Hall' _].
        apply Forall_app in Hall'. destruct Hall' as [_ Hlast].
        apply Forall_cons in Hlast. destruct Hlast as [Hlast _].
        cbv beta in Hlast. lia.
    + exists done, rest. split; [assumption|]. split; [assumption|].
      split; [assumption|].
      destruct Hres as [(Hz & -> & Hall) | (Hn & before & Hans & Hall)];
        [left; auto|right; eauto].
  - change (Initialize name SND_PCM_STREAM_CAPTURE mode hw)
      with (- EINVAL, hw). cbn [fst snd].
    split; [unfold EINVAL; lia|].
    split; [intros _; split; reflexivity|]. intros E; discriminate.
Qed.

End NegotiationProperties.

Lemma advertised_formats_mapped_aux :
  (forall fmt, In fmt advertised_formats <-> format_of fmt <> Invalid) /\
  (forall f g, In f advertised_formats -> In g advertised_formats ->
               format_of f = format_of g -> f = g).
Proof.
  split.
  - intros fmt. unfold format_of, advertised_formats. cbn [In].
    destruct (decide (fmt = SND_PCM_FORMAT_S16_LE)) as [->|H1];
      [split; [discriminate|auto]|].
    destruct (decide (fmt = SND_PCM_FORMAT_FLOAT_LE)) as [->|H2];
      [split; [discriminate|auto]|].
    destruct (decide (fmt = SND_PCM_FORMAT_S24_3LE)) as [->|H3];
      [split; [discriminate|auto]|].
    destruct (decide (fmt = SND_PCM_FORMAT_S32_LE)) as [->|H4];
      [split; [discriminate|auto 6]|].
    split.
    + intros [E|[E|[E|[E|[]]]]]; congruence.
    + intros Hn. exfalso. apply Hn. reflexivity.
  - intros f g Hf Hg. unfold advertised_formats in *. cbn [In] in *.
    destruct Hf as [<-|[<-|[<-|[<-|[]]]]];
      destruct Hg as [<-|[<-|[<-|[<-|[]]]]];
      cbn; intros E; try reflexivity; discriminate.
Qed.

(** X18. The formats [Initialize] offers to the host are exactly the host
    formats the mapping of [Prepare] knows: a format is in the offered
    list if and only if it is not mapped to [Invalid], and two different
    offered formats are mapped to different backend formats. *)
Theorem advertised_formats_are_mapped :
  (forall fmt, In fmt advertised_formats <-> format_of fmt <> Invalid) /\
  (forall f g, In f advertised_formats -> In g advertised_formats ->
               format_of f = format_of g -> f = g).
Proof.
  split.
  - intros fmt. unfold format_of, advertised_formats. cbn [In].
    destruct (decide (fmt = SND_PCM_FORMAT_S16_LE)) as [->|H1];
      [split; [discriminate|auto]|].
    destruct (decide (fmt = SND_PCM_FORMAT_FLOAT_LE)) as [->|H2];
      [split; [discriminate|auto]|].
    destruct (decide (fmt = SND_PCM_FORMAT_S24_3LE)) as [->|H3];
      [split; [discriminate|auto]|].
    destruct (decide (fmt = SND_PCM_FORMAT_S32_LE)) as [->|H4];
      [split; [discriminate|auto 6]|].
    split.
    + intros [E|[E|[E|[E|[]]]]]; congruence.
    + intros Hn. exfalso. apply Hn. reflexivity.
  - intros f g Hf Hg. unfold advertised_formats in *. cbn [In] in *.
    destruct Hf as [<-|[<-|[<-|[<-|[]]]]];
      destruct Hg as [<-|[<-|[<-|[<-|[]]]]];
      cbn; intros E; try reflexivity; discriminate.
Qed.

(** X19. For parameters that fit in 31 bits the builder of [Prepare]
    carries the channel count, the rate and the buffer size of the host
    unchanged, always asks for an output stream in low-latency shared mode
    on OpenSL ES, and asks for the format [Invalid] exactly when the host
    format is not one of those [Initialize] offered. *)
Theorem builder_carries_parameters (e : snd_pcm_ioplug_t) :
  0 <= channels e < 2 ^ 31 ->
  0 <= rate e < 2 ^ 31 ->
  0 <= buffer_size e < 2 ^ 31 ->
  let b := builder_of e in
  b_channelCount b = channels e /\
  b_sampleRate b = rate e /\
  b_bufferCapacityInFrames b = buffer_size e /\
  b_direction b = Output /\ b_performanceMode b = LowLatency /\
  b_sharingMode b = Shared /\ b_audioApi b = OpenSLES /\
  (b_format b = Invalid <-> ~ In (format e) advertised_formats).
Proof.
  intros Hc Hr Hb. cbv zeta. unfold builder_of.
  cbn [b_channelCount b_sampleRate b_bufferCapacityInFrames b_direction
       b_performanceMode b_sharingMode b_audioApi b_format].
  unfold to_int32. rewrite !wrap_signed_id by (change (32 - 1) with 31; lia).
  repeat (split; [reflexivity|]).
  destruct advertised_formats_mapped_aux as [Hmap _].
  rewrite Hmap. split; [intros E N; exact (N E)|apply dec_stable].
Qed.

Section EntryPointProperties.
Context {T : Type} `{AudioStream T} {Hs : Type} `{IoplugHost Hs}.

(** X20. The entry point.  A failed allocation returns -ENOMEM without a
    call to the host.  Otherwise the status and the host are those of
    [Initialize]: on a negative status the bridge object is deleted again
    (the heap is what it was), the caller's slot is not written and the
    backend has not been called; on success the bridge exists at the new
    address without a stream and the slot receives the handle the host
    made. *)
Theorem snd_pcm_oboe_open_result (w : World T) p name dir mode
    (hw : HostWorld Hs) pcmp :
  heap w !! p = None ->
  snd_pcm_oboe_open None name dir mode hw pcmp w
  = Ret (- ENOMEM, hw, pcmp) w /\
  let r := fst (Initialize name dir mode hw) in
  let hw' := snd (Initialize name dir mode hw) in
  exists pcmp' w',
    snd_pcm_oboe_open (Some p) name dir mode hw pcmp w
    = Ret (r, hw', pcmp') w' /\
    events w' = events w /\
    ((r = 0 /\ attached w' p None /\
      pcmp' = Some (ioplug_pcm (host hw'))) \/
     (r < 0 /\ heap w' = heap w /\ pcmp' = pcmp)).
Proof.
  intros Hfresh. split; [reflexivity|]. cbv zeta.
  pose proof (Initialize_nonpositive name dir mode hw) as Hle.
  unfold snd_pcm_oboe_open.
  destruct (decide (fst (Initialize name dir mode hw) < 0)) as [Hn|Hn].
  - unfold delete_OboePcm, OboePcm_destructor, stream_reset, bind, deref.
    cbn [heap new_OboePcm with_ext with_heap].
    rewrite lookup_insert_eq. cbn [stream ret].
    eexists _, _. split; [reflexivity|]. split; [reflexivity|].
    right. split; [assumption|]. split; [|reflexivity].
    cbn. apply delete_insert_id. assumption.
  - assert (Hz : fst (Initialize name dir mode hw) = 0) by lia.
    rewrite Hz. eexists _, _. split; [reflexivity|].
    split; [reflexivity|]. left. split; [reflexivity|].
    split; [|reflexivity]. split; [reflexivity|].
    cbn. apply lookup_insert_eq.
Qed.

End EntryPointProperties.

(** ** Concrete runs on the simulated backend *)

Lemma Stop_pauses_then_flushes_witness :
  let s0 := sim_stream Started 100 0 in
  let w := sim_world (sim_ext 0) (Some s0) ms_clock in
  attached w 1 (Some s0) /\
  sim_state s0 <> Stopped /\ sim_state s0 <> Flushed /\
  Stop (H := SimStream sim_device) 7 w
  = Ret 0 (effect 1 (sim_stream Flushed 100 0)
             [EvGetState Started; EvRequestPause OK; EvGetState Pausing;
              EvWaitForStateChange Pausing TimeoutNanoseconds OK (Some Paused);
              EvRequestFlush OK; EvGetState Flushing;
              EvWaitForStateChange Flushing TimeoutNanoseconds OK
                (Some Flushed)] [] w).
Proof.
  intros s0 w.
  assert (Hatt : attached w 1 (Some s0)) by (split; reflexivity).
  assert (HnS : sim_state s0 <> Stopped) by discriminate.
  assert (HnF : sim_state s0 <> Flushed) by discriminate.
  repeat (split; [assumption|]).
  refine (proj1 (proj2 (Stop_pauses_then_flushes (H := SimStream sim_device)
                          w 1%nat s0 Hatt HnS HnF)) 0 _ [] _ _ 7%nat _).
  - refine (stop_flushed (H := SimStream sim_device) s0
              (sim_stream Pausing 100 0)
              [EvWaitForStateChange Pausing TimeoutNanoseconds OK (Some Paused)]
              (sim_stream Paused 100 0) (sim_stream Flushing 100 0)
              [EvWaitForStateChange Flushing TimeoutNanoseconds OK
                 (Some Flushed)]
              (sim_stream Flushed 100 0) eq_refl _ eq_refl _).
    + refine (wait_again (H := SimStream sim_device) Paused id Pausing
                (sim_stream Pausing 100 0) (Some Paused)
                (sim_stream Paused 100 0) [] None _ _ eq_refl
                (wait_reached _ _ _)).
      discriminate.
    + refine (wait_again (H := SimStream sim_device) Flushed
                (fun _ => Flushing) Flushing
                (sim_stream Flushing 100 0) (Some Flushed)
                (sim_stream Flushed 100 0) [] None _ _ eq_refl
                (wait_reached _ _ _)).
      discriminate.
  - cbn. lia.
Defined.

Lemma Stop_when_already_stopped_witness :
  let s := sim_stream Flushed 100 100 in
  let w := sim_world (sim_ext 0) (Some s) ms_clock in
  attached w 1 (Some s) /\
  (sim_state s = Stopped \/ sim_state s = Flushed) /\
  exists w',
    Stop (H := SimStream sim_device) 0 w = Ret 0 w' /\
    events w' = [EvGetState Flushed] /\ heap w' = heap w.
Proof.
  intros s w.
  assert (Hatt : attached w 1 (Some s)) by (split; reflexivity).
  assert (Hst : sim_state s = Stopped \/ sim_state s = Flushed)
    by (right; reflexivity).
  split; [exact Hatt|]. split; [exact Hst|].
  destruct (Stop_when_already_stopped (H := SimStream sim_device)
              w 1%nat s 0%nat Hatt Hst) as (w' & Hrun & Hev & Hheap & _).
  exists w'. split; [exact Hrun|]. split; [exact Hev|exact Hheap].
Defined.

Lemma Transfer_zero_frames_witness :
  let s := sim_stream Open 0 0 in
  let w := sim_world (sim_ext 0) (Some s) ms_clock in
  attached w 1 (Some s) /\
  Transfer (H := SimStream sim_device) false stereo_areas 0 0 w = Ret 0 w.
Proof.
  intros s w.
  assert (Hatt : attached w 1 (Some s)) by (split; reflexivity).
  split; [exact Hatt|].
  exact (Transfer_zero_frames (H := SimStream sim_device) false
           w 1%nat s stereo_areas 0 Hatt).
Defined.

Lemma Transfer_zero_frames_not_ready_witness :
  let w := sim_world (sim_ext 0) None ms_clock in
  attached w 1 None /\
  Transfer (H := SimStream sim_device) false stereo_areas 0 0 w
  = Ret NotReady w /\ NotReady <> 0.
Proof.
  intros w.
  assert (Hatt : attached w 1 None) by (split; reflexivity).
  split; [exact Hatt|].
  exact (Transfer_zero_frames_not_ready (H := SimStream sim_device) false
           w 1%nat stereo_areas 0 Hatt).
Defined.

Lemma Transfer_write_result_witness :
  let s := {| sim_state := Started; sim_written := 8192; sim_read := 0;
              sim_capacity := 8192; sim_drain := 48 |} in
  let w := sim_world (sim_ext 1) (Some s) ms_clock in
  let firstArea := {| addr := 4096; first := 0; step := 64 |} in
  let res := {| rv_value := 0; rv_error := OK |} in
  attached w 1 (Some s) /\ 512 <> 0 /\
  ((sim_state s = Started /\ s = s) \/
   (sim_state s <> Started /\ sim_request Starting s = (OK, s))) /\
  stereo_areas !! 0%nat = Some firstArea /\
  (false = true \/
   areas_interleaved stereo_areas firstArea
     (seq 0 (Z.to_nat (channels (ext w)))) = Some true) /\
  sim_write 4096 (to_int32 512) 0 s = (res, s) /\
  exists w',
    Transfer (H := SimStream sim_device) false stereo_areas 0 512 w
    = Ret WouldBlock w' /\ cerr w' = [].
Proof.
  intros s w firstArea res.
  assert (Hatt : attached w 1 (Some s)) by (split; reflexivity).
  assert (Hsize : 512 <> 0) by discriminate.
  assert (Hstart : (sim_state s = Started /\ s = s) \/
                   (sim_state s <> Started /\
                    sim_request Starting s = (OK, s)))
    by (left; split; reflexivity).
  assert (Hfirst : stereo_areas !! 0%nat = Some firstArea) by reflexivity.
  assert (Hil : false = true \/
                areas_interleaved stereo_areas firstArea
                  (seq 0 (Z.to_nat (channels (ext w)))) = Some true)
    by (right; reflexivity).
  assert (Hwrite : sim_write 4096 (to_int32 512) 0 s = (res, s))
    by reflexivity.
  repeat (split; [assumption|]).
  destruct (Transfer_write_result (H := SimStream sim_device) false
              w 1%nat s s s stereo_areas firstArea 0 512 res
              Hatt Hsize Hstart Hfirst Hil Hwrite)
    as (code & w' & Hrun & _ & _ & Hzero & _).
  destruct (Hzero eq_refl eq_refl) as (Hcode & _ & Hcerr).
  exists w'. rewrite <- Hcode. split; [exact Hrun|exact Hcerr].
Defined.

Lemma Pointer_position_witness :
  let s := sim_stream Started 5000 0 in
  let w := sim_world (sim_ext 0) (Some s) ms_clock in
  private_data (ext w) = Some 1%nat /\
  heap w !! 1%nat = Some {| stream := Some s |} /\
  0 < buffer_size (ext w) /\
  exists w', Pointer (H := SimStream sim_device) w = Ret 904 w'.
Proof.
  intros s w.
  assert (Hpd : private_data (ext w) = Some 1%nat) by reflexivity.
  assert (Hp : heap w !! 1%nat = Some {| stream := Some s |}) by reflexivity.
  assert (Hbs : 0 < buffer_size (ext w)) by reflexivity.
  repeat (split; [assumption|]).
  destruct (Pointer_position (H := SimStream sim_device) w 1%nat _ Hpd Hp Hbs)
    as (w' & _ & _ & _ & Hpos).
  destruct (Hpos ltac:(discriminate)) as (Hrun & _).
  exists w'. exact Hrun.
Defined.

Lemma Close_detaches_without_release_witness :
  let s := sim_stream Started 100 0 in
  let w := sim_world (sim_ext 0) (Some s) ms_clock in
  private_data (ext w) = Some 1%nat /\
  heap w !! 1%nat = Some {| stream := Some s |} /\
  exists w',
    Close w = Ret 0 w' /\ private_data (ext w') = None /\
    heap w' !! 1%nat = Some {| stream := Some s |} /\
    events w' = [] /\ Close w' = Ret 0 w'.
Proof.
  intros s w.
  assert (Hpd : private_data (ext w) = Some 1%nat) by reflexivity.
  assert (Hp : heap w !! 1%nat = Some {| stream := Some s |}) by reflexivity.
  repeat (split; [assumption|]).
  exact (Close_detaches_without_release w 1%nat _ Hpd Hp).
Defined.

(** C2, as stated, fails on the simulated backend: for the unsupported
    host format 1 the only thing [Prepare] does is to attempt the open, and
    the failure it reports is the backend's rejection of that open. *)
Lemma Prepare_unsupported_format_counterexample :
  let w := sim_world u8_ext None ms_clock in
  attached w 1 None /\ ~ supported_format (format (ext w)) /\
  exists w',
    Prepare (H := SimStream sim_device) w = Ret BackendError w' /\
    events w' = [EvOpenStream (builder_of u8_ext) ErrorInvalidFormat] /\
    events w' <> events w.
Proof.
  intros w. split; [split; reflexivity|]. split.
  - unfold supported_format. cbn. intros [E|[E|[E|E]]]; discriminate.
  - eexists. split; [vm_compute; reflexivity|].
    split; [reflexivity|]. discriminate.
Qed.

Lemma Prepare_unsupported_format_witness :
  let w := sim_world u8_ext None ms_clock in
  attached w 1 None /\ ~ supported_format (format (ext w)) /\
  b_format (builder_of (ext w)) = Invalid /\
  exists w', Prepare (H := SimStream sim_device) w = Ret BackendError w'.
Proof.
  intros w.
  assert (Hatt : attached w 1 None) by (split; reflexivity).
  assert (Hfmt : ~ supported_format (format (ext w))).
  { unfold supported_format. cbn. intros [E|[E|[E|E]]]; discriminate. }
  repeat (split; [assumption|]).
  destruct (Prepare_unsupported_format (H := SimStream sim_device)
              w 1%nat Hatt Hfmt) as (Hinv & _ & Hrej).
  split; [exact Hinv|].
  destruct (Hrej ltac:(discriminate)) as (w' & Hrun & _).
  exists w'. exact Hrun.
Defined.

Lemma Prepare_insufficient_capacity_witness :
  let w := sim_world (sim_ext 0) None ms_clock in
  let s := {| sim_state := Open; sim_written := 0; sim_read := 0;
              sim_capacity := 100; sim_drain := 48 |} in
  attached w 1 None /\
  sim_open cramped_device (builder_of (ext w)) = (OK, Some s) /\
  0 <= to_int32 (sim_capacity s) /\
  to_int32 (sim_capacity s) < buffer_size (ext w) /\
  buffer_size (ext w) < 2 ^ 64 /\
  exists w',
    Prepare (H := SimStream cramped_device) w = Ret IOError w' /\
    attached w' 1 None /\
    events w' = [EvOpenStream (builder_of (sim_ext 0)) OK;
                 EvGetBufferCapacityInFrames 100;
                 EvGetBufferCapacityInFrames 100;
                 EvRelease].
Proof.
  intros w s.
  assert (Hatt : attached w 1 None) by (split; reflexivity).
  assert (Hopen : sim_open cramped_device (builder_of (ext w))
                  = (OK, Some s)) by reflexivity.
  assert (Hpos : 0 <= to_int32 (sim_capacity s))
    by (vm_compute; discriminate).
  assert (Hcap : to_int32 (sim_capacity s) < buffer_size (ext w))
    by (vm_compute; reflexivity).
  assert (Hbs : buffer_size (ext w) < 2 ^ 64) by (vm_compute; reflexivity).
  repeat (split; [assumption|]).
  destruct (Prepare_insufficient_capacity (H := SimStream cramped_device)
              w 1%nat s Hatt Hopen Hpos Hcap Hbs)
    as (w' & Hrun & Hatt' & _ & _ & Hev).
  exists w'. split; [exact Hrun|]. split; [exact Hatt'|exact Hev].
Defined.

Lemma Drain_safety_valve_witness :
  let w := sim_world (sim_ext 0) (Some stuck_stream) ms_clock in
  let deadline := one_second_later (time_now w) in
  attached w 1 (Some stuck_stream) /\
  (forall fuel,
     Drain (H := SimStream stuck_device) fuel w =
     match Drain_poll (H := SimStream stuck_device) fuel (Some 1%nat)
             deadline (clock_read w) with
     | Ret (Return code) w' => Ret code w'
     | Ret _ w' =>
         Drain_stop (H := SimStream stuck_device) fuel (Some 1%nat) w'
     | Stuck f => Stuck f
     end) /\
  exists w',
    Drain_poll_body (H := SimStream stuck_device) (Some 1%nat) deadline
      (tick 1001 w) = Ret Break w'.
Proof.
  intros w deadline.
  assert (Hatt : attached w 1 (Some stuck_stream)) by (split; reflexivity).
  split; [exact Hatt|].
  destruct (Drain_safety_valve (H := SimStream stuck_device)
              w 1%nat stuck_stream Hatt) as (_ & Hdrain & Hpass).
  split; [exact Hdrain|].
  destruct (Hpass (tick 1001 w) stuck_stream eq_refl)
    as (step & w' & Hbody & _ & Hvalve & _).
  assert (Hstep : step = Break).
  { apply Hvalve. split; [vm_compute; reflexivity|].
    split; reflexivity. }
  exists w'. rewrite <- Hstep. exact Hbody.
Defined.

(** The whole of [Drain] on a stream that never reads a frame, with one
    clock reading per millisecond: the loop polls until the reading past
    one second, then the stop goes through. *)
Example Drain_stuck_backend_drains :
  let s := {| sim_state := Started; sim_written := 512; sim_read := 0;
              sim_capacity := 8192; sim_drain := 0 |} in
  match Drain (H := SimStream stuck_device) 1100
          (sim_world (sim_ext 0) (Some s) ms_clock) with
  | Ret r w' =>
      r = 0 /\ clock_reads w' = 1002%nat /\
      heap w' !! 1%nat =
        Some {| stream := Some {| sim_state := Stopped; sim_written := 512;
                                  sim_read := 0; sim_capacity := 8192;
                                  sim_drain := 0 |} |}
  | Stuck _ => False
  end.
Proof. vm_compute. repeat split; reflexivity. Qed.

(** ** Concrete runs of the callbacks as a whole *)

Lemma callbacks_not_ready_witness :
  let w := sim_world (sim_ext 0) None ms_clock in
  attached w 1 None /\
  Start (H := SimStream sim_device) w = Ret NotReady w /\
  Drain (H := SimStream sim_device) 3 w = Ret NotReady w.
Proof.
  intros w.
  assert (Hatt : attached w 1 None) by (split; reflexivity).
  split; [exact Hatt|].
  destruct (callbacks_not_ready (H := SimStream sim_device) w 1%nat Hatt)
    as (HS & _ & _ & _ & HD & _).
  split; [exact HS|exact (HD 3%nat)].
Defined.

Lemma control_callbacks_status_witness :
  let w := sim_world (sim_ext 0) (Some (sim_stream Open 0 0)) ms_clock in
  exists w', Start (H := SimStream sim_device) w = Ret 0 w' /\
             control_status 0.
Proof.
  intros w.
  assert (Hrun : {w' | Start (H := SimStream sim_device) w = Ret 0 w'})
    by (eexists; vm_compute; reflexivity).
  destruct Hrun as [w' Hrun]. exists w'. split; [exact Hrun|].
  exact (proj1 (control_callbacks_status (H := SimStream sim_device) w)
           0 w' Hrun).
Defined.

Lemma callbacks_keep_bridge_witness :
  let s := sim_stream Started 100 0 in
  let w := sim_world (sim_ext 0) (Some s) ms_clock in
  attached w 1 (Some s) /\
  exists w', Stop (H := SimStream sim_device) 4 w = Ret 0 w' /\
             keeps_bridge 1 w w'.
Proof.
  intros s w.
  assert (Hatt : attached w 1 (Some s)) by (split; reflexivity).
  split; [exact Hatt|].
  assert (Hrun : {w' | Stop (H := SimStream sim_device) 4 w = Ret 0 w'})
    by (eexists; vm_compute; reflexivity).
  destruct Hrun as [w' Hrun]. exists w'. split; [exact Hrun|].
  destruct (callbacks_keep_bridge (H := SimStream sim_device) w 1%nat s Hatt)
    as (_ & Hstop & _).
  exact (Hstop 4%nat 0 w' Hrun).
Defined.

Lemma Start_and_Pause_request_once_witness :
  let s := sim_stream Paused 100 0 in
  let w := sim_world (sim_ext 0) (Some s) ms_clock in
  attached w 1 (Some s) /\
  exists w', Pause (H := SimStream sim_device) 0 w = Ret 0 w' /\
             events w' = [EvRequestPause OK] /\
             heap w' !! 1%nat = Some {| stream := Some (sim_stream Pausing 100 0) |}.
Proof.
  intros s w.
  assert (Hatt : attached w 1 (Some s)) by (split; reflexivity).
  split; [exact Hatt|].
  destruct (proj2 (Start_and_Pause_request_once (H := SimStream sim_device)
                     w 1%nat s Hatt) 0)
    as (w' & Hrun & Hev & Hheap).
  exists w'. split; [exact Hrun|]. split; [exact Hev|exact Hheap].
Defined.

Lemma Transfer_backend_calls_witness :
  let s := sim_stream Open 0 0 in
  let w := sim_world (sim_ext 0) (Some s) ms_clock in
  attached w 1 (Some s) /\
  exists w' evs,
    Transfer (H := SimStream sim_device) false stereo_areas 0 512 w
    = Ret 512 w' /\
    events w' = events w ++ evs /\ (512 = 0 <-> 512 = 0).
Proof.
  intros s w.
  assert (Hatt : attached w 1 (Some s)) by (split; reflexivity).
  split; [exact Hatt|].
  assert (Hrun : {w' | Transfer (H := SimStream sim_device) false
                         stereo_areas 0 512 w = Ret 512 w'})
    by (eexists; vm_compute; reflexivity).
  destruct Hrun as [w' Hrun].
  destruct (Transfer_backend_calls (H := SimStream sim_device) false
              stereo_areas 0 512 w 1%nat s 512 w' Hatt Hrun)
    as (Hiff & evs & Hev & _).
  exists w', evs. split; [exact Hrun|]. split; [exact Hev|exact Hiff].
Defined.

Lemma Transfer_start_refused_witness :
  let s := sim_stream Closed 0 0 in
  let w := sim_world (sim_ext 0) (Some s) ms_clock in
  attached w 1 (Some s) /\ 512 <> 0 /\ sim_state s <> Started /\
  sim_request Starting s = (ErrorClosed, s) /\ ErrorClosed <> OK /\
  Transfer (H := SimStream sim_device) false [] 7 512 w =
  Ret BackendError
    (effect 1 s [EvGetState Closed; EvRequestStart ErrorClosed]
       [FailedToStartFromTransfer ErrorClosed] w).
Proof.
  intros s w.
  assert (Hatt : attached w 1 (Some s)) by (split; reflexivity).
  assert (Hsize : 512 <> 0) by discriminate.
  assert (Hst : sim_state s <> Started) by discriminate.
  assert (Hreq : sim_request Starting s = (ErrorClosed, s)) by reflexivity.
  assert (Hrs : ErrorClosed <> OK) by discriminate.
  repeat (split; [assumption|]).
  exact (Transfer_start_refused (H := SimStream sim_device) false [] 7 512
           w 1%nat s ErrorClosed s Hatt Hsize Hst Hreq Hrs).
Defined.

Lemma Transfer_rejects_non_interleaved_witness :
  let s := sim_stream Started 0 0 in
  let w := sim_world (sim_ext 0) (Some s) ms_clock in
  let firstArea := {| addr := 4096; first := 0; step := 32 |} in
  attached w 1 (Some s) /\ 512 <> 0 /\
  ((sim_state s = Started /\ s = s) \/
   (sim_state s <> Started /\ sim_request Starting s = (OK, s))) /\
  planar_areas !! 0%nat = Some firstArea /\
  areas_interleaved planar_areas firstArea
    (seq 0 (Z.to_nat (channels (ext w)))) = Some false /\
  exists w',
    Transfer (H := SimStream sim_device) false planar_areas 0 512 w
    = Ret BackendError w' /\
    cerr w' = [NonInterleaved] /\ events w' = [EvGetState Started].
Proof.
  intros s w firstArea.
  assert (Hatt : attached w 1 (Some s)) by (split; reflexivity).
  assert (Hsize : 512 <> 0) by discriminate.
  assert (Hstart : (sim_state s = Started /\ s = s) \/
                   (sim_state s <> Started /\
                    sim_request Starting s = (OK, s)))
    by (left; split; reflexivity).
  assert (Hfirst : planar_areas !! 0%nat = Some firstArea) by reflexivity.
  assert (Hchk : areas_interleaved planar_areas firstArea
                   (seq 0 (Z.to_nat (channels (ext w)))) = Some false)
    by reflexivity.
  repeat (split; [assumption|]).
  destruct (Transfer_rejects_non_interleaved (H := SimStream sim_device)
              planar_areas 0 512 w 1%nat s s firstArea
              Hatt Hsize Hstart Hfirst Hchk)
    as (w' & Hrun & Hcerr & _ & Hev).
  exists w'. split; [exact Hrun|]. split; [exact Hcerr|exact Hev].
Defined.

Lemma Prepare_idempotent_witness :
  let w := sim_world (sim_ext 0) None ms_clock in
  attached w 1 None /\
  exists w',
    Prepare (H := SimStream sim_device) w = Ret 0 w' /\
    Prepare (H := SimStream sim_device) w' = Ret 0 w'.
Proof.
  intros w.
  assert (Hatt : attached w 1 None) by (split; reflexivity).
  split; [exact Hatt|].
  assert (Hrun : {w' | Prepare (H := SimStream sim_device) w = Ret 0 w'})
    by (eexists; vm_compute; reflexivity).
  destruct Hrun as [w' Hrun]. exists w'. split; [exact Hrun|].
  exact (proj2 (Prepare_idempotent (H := SimStream sim_device)
                  w 1%nat None w' Hatt Hrun)).
Defined.

Lemma Prepare_holds_stream_iff_success_witness :
  let w := sim_world (sim_ext 0) None ms_clock in
  attached w 1 None /\
  (fst (sim_open sim_device (builder_of (ext w))) <> OK ->
   snd (sim_open sim_device (builder_of (ext w))) = None) /\
  exists w' s,
    Prepare (H := SimStream sim_device) w = Ret 0 w' /\
    attached w' 1 (Some s).
Proof.
  intros w.
  assert (Hatt : attached w 1 None) by (split; reflexivity).
  assert (Hcontract : fst (sim_open sim_device (builder_of (ext w))) <> OK ->
                      snd (sim_open sim_device (builder_of (ext w))) = None)
    by (intros E; exfalso; apply E; reflexivity).
  split; [exact Hatt|]. split; [exact Hcontract|].
  assert (Hrun : {w' | Prepare (H := SimStream sim_device) w = Ret 0 w'})
    by (eexists; vm_compute; reflexivity).
  destruct Hrun as [w' Hrun].
  destruct (Prepare_holds_stream_iff_success (H := SimStream sim_device)
              w 1%nat 0 w' Hatt Hcontract Hrun)
    as [(_ & s & Hatt' & _) | (Hneg & _)].
  - exists w', s. split; [exact Hrun|exact Hatt'].
  - exfalso. revert Hneg. discriminate.
Defined.

Lemma Prepare_capacity_too_small_witness :
  let w := sim_world (sim_ext 0) None ms_clock in
  let s := {| sim_state := Open; sim_written := 0; sim_read := 0;
              sim_capacity := 100; sim_drain := 48 |} in
  let small := {| dev_capacity := 100; dev_drain := 48 |} in
  attached w 1 None /\
  sim_open small (builder_of (ext w)) = (OK, Some s) /\
  0 <= to_int32 (sim_capacity s) < buffer_size (ext w) /\
  buffer_size (ext w) <= 2 ^ 64 /\
  exists w',
    Prepare (H := SimStream small) w = Ret IOError w' /\
    heap w' !! 1%nat = Some {| stream := None |}.
Proof.
  intros w s small.
  assert (Hatt : attached w 1 None) by (split; reflexivity).
  assert (Hopen : sim_open small (builder_of (ext w)) = (OK, Some s))
    by reflexivity.
  assert (Hcap : 0 <= to_int32 (sim_capacity s) < buffer_size (ext w))
    by (vm_compute; split; [discriminate|reflexivity]).
  assert (Hbs : buffer_size (ext w) <= 2 ^ 64)
    by (vm_compute; discriminate).
  repeat (split; [assumption|]).
  destruct (Prepare_capacity_too_small (H := SimStream small)
              w 1%nat s Hatt Hopen Hcap Hbs) as (w' & Hrun & Hheap & _).
  exists w'. split; [exact Hrun|exact Hheap].
Defined.

Lemma Stop_success_reported_witness :
  let s := sim_stream Started 100 0 in
  let w := sim_world (sim_ext 0) (Some s) ms_clock in
  attached w 1 (Some s) /\
  exists w' evs,
    Stop (H := SimStream sim_device) 4 w = Ret 0 w' /\
    events w' = events w ++ evs /\
    (last_reported evs = Some Flushed \/
     (last_reported evs = Some Stopped /\ sim_state s = Stopped)).
Proof.
  intros s w.
  assert (Hatt : attached w 1 (Some s)) by (split; reflexivity).
  split; [exact Hatt|].
  assert (Hrun : {w' | Stop (H := SimStream sim_device) 4 w = Ret 0 w'})
    by (eexists; vm_compute; reflexivity).
  destruct Hrun as [w' Hrun].
  destruct (Stop_success_reported (H := SimStream sim_device)
              4 w 1%nat s w' Hatt Hrun) as (evs & Hev & Hlast).
  exists w', evs. split; [exact Hrun|]. split; [exact Hev|exact Hlast].
Defined.

Lemma Drain_ends_with_stop_witness :
  let s := sim_stream Started 100 100 in
  let w := sim_world (sim_ext 0) (Some s) ms_clock in
  heap w !! 1%nat = Some {| stream := Some s |} /\
  Drain_stop (H := SimStream sim_device) 3 (Some 1%nat) w
  = Ret 0 (effect 1 (sim_stream Stopped 100 100)
             [EvRequestStop OK; EvGetState Stopping;
              EvWaitForStateChange Stopping TimeoutNanoseconds OK
                (Some Stopped)] [] w).
Proof.
  intros s w.
  assert (Hp : heap w !! 1%nat = Some {| stream := Some s |}) by reflexivity.
  split; [exact Hp|].
  refine (proj2 (Drain_ends_with_stop (H := SimStream sim_device)
                   w 1%nat s Hp) 0 _ [] _ _ 3%nat _).
  - refine (drain_stop_waited (H := SimStream sim_device) s
              (sim_stream Stopping 100 100)
              [EvWaitForStateChange Stopping TimeoutNanoseconds OK
                 (Some Stopped)]
              None (sim_stream Stopped 100 100) eq_refl _).
    refine (wait_again (H := SimStream sim_device) Stopped id Stopping
              (sim_stream Stopping 100 100) (Some Stopped)
              (sim_stream Stopped 100 100) [] None _ _ eq_refl
              (wait_reached _ _ _)).
    discriminate.
  - cbn. lia.
Defined.

Lemma Drain_backend_calls_witness :
  let s := sim_stream Started 100 100 in
  let w := sim_world (sim_ext 0) (Some s) ms_clock in
  attached w 1 (Some s) /\
  exists w' polled st waits,
    Drain (H := SimStream sim_device) 3 w = Ret 0 w' /\
    events w' = events w ++
                polled ++ EvRequestStop OK :: EvGetState st :: waits /\
    Forall (fun e => is_counter_query e = true) polled /\
    Forall (fun e => is_wait e = true) waits /\
    last_reported (polled ++ EvRequestStop OK :: EvGetState st :: waits)
    = Some Stopped.
Proof.
  intros s w.
  assert (Hatt : attached w 1 (Some s)) by (split; reflexivity).
  split; [exact Hatt|].
  assert (Hrun : {w' | Drain (H := SimStream sim_device) 3 w = Ret 0 w'})
    by (eexists; vm_compute; reflexivity).
  destruct Hrun as [w' Hrun].
  destruct (Drain_backend_calls (H := SimStream sim_device)
              3 w 1%nat s 0 w' Hatt Hrun)
    as (polled & stopping & Hev & Hq &
        [(_ & Hbad) | [(rs & _ & _ & Hbad) |
                       (st & waits & Hs & Hw & _ & Hok)]]).
  - exfalso. revert Hbad. discriminate.
  - exfalso. revert Hbad. discriminate.
  - subst stopping. exists w', polled, st, waits.
    split; [exact Hrun|]. split; [exact Hev|]. split; [exact Hq|].
    split; [exact Hw|exact (Hok eq_refl)].
Defined.

Lemma Drain_already_drained_witness :
  let s := sim_stream Started 100 100 in
  let w := sim_world (sim_ext 0) (Some s) ms_clock in
  attached w 1 (Some s) /\ 0 <= to_int64 (sim_read s) /\
  to_int64 (sim_read s) = to_int64 (sim_written s) /\
  Drain (H := SimStream sim_device) 3 w =
  Drain_stop (H := SimStream sim_device) 3 (Some 1%nat)
    (tick 1 (effect 1 s [EvGetFramesRead 100; EvGetFramesWritten 100] [] w)).
Proof.
  intros s w.
  assert (Hatt : attached w 1 (Some s)) by (split; reflexivity).
  assert (Hpos : 0 <= to_int64 (sim_read s)) by (vm_compute; discriminate).
  assert (Heq : to_int64 (sim_read s) = to_int64 (sim_written s))
    by reflexivity.
  repeat (split; [assumption|]).
  exact (Drain_already_drained (H := SimStream sim_device)
           2 w 1%nat s Hatt Hpos Heq).
Defined.

Lemma Drain_counter_error_witness :
  let s := sim_stream Started 100 (-5) in
  let w := sim_world (sim_ext 0) (Some s) ms_clock in
  attached w 1 (Some s) /\
  (to_int64 (sim_read s) < 0 \/ to_int64 (sim_written s) < 0) /\
  exists evs ds,
    Drain (H := SimStream sim_device) 1 w
    = Ret BackendError (tick 1 (effect 1 s evs ds w)) /\
    requests evs = [].
Proof.
  intros s w.
  assert (Hatt : attached w 1 (Some s)) by (split; reflexivity).
  assert (Hneg : to_int64 (sim_read s) < 0 \/ to_int64 (sim_written s) < 0)
    by (left; reflexivity).
  repeat (split; [assumption|]).
  destruct (Drain_counter_error (H := SimStream sim_device)
              0 w 1%nat s Hatt Hneg) as (evs & ds & Hrun & Hreq & _).
  exists evs, ds. split; [exact Hrun|exact Hreq].
Defined.

Lemma Drain_leaves_stuck_backend_witness :
  let stuck := fun s : Sim =>
    sim_state s = Started /\ sim_read s = 0 /\ sim_written s = 512 /\
    sim_drain s = 0 in
  let w := sim_world (sim_ext 0) (Some stuck_stream) ms_clock in
  (forall s, stuck s ->
     to_int64 (sim_read s) = 0 /\ to_int64 (sim_written s) > 0 /\
     stuck (sim_elapse 1000 s)) /\
  attached w 1 (Some stuck_stream) /\
  stuck stuck_stream /\
  (1000 < 1100)%nat /\
  (forall j, (j < 1000)%nat ->
     clock w (clock_reads w + 1 + j)%nat - clock w (clock_reads w)
     <= 1000000000) /\
  clock w (clock_reads w + 1 + 1000)%nat - clock w (clock_reads w)
  > 1000000000 /\
  exists s' evs,
    Drain (H := SimStream stuck_device) 1100 w
    = Drain_stop (H := SimStream stuck_device) 1100 (Some 1%nat)
        (tick (1000 + 2) (effect 1 s' evs [] w)) /\
    length evs = (2 * (1000 + 1))%nat.
Proof.
  intros stuck w.
  assert (Hinv : forall s, stuck s ->
            to_int64 (sim_read s) = 0 /\ to_int64 (sim_written s) > 0 /\
            stuck (sim_elapse 1000 s)).
  { intros [st wr rd cap dr] (Hst & Hrd & Hwr & Hdr). cbn in *. subst.
    split; [reflexivity|]. split; [reflexivity|].
    unfold stuck, sim_elapse; cbn. repeat split; reflexivity. }
  assert (Hatt : attached w 1 (Some stuck_stream)) by (split; reflexivity).
  assert (Hs : stuck stuck_stream) by (repeat split; reflexivity).
  assert (Hfuel : (1000 < 1100)%nat) by lia.
  assert (Hearly : forall j, (j < 1000)%nat ->
            clock w (clock_reads w + 1 + j)%nat - clock w (clock_reads w)
            <= 1000000000).
  { intros j Hj. cbn. unfold ms_clock. lia. }
  assert (Hlate : clock w (clock_reads w + 1 + 1000)%nat
                  - clock w (clock_reads w) > 1000000000).
  { cbn. unfold ms_clock. lia. }
  repeat (split; [assumption|]).
  destruct (Drain_leaves_stuck_backend (H := SimStream stuck_device)
              stuck 1100%nat 1000%nat w 1%nat stuck_stream
              Hinv Hatt Hs Hfuel Hearly Hlate)
    as (s' & evs & Hrun & _ & Hlen & _).
  exists s', evs. split; [exact Hrun|exact Hlen].
Defined.

Lemma Initialize_negotiates_witness :
  fst (Initialize 0 SND_PCM_STREAM_PLAYBACK 0 failing_host) = -22 /\
  host_calls (snd (Initialize 0 SND_PCM_STREAM_PLAYBACK 0 failing_host))
  = firstn 4 (negotiation 0 0) /\
  fst (Initialize 0 SND_PCM_STREAM_CAPTURE 0 failing_host) = - EINVAL.
Proof.
  split; [reflexivity|]. split; [reflexivity|].
  exact (proj1 (proj1 (proj2 (Initialize_negotiates 0 SND_PCM_STREAM_CAPTURE
                                0 failing_host))
                  ltac:(discriminate))).
Defined.

Lemma builder_carries_parameters_witness :
  0 <= channels (sim_ext 0) < 2 ^ 31 /\
  0 <= rate (sim_ext 0) < 2 ^ 31 /\
  0 <= buffer_size (sim_ext 0) < 2 ^ 31 /\
  b_channelCount (builder_of (sim_ext 0)) = 2 /\
  b_sampleRate (builder_of (sim_ext 0)) = 48000 /\
  b_bufferCapacityInFrames (builder_of (sim_ext 0)) = 4096.
Proof.
  assert (Hc : 0 <= channels (sim_ext 0) < 2 ^ 31) by (cbn; lia).
  assert (Hr : 0 <= rate (sim_ext 0) < 2 ^ 31) by (cbn; lia).
  assert (Hb : 0 <= buffer_size (sim_ext 0) < 2 ^ 31) by (cbn; lia).
  repeat (split; [assumption|]).
  destruct (builder_carries_parameters (sim_ext 0) Hc Hr Hb)
    as (H1 & H2 & H3 & _).
  split; [exact H1|]. split; [exact H2|exact H3].
Defined.

Lemma snd_pcm_oboe_open_result_witness :
  let w := sim_world (sim_ext 0) None ms_clock in
  heap w !! 2%nat = None /\
  exists pcmp' w',
    snd_pcm_oboe_open (T := Sim) (Some 2%nat) 0 SND_PCM_STREAM_PLAYBACK 0
      failing_host None w
    = Ret (-22, snd (Initialize 0 SND_PCM_STREAM_PLAYBACK 0 failing_host),
           pcmp') w' /\
    heap w' = heap w /\ pcmp' = None.
Proof.
  intros w.
  assert (Hfresh : heap w !! 2%nat = None) by reflexivity.
  split; [exact Hfresh|].
  destruct (proj2 (snd_pcm_oboe_open_result (T := Sim) w 2%nat 0
                     SND_PCM_STREAM_PLAYBACK 0 failing_host None Hfresh))
    as (pcmp' & w' & Hrun & _ & [(Hz & _) | (_ & Hheap & Hpcmp)]).
  - exfalso. revert Hz. vm_compute. discriminate.
  - exists pcmp', w'. split; [exact Hrun|]. split; [exact Hheap|exact Hpcmp].
Defined.
